(** * sim900: the session protocol engine of python-sim900

    A shallow embedding of [src/sim900.py] and the properties of its
    frame splitter, transaction engine, reassembly buffer, URC classifier,
    deferred task queue and run loop.

    Python values are modelled as follows.
    - [str] is a list of Unicode code points ([pystr], a [list Z]);
    - [bytes] is a [list byte];
    - [int] is [Z];
    - a raised exception is the [Raise] outcome of [Res]; session methods
      live in the state-and-exception monad [M], whose state survives a
      raise exactly as the attributes of a Python object do;
    - the serial port and the wall clock are fields of the session state,
      next to a trace that records every write, sleep and callback. *)

From Stdlib Require Import ZArith List Lia Bool Ascii String DecimalString.
From Stdlib.Strings Require Import Byte.
From stdpp Require Import gmap list sorting.

Local Open Scope Z_scope.

(** ** Python strings and bytes *)

Abbreviation pystr := (list Z).
Abbreviation bytes := (list byte).

(** A literal of the source, given as a Rocq string. *)
Definition lit (s : string) : pystr :=
  List.map (fun a => Z.of_nat (nat_of_ascii a)) (list_ascii_of_string s).

(** The one-character string holding a double quote (code point 34). *)
Definition dquote : pystr := [34].

Inductive exn : Type :=
  | IndexError
  | ValueError
  | KeyError
  | AttributeError
  | UnicodeDecodeError
  | UnicodeEncodeError
  | EncodingError
  | Sim900NoResponse
  | Sim900Error (r : option bytes)
  | OtherError (tag : Z).

Inductive Res (A : Type) : Type :=
  | Ok (a : A)
  | Raise (e : exn).
Arguments Ok {A} a.
Arguments Raise {A} e.

(** [p == q] on strings. *)
Definition str_eqb (p q : pystr) : bool := bool_decide (p = q).

(** [s.startswith(p)]. *)
Fixpoint startswith (p s : pystr) : bool :=
  match p, s with
  | [], _ => true
  | _ :: _, [] => false
  | a :: p', b :: s' => (a =? b) && startswith p' s'
  end.

(** [sub in s]. *)
Fixpoint contains (sub s : pystr) : bool :=
  startswith sub s ||
  match s with
  | [] => false
  | _ :: s' => contains sub s'
  end.

(** [s.split(sep)] for a non-empty [sep] (every call site passes a
    non-empty literal; Python raises ValueError on an empty one).  The scan
    is left to right; [skip] counts the characters of a separator that was
    just matched and still has to be passed over. *)
Fixpoint split_go (sep : pystr) (skip : nat) (cur s : pystr) : list pystr :=
  match s with
  | [] => [cur]
  | c :: s' =>
      match skip with
      | S k => split_go sep k cur s'
      | O =>
          if startswith sep s
          then cur :: split_go sep (length sep - 1) [] s'
          else split_go sep 0 (cur ++ [c]) s'
      end
  end.

Definition split (sep s : pystr) : list pystr := split_go sep 0 [] s.

(** [str.isspace] on one code point: the characters [s.split()] with no
    argument splits on. *)
Definition isspace (c : Z) : bool :=
  ((9 <=? c) && (c <=? 13)) || ((28 <=? c) && (c <=? 32)) ||
  (c =? 133) || (c =? 160) || (c =? 5760) ||
  ((8192 <=? c) && (c <=? 8202)) || (c =? 8232) || (c =? 8233) ||
  (c =? 8239) || (c =? 8287) || (c =? 12288).

(** [s.split()]: the maximal runs of non-space characters. *)
Fixpoint split_ws_go (cur s : pystr) : list pystr :=
  match s with
  | [] => match cur with [] => [] | _ => [cur] end
  | c :: s' =>
      if isspace c
      then match cur with
           | [] => split_ws_go [] s'
           | _ => cur :: split_ws_go [] s'
           end
      else split_ws_go (cur ++ [c]) s'
  end.

Definition split_ws (s : pystr) : list pystr := split_ws_go [] s.

(** [s.replace(old, new)]; with an empty [old], Python inserts [new]
    before every character and at the end. *)
Fixpoint replace_go (old new : pystr) (skip : nat) (s : pystr) : pystr :=
  match s with
  | [] => []
  | c :: s' =>
      match skip with
      | S k => replace_go old new k s'
      | O =>
          if startswith old s
          then new ++ replace_go old new (length old - 1) s'
          else c :: replace_go old new 0 s'
      end
  end.

Definition replace (old new s : pystr) : pystr :=
  match old with
  | [] => new ++ flat_map (fun c => c :: new) s
  | _ => replace_go old new 0 s
  end.

(** [l[i]] with Python's negative indices; IndexError out of range. *)
Definition getitem {A} (l : list A) (i : Z) : Res A :=
  let n := Z.of_nat (length l) in
  let j := if i <? 0 then i + n else i in
  if (j <? 0) || (n <=? j) then Raise IndexError
  else match nth_error l (Z.to_nat j) with
       | Some x => Ok x
       | None => Raise IndexError
       end.

(** [l[a:b]] with Python's slice normalisation (negative bounds count
    from the end, every bound is clamped to the sequence). *)
Definition clamp_index (n i : Z) : Z :=
  let j := if i <? 0 then i + n else i in
  Z.max 0 (Z.min n j).

Definition pyslice {A} (l : list A) (a b : Z) : list A :=
  let n := Z.of_nat (length l) in
  let lo := clamp_index n a in
  let hi := clamp_index n b in
  take (Z.to_nat (hi - lo)) (drop (Z.to_nat lo) l).

(** [str(n)] for an int, as the f-strings of the source render it. *)
Definition str_of_int (n : Z) : pystr :=
  lit (DecimalString.NilZero.string_of_int (Z.to_int n)).

(** ** Codecs of the Python runtime *)

Definition byteZ (b : byte) : Z := Z.of_N (Byte.to_N b).

Definition byte_of_Z (z : Z) : byte :=
  match Byte.of_N (Z.to_N z) with
  | Some b => b
  | None => x00
  end.

Definition is_cont (b : byte) : bool := (128 <=? byteZ b) && (byteZ b <=? 191).
Definition cont_bits (b : byte) : Z := byteZ b - 128.

(** [b.decode("utf-8")], strict: overlong forms, surrogates and code
    points above U+10FFFF are rejected ([None] is UnicodeDecodeError). *)
Fixpoint utf8_decode (bs : bytes) : option pystr :=
  match bs with
  | [] => Some []
  | b0 :: r0 =>
      let z0 := byteZ b0 in
      if z0 <? 128 then
        match utf8_decode r0 with
        | Some s => Some (z0 :: s)
        | None => None
        end
      else if (194 <=? z0) && (z0 <=? 223) then
        match r0 with
        | b1 :: r1 =>
            if is_cont b1 then
              match utf8_decode r1 with
              | Some s => Some (((z0 - 192) * 64 + cont_bits b1) :: s)
              | None => None
              end
            else None
        | _ => None
        end
      else if (224 <=? z0) && (z0 <=? 239) then
        match r0 with
        | b1 :: b2 :: r2 =>
            let lo := if z0 =? 224 then 160 else 128 in
            let hi := if z0 =? 237 then 159 else 191 in
            if (lo <=? byteZ b1) && (byteZ b1 <=? hi) && is_cont b2 then
              match utf8_decode r2 with
              | Some s =>
                  Some (((z0 - 224) * 4096 + cont_bits b1 * 64 + cont_bits b2) :: s)
              | None => None
              end
            else None
        | _ => None
        end
      else if (240 <=? z0) && (z0 <=? 244) then
        match r0 with
        | b1 :: b2 :: b3 :: r3 =>
            let lo := if z0 =? 240 then 144 else 128 in
            let hi := if z0 =? 244 then 143 else 191 in
            if (lo <=? byteZ b1) && (byteZ b1 <=? hi) && is_cont b2 && is_cont b3 then
              match utf8_decode r3 with
              | Some s =>
                  Some (((z0 - 240) * 262144 + cont_bits b1 * 4096
                         + cont_bits b2 * 64 + cont_bits b3) :: s)
              | None => None
              end
            else None
        | _ => None
        end
      else None
  end.

Definition is_surrogate (c : Z) : bool := (55296 <=? c) && (c <=? 57343).

(** [bytes(s, "utf-8")]; [None] is UnicodeEncodeError (a lone surrogate). *)
Definition utf8_encode_char (c : Z) : option bytes :=
  if c <? 0 then None
  else if c <? 128 then Some [byte_of_Z c]
  else if c <? 2048 then
    Some [byte_of_Z (192 + c / 64); byte_of_Z (128 + c mod 64)]
  else if c <? 65536 then
    if is_surrogate c then None
    else Some [byte_of_Z (224 + c / 4096); byte_of_Z (128 + (c / 64) mod 64);
               byte_of_Z (128 + c mod 64)]
  else if c <? 1114112 then
    Some [byte_of_Z (240 + c / 262144); byte_of_Z (128 + (c / 4096) mod 64);
          byte_of_Z (128 + (c / 64) mod 64); byte_of_Z (128 + c mod 64)]
  else None.

Fixpoint utf8_encode (s : pystr) : option bytes :=
  match s with
  | [] => Some []
  | c :: s' =>
      match utf8_encode_char c, utf8_encode s' with
      | Some b, Some r => Some (b ++ r)
      | _, _ => None
      end
  end.

(** One UTF-16 code unit, big endian. *)
Definition unit_be (u : Z) : bytes := [byte_of_Z (u / 256); byte_of_Z (u mod 256)].

(** [s.encode("utf-16-be")] on one character: one unit inside the basic
    plane, a surrogate pair above it, UnicodeEncodeError ([None]) on a lone
    surrogate. *)
Definition utf16be_encode_char (c : Z) : option bytes :=
  if c <? 0 then None
  else if c <? 65536 then
    if is_surrogate c then None else Some (unit_be c)
  else if c <? 1114112 then
    let v := c - 65536 in
    Some (unit_be (55296 + v / 1024) ++ unit_be (56320 + v mod 1024))
  else None.

Fixpoint utf16be_encode (s : pystr) : option bytes :=
  match s with
  | [] => Some []
  | c :: s' =>
      match utf16be_encode_char c, utf16be_encode s' with
      | Some b, Some r => Some (b ++ r)
      | _, _ => None
      end
  end.

(** [binascii.hexlify]: two lower-case hexadecimal digits per byte. *)
Definition hexdigit (n : Z) : byte :=
  byte_of_Z (if n <? 10 then 48 + n else 87 + n).

Definition hexlify (bs : bytes) : bytes :=
  flat_map (fun b => [hexdigit (byteZ b / 16); hexdigit (byteZ b mod 16)]) bs.

(** [s.upper()] on ASCII text.  Its only argument in the source is the
    decoded output of [hexlify], which is ASCII ([hexlify_ascii] below). *)
Definition upper_char (c : Z) : Z :=
  if (97 <=? c) && (c <=? 122) then c - 32 else c.

Definition upper (s : pystr) : pystr := List.map upper_char s.

(** [chr(n)]: ValueError outside [range(0x110000)]. *)
Definition chr (n : Z) : Res Z :=
  if (0 <=? n) && (n <? 1114112) then Ok n else Raise ValueError.

(** *** [int(s, base)]

    CPython converts the text in two steps: every non-ASCII space becomes
    a blank and every non-ASCII decimal digit its ASCII digit, then the
    ASCII text is read as optional blanks, an optional sign, for base 16 an
    optional [0x] prefix, digits that single underscores may separate, and
    optional blanks.  The decimal-digit property of the non-ASCII
    characters is a table of the Unicode database and is taken as a
    parameter.  In a base that is not a power of two a literal of more
    than [max_str_digits] digits is refused, whatever follows the digits;
    signs, blanks and underscores do not count as digits, leading zeros
    do. *)

(** [sys.int_info.default_max_str_digits]. *)
Definition max_str_digits : Z := 4300.

Section PyInt.
Variable unicode_todecimal : Z -> option Z.

Fixpoint to_ascii_digits (s : pystr) : pystr :=
  match s with
  | [] => []
  | c :: s' =>
      if c <? 128 then c :: to_ascii_digits s'
      else if isspace c then 32 :: to_ascii_digits s'
      else match unicode_todecimal c with
           | Some d =>
               if (0 <=? d) && (d <=? 9) then (48 + d) :: to_ascii_digits s'
               else [63]
           | None => [63]
           end
  end.

Definition c_isspace (c : Z) : bool := ((9 <=? c) && (c <=? 13)) || (c =? 32).

Fixpoint skip_spaces (s : pystr) : pystr :=
  match s with
  | c :: s' => if c_isspace c then skip_spaces s' else s
  | [] => []
  end.

Definition digit_value (c : Z) : Z :=
  if (48 <=? c) && (c <=? 57) then c - 48
  else if (97 <=? c) && (c <=? 122) then c - 87
  else if (65 <=? c) && (c <=? 90) then c - 55
  else 37.

(** The digit loop: [prev_us] tells whether the previous character was an
    underscore, [n] counts the digits read so far. *)
Fixpoint scan_digits (base : Z) (prev_us : bool) (n : nat) (acc : Z)
    (s : pystr) : option (Z * nat * pystr) :=
  match s with
  | [] => if prev_us then None else Some (acc, n, [])
  | c :: s' =>
      if c =? 95 then
        if prev_us then None else scan_digits base true n acc s'
      else if digit_value c <? base then
        scan_digits base false (S n) (acc * base + digit_value c) s'
      else if prev_us then None else Some (acc, n, s)
  end.

Definition strip_prefix (base : Z) (s : pystr) : pystr :=
  match s with
  | 48 :: x :: s' =>
      if (base =? 16) && ((x =? 120) || (x =? 88)) then
        match s' with
        | 95 :: s'' => s''
        | _ => s'
        end
      else s
  | _ => s
  end.

Definition long_from_string (base : Z) (s : pystr) : option Z :=
  let s1 := skip_spaces s in
  let '(sign, s2) :=
    match s1 with
    | 43 :: r => (1, r)
    | 45 :: r => (-1, r)
    | _ => (1, s1)
    end in
  let s3 := strip_prefix base s2 in
  match s3 with
  | 95 :: _ => None
  | _ =>
      match scan_digits base false 0 0 s3 with
      | Some (v, S n, rest) =>
          if negb (Z.land base (base - 1) =? 0)
             && (max_str_digits <? Z.of_nat (S n)) then None
          else
            match skip_spaces rest with
            | [] => Some (sign * v)
            | _ => None
            end
      | _ => None
      end
  end.

(** [int(s, base)] for base 10 and 16; [None] is ValueError. *)
Definition py_int (base : Z) (s : pystr) : option Z :=
  long_from_string base (to_ascii_digits s).

(** ** The hexadecimal wide-character transform (lines 82-91) *)

(** [decode]: one character per group of four characters of [st].  The
    source computes the group count as [int(len(st) / 4)], a float
    division that agrees with the integer quotient for every length a
    string can have in practice. *)
Fixpoint decode_loop (st : pystr) (range : list nat) (r : pystr) : Res pystr :=
  match range with
  | [] => Ok r
  | i :: range' =>
      let a := Z.of_nat i * 4 in
      match py_int 16 (pyslice st a (a + 4)) with
      | None => Raise ValueError
      | Some n =>
          match chr n with
          | Ok c => decode_loop st range' (r ++ [c])
          | Raise e => Raise e
          end
      end
  end.

Definition decode (st : pystr) : Res pystr :=
  decode_loop st (seq 0 (length st / 4)) [].
End PyInt.

(** [encode]: the upper-case hexadecimal text of the UTF-16-BE bytes. *)
Definition encode (st : pystr) : Res pystr :=
  match utf16be_encode st with
  | None => Raise UnicodeEncodeError
  | Some b =>
      match utf8_decode (hexlify b) with
      | None => Raise UnicodeDecodeError
      | Some h => Ok (upper h)
      end
  end.

(** ** Frame splitter (lines 94-98) *)

Definition crlf : pystr := [13; 10].

(** [truth] of a string: non-empty. *)
Definition truth (s : pystr) : bool :=
  match s with
  | [] => false
  | _ => true
  end.

(** [parser_read]: a [bytes] argument is decoded and split into its
    non-empty lines; any other iterable is returned as the tuple of its
    elements. *)
Definition parser_read (st : bytes + list pystr) : Res (list pystr) :=
  match st with
  | inl b =>
      match utf8_decode b with
      | None => Raise UnicodeDecodeError
      | Some s => Ok (List.filter truth (split crlf s))
      end
  | inr items => Ok items
  end.

(** ** Data model (lines 13-40) *)

(** Instants ([datetime] values) are integers, in milliseconds. *)
Record Call : Type := mkCall { call_phone : pystr; call_ts : Z }.

Record Message : Type := mkMessage { phone : pystr; ts : Z; text : pystr }.

(** What the external codec [decodeSmsPdu] returns: a dict, of which the
    source reads the keys [udh], [text], [number] and [time].  A key that
    is absent is [None]; subscripting it raises KeyError.  The elements of
    [udh] are information elements; only a concatenation element has the
    attributes [reference], [parts] and [number]. *)
Inductive InformationElement : Type :=
  | Concatenation (reference parts number : Z)
  | OtherElement.

Record SmsDict : Type := mkSmsDict {
  d_udh : option (list InformationElement);
  d_text : option pystr;
  d_number : option pystr;
  d_time : option Z
}.

(** One frame produced by the external codec [encodeSmsSubmitPdu]. *)
Record Pdu : Type := mkPdu { tpduLength : Z; pdu_str : pystr }.

(** A deferred task: the bound method and its argument tuple. *)
Inductive Task : Type :=
  | TaskIncomingSms (sms_id : Z)
  | TaskMessage (msg : Message).

(** What the session does to the outside world, in order. *)
Inductive event : Type :=
  | EvWrite (b : bytes)
  | EvSleep (ms : Z)
  | EvCall (c : Call)
  | EvMessage (m : Message).

(** The session object (lines 102-119) together with the world it acts on:
    [_connect] holds the bytes the serial port will deliver, each chunk
    with its arrival time; [clock] is the current time; [trace] records
    the events so far. *)
Record Sim900 : Type := mkSim900 {
  tty : pystr;
  speed : Z;
  status : bool;
  time_response : Z;
  buffer : option bytes;
  auto_del_message : bool;
  operator : option pystr;
  rssi : option pystr;
  ber : option pystr;
  npd : bool;
  dev : option pystr;
  rev : option pystr;
  _a : gmap Z (gmap Z pystr);
  _many_sms : bool;
  _task_queue : list Task;
  _connect : list (Z * bytes);
  clock : Z;
  trace : list event
}.

Definition set_status (v : bool) (s : Sim900) : Sim900 :=
  {| tty := tty s;
     speed := speed s;
     status := v;
     time_response := time_response s;
     buffer := buffer s;
     auto_del_message := auto_del_message s;
     operator := operator s;
     rssi := rssi s;
     ber := ber s;
     npd := npd s;
     dev := dev s;
     rev := rev s;
     _a := _a s;
     _many_sms := _many_sms s;
     _task_queue := _task_queue s;
     _connect := _connect s;
     clock := clock s;
     trace := trace s |}.

Definition set_buffer (v : option bytes) (s : Sim900) : Sim900 :=
  {| tty := tty s;
     speed := speed s;
     status := status s;
     time_response := time_response s;
     buffer := v;
     auto_del_message := auto_del_message s;
     operator := operator s;
     rssi := rssi s;
     ber := ber s;
     npd := npd s;
     dev := dev s;
     rev := rev s;
     _a := _a s;
     _many_sms := _many_sms s;
     _task_queue := _task_queue s;
     _connect := _connect s;
     clock := clock s;
     trace := trace s |}.

Definition set_operator (v : option pystr) (s : Sim900) : Sim900 :=
  {| tty := tty s;
     speed := speed s;
     status := status s;
     time_response := time_response s;
     buffer := buffer s;
     auto_del_message := auto_del_message s;
     operator := v;
     rssi := rssi s;
     ber := ber s;
     npd := npd s;
     dev := dev s;
     rev := rev s;
     _a := _a s;
     _many_sms := _many_sms s;
     _task_queue := _task_queue s;
     _connect := _connect s;
     clock := clock s;
     trace := trace s |}.

Definition set_rssi (v : option pystr) (s : Sim900) : Sim900 :=
  {| tty := tty s;
     speed := speed s;
     status := status s;
     time_response := time_response s;
     buffer := buffer s;
     auto_del_message := auto_del_message s;
     operator := operator s;
     rssi := v;
     ber := ber s;
     npd := npd s;
     dev := dev s;
     rev := rev s;
     _a := _a s;
     _many_sms := _many_sms s;
     _task_queue := _task_queue s;
     _connect := _connect s;
     clock := clock s;
     trace := trace s |}.

Definition set_ber (v : option pystr) (s : Sim900) : Sim900 :=
  {| tty := tty s;
     speed := speed s;
     status := status s;
     time_response := time_response s;
     buffer := buffer s;
     auto_del_message := auto_del_message s;
     operator := operator s;
     rssi := rssi s;
     ber := v;
     npd := npd s;
     dev := dev s;
     rev := rev s;
     _a := _a s;
     _many_sms := _many_sms s;
     _task_queue := _task_queue s;
     _connect := _connect s;
     clock := clock s;
     trace := trace s |}.

Definition set_npd (v : bool) (s : Sim900) : Sim900 :=
  {| tty := tty s;
     speed := speed s;
     status := status s;
     time_response := time_response s;
     buffer := buffer s;
     auto_del_message := auto_del_message s;
     operator := operator s;
     rssi := rssi s;
     ber := ber s;
     npd := v;
     dev := dev s;
     rev := rev s;
     _a := _a s;
     _many_sms := _many_sms s;
     _task_queue := _task_queue s;
     _connect := _connect s;
     clock := clock s;
     trace := trace s |}.

Definition set_dev (v : option pystr) (s : Sim900) : Sim900 :=
  {| tty := tty s;
     speed := speed s;
     status := status s;
     time_response := time_response s;
     buffer := buffer s;
     auto_del_message := auto_del_message s;
     operator := operator s;
     rssi := rssi s;
     ber := ber s;
     npd := npd s;
     dev := v;
     rev := rev s;
     _a := _a s;
     _many_sms := _many_sms s;
     _task_queue := _task_queue s;
     _connect := _connect s;
     clock := clock s;
     trace := trace s |}.

Definition set_rev (v : option pystr) (s : Sim900) : Sim900 :=
  {| tty := tty s;
     speed := speed s;
     status := status s;
     time_response := time_response s;
     buffer := buffer s;
     auto_del_message := auto_del_message s;
     operator := operator s;
     rssi := rssi s;
     ber := ber s;
     npd := npd s;
     dev := dev s;
     rev := v;
     _a := _a s;
     _many_sms := _many_sms s;
     _task_queue := _task_queue s;
     _connect := _connect s;
     clock := clock s;
     trace := trace s |}.

Definition set_a (v : gmap Z (gmap Z pystr)) (s : Sim900) : Sim900 :=
  {| tty := tty s;
     speed := speed s;
     status := status s;
     time_response := time_response s;
     buffer := buffer s;
     auto_del_message := auto_del_message s;
     operator := operator s;
     rssi := rssi s;
     ber := ber s;
     npd := npd s;
     dev := dev s;
     rev := rev s;
     _a := v;
     _many_sms := _many_sms s;
     _task_queue := _task_queue s;
     _connect := _connect s;
     clock := clock s;
     trace := trace s |}.

Definition set_many_sms (v : bool) (s : Sim900) : Sim900 :=
  {| tty := tty s;
     speed := speed s;
     status := status s;
     time_response := time_response s;
     buffer := buffer s;
     auto_del_message := auto_del_message s;
     operator := operator s;
     rssi := rssi s;
     ber := ber s;
     npd := npd s;
     dev := dev s;
     rev := rev s;
     _a := _a s;
     _many_sms := v;
     _task_queue := _task_queue s;
     _connect := _connect s;
     clock := clock s;
     trace := trace s |}.

Definition set_task_queue (v : list Task) (s : Sim900) : Sim900 :=
  {| tty := tty s;
     speed := speed s;
     status := status s;
     time_response := time_response s;
     buffer := buffer s;
     auto_del_message := auto_del_message s;
     operator := operator s;
     rssi := rssi s;
     ber := ber s;
     npd := npd s;
     dev := dev s;
     rev := rev s;
     _a := _a s;
     _many_sms := _many_sms s;
     _task_queue := v;
     _connect := _connect s;
     clock := clock s;
     trace := trace s |}.

Definition set_connect (v : list (Z * bytes)) (s : Sim900) : Sim900 :=
  {| tty := tty s;
     speed := speed s;
     status := status s;
     time_response := time_response s;
     buffer := buffer s;
     auto_del_message := auto_del_message s;
     operator := operator s;
     rssi := rssi s;
     ber := ber s;
     npd := npd s;
     dev := dev s;
     rev := rev s;
     _a := _a s;
     _many_sms := _many_sms s;
     _task_queue := _task_queue s;
     _connect := v;
     clock := clock s;
     trace := trace s |}.

Definition set_clock (v : Z) (s : Sim900) : Sim900 :=
  {| tty := tty s;
     speed := speed s;
     status := status s;
     time_response := time_response s;
     buffer := buffer s;
     auto_del_message := auto_del_message s;
     operator := operator s;
     rssi := rssi s;
     ber := ber s;
     npd := npd s;
     dev := dev s;
     rev := rev s;
     _a := _a s;
     _many_sms := _many_sms s;
     _task_queue := _task_queue s;
     _connect := _connect s;
     clock := v;
     trace := trace s |}.

Definition set_trace (v : list event) (s : Sim900) : Sim900 :=
  {| tty := tty s;
     speed := speed s;
     status := status s;
     time_response := time_response s;
     buffer := buffer s;
     auto_del_message := auto_del_message s;
     operator := operator s;
     rssi := rssi s;
     ber := ber s;
     npd := npd s;
     dev := dev s;
     rev := rev s;
     _a := _a s;
     _many_sms := _many_sms s;
     _task_queue := _task_queue s;
     _connect := _connect s;
     clock := clock s;
     trace := v |}.

(** The session as [__init__] leaves it (lines 102-119), on a port with
    the given pending input. *)
Definition Sim900_init (tty0 : pystr) (speed0 : Z) (port : list (Z * bytes))
    (now : Z) : Sim900 :=
  {| tty := tty0; speed := speed0; status := false; time_response := 3;
     buffer := None; auto_del_message := true; operator := None;
     rssi := None; ber := None; npd := false; dev := None; rev := None;
     _a := ∅; _many_sms := false; _task_queue := [];
     _connect := port; clock := now; trace := [] |}.

(** ** The monad of session methods *)

Definition M (A : Type) : Type := Sim900 -> Sim900 * Res A.

Definition ret {A} (a : A) : M A := fun s => (s, Ok a).

Definition raise {A} (e : exn) : M A := fun s => (s, Raise e).

Definition bind {A B} (c : M A) (k : A -> M B) : M B :=
  fun s =>
    match c s with
    | (s', Ok a) => k a s'
    | (s', Raise e) => (s', Raise e)
    end.

Notation "'let*' x ':=' c 'in' k" := (bind c (fun x => k))
  (at level 10, x pattern, c at level 100, k at level 200).

Definition lift {A} (r : Res A) : M A := fun s => (s, r).

Definition gets {A} (f : Sim900 -> A) : M A := fun s => (s, Ok (f s)).

Definition modify (f : Sim900 -> Sim900) : M unit := fun s => (f s, Ok tt).

(** [for x in l: body(x)]. *)
Fixpoint for_each {A} (l : list A) (body : A -> M unit) : M unit :=
  match l with
  | [] => ret tt
  | x :: l' => let* _ := body x in for_each l' body
  end.

Definition emit (e : event) : M unit :=
  modify (fun s => set_trace (trace s ++ [e]) s).

(** ** The world: serial port and clock *)

(** [time.sleep]: the clock advances; a negative length is a ValueError. *)
Definition sleep (ms : Z) : M unit :=
  if ms <? 0 then raise ValueError
  else let* _ := emit (EvSleep ms) in
       modify (fun s => set_clock (clock s + ms) s).

Definition arrived (now : Z) (chunk : Z * bytes) : bool := fst chunk <=? now.

(** [Serial.in_waiting]: the number of bytes that have arrived. *)
Definition in_waiting : M Z :=
  gets (fun s =>
    Z.of_nat (length (List.concat (List.map snd (List.filter (arrived (clock s)) (_connect s)))))).

(** [Serial.read_all]: the bytes that have arrived, removed from the port. *)
Definition read_all : M bytes :=
  fun s =>
    let got := List.concat (List.map snd (List.filter (arrived (clock s)) (_connect s))) in
    let rest := List.filter (fun c => negb (arrived (clock s) c)) (_connect s) in
    (set_connect rest s, Ok got).

(** [Serial.write]: returns the number of bytes written. *)
Definition write (b : bytes) : M Z :=
  let* _ := emit (EvWrite b) in ret (Z.of_nat (length b)).

(** [bytes(s, "utf-8")]. *)
Definition to_bytes (s : pystr) : M bytes :=
  match utf8_encode s with
  | Some b => ret b
  | None => raise UnicodeEncodeError
  end.

(** [datetime.now()]. *)
Definition now : M Z := gets clock.

(** [d[key]] on the codec's dict. *)
Definition subscript {A} (o : option A) : Res A :=
  match o with
  | Some v => Ok v
  | None => Raise KeyError
  end.

(** The literals of the source. *)
Definition ERROR : pystr := lit "ERROR".
Definition RING : pystr := lit "RING".
Definition CLIP : pystr := lit "CLIP:".
Definition CUSD : pystr := lit "CUSD:".
Definition CMTI_SM : pystr := lit "+CMTI: " ++ dquote ++ lit "SM" ++ dquote.
Definition NORMAL_POWER_DOWN : pystr := lit "NORMAL POWER DOWN".
Definition comma : pystr := lit ",".

Section Session.
(** The external codec and the Unicode digit table. *)
Variable decodeSmsPdu : pystr -> Res SmsDict.
Variable encodeSmsSubmitPdu : pystr -> pystr -> Res (list Pdu).
Variable unicode_todecimal : Z -> option Z.

(** The two callbacks.  They do nothing by default and an application
    may override them; the model lets an override fail ([Some e]) but
    not reach into the session. *)
Variable additional_function_call : Call -> option exn.
Variable additional_function_message : Message -> option exn.

(** *** Multi-part reassembly buffer (lines 43-62) *)

(** [sorted(t.keys())]. *)
Definition sorted_keys (t : gmap Z pystr) : list Z :=
  merge_sort Z.le (List.map fst (map_to_list t)).

(** [''.join(t[i] for i in sorted(t.keys()))]. *)
Definition join_parts (t : gmap Z pystr) : pystr :=
  List.concat (List.map (fun i => default [] (t !! i)) (sorted_keys t)).

(** [AdditionMessages.__call__], on the dict [m] of the buffer.  The
    right-hand side [m["text"]] of line 51 is evaluated before its
    target; the [try] of line 48 catches EncodingError only. *)
Definition AdditionMessages_call (msg : pystr) (m : gmap Z (gmap Z pystr))
    : gmap Z (gmap Z pystr) * Res (option Message) :=
  match decodeSmsPdu msg with
  | Raise EncodingError => (m, Ok None)
  | Raise e => (m, Raise e)
  | Ok d =>
      match d_udh d with
      | Some (d0 :: _) =>
          match d_text d, d0 with
          | None, _ => (m, Raise KeyError)
          | Some _, OtherElement => (m, Raise AttributeError)
          | Some txt, Concatenation reference parts number =>
              let entry := <[number := txt]> (default ∅ (m !! reference)) in
              let m1 := <[reference := entry]> m in
              if Z.of_nat (size entry) =? parts then
                let m2 := delete reference m1 in
                let text := join_parts entry in
                match d_number d, d_time d with
                | Some n, Some t => (m2, Ok (Some (mkMessage n t text)))
                | _, _ => (m2, Raise KeyError)
                end
              else (m1, Ok None)
          end
      | _ =>
          match d_number d, d_time d, d_text d with
          | Some n, Some t, Some txt => (m, Ok (Some (mkMessage n t txt)))
          | _, _, _ => (m, Raise KeyError)
          end
      end
  end.

(** [self._a(msg)] inside the session. *)
Definition call_a (msg : pystr) : M (option Message) :=
  fun s =>
    let '(m', r) := AdditionMessages_call msg (_a s) in
    (set_a m' s, r).

(** *** Transaction engine (lines 121-144) *)

(** [connect]: the port is reopened and the status set. *)
Definition connect : M unit := modify (set_status true).

(** [read]: the buffer attribute is assigned before the split. *)
Definition read : M (list pystr) :=
  let* b := read_all in
  let* _ := modify (set_buffer (Some b)) in
  lift (parser_read (inl b)).

(** [command]. *)
Definition command (c : pystr) : M Z :=
  let* b := to_bytes (c ++ [13]) in
  write b.

Definition hung_up_call : M Z := command (lit "ATH").

(** [Sim900Error(r)] builds its message by decoding the bytes it is
    given, so constructing it can itself raise. *)
Definition raise_Sim900Error {A} (r : option bytes) : M A :=
  match r with
  | Some b =>
      match utf8_decode b with
      | Some _ => raise (Sim900Error r)
      | None => raise UnicodeDecodeError
      end
  | None => raise (Sim900Error r)
  end.

(** *** URC classifier and dispatcher (lines 232-277) *)

Definition checking (f : pystr) (ls : list pystr) : bool :=
  existsb (fun x => if contains f x then true else false) ls.

Definition call_handler (c : Call) : M unit :=
  let* _ := emit (EvCall c) in
  match additional_function_call c with
  | Some e => raise e
  | None => ret tt
  end.

Definition message_handler (m : Message) : M unit :=
  let* _ := emit (EvMessage m) in
  match additional_function_message m with
  | Some e => raise e
  | None => ret tt
  end.

Definition enqueue (t : Task) : M unit :=
  modify (fun s => set_task_queue (_task_queue s ++ [t]) s).

(** The caller's number of a CLIP line (line 235): the quotes are
    removed, the text before the first comma is split on blanks and its
    second word is taken. *)
Definition phone_of (d : pystr) : Res pystr :=
  match getitem (split comma (replace dquote [] d)) 0 with
  | Ok f0 => getitem (split_ws f0) 1
  | Raise e => Raise e
  end.

Definition incoming_call (data : list pystr) : M unit :=
  let* _ := hung_up_call in
  for_each (List.filter (contains CLIP) data) (fun d =>
    let* phone := lift (phone_of d) in
    let* t := now in
    call_handler (mkCall phone t)).

(** The storage index of a notification line (line 246). *)
Definition sms_id_of (d : pystr) : Res Z :=
  match getitem (split comma d) 1 with
  | Ok f1 =>
      match py_int unicode_todecimal 10 f1 with
      | Some n => Ok n
      | None => Raise ValueError
      end
  | Raise e => Raise e
  end.

(** The body of the loop of lines 245-249. *)
Definition notify (d : pystr) : M unit :=
  let* sms_id := lift (sms_id_of d) in
  let* _ := if sms_id >? 0 then modify (set_many_sms true) else ret tt in
  enqueue (TaskIncomingSms sms_id).

Definition incoming_message (data : list pystr) : M unit :=
  for_each (List.filter (contains CMTI_SM) data) notify.

Definition incoming_ussd (data : list pystr) : M unit :=
  for_each (List.filter (contains CUSD) data) (fun d =>
    let* t := now in
    let* f1 := lift (getitem (split comma d) 1) in
    let* txt := lift (decode unicode_todecimal (replace dquote [] f1)) in
    enqueue (TaskMessage (mkMessage (lit "USSD") t txt))).

Definition checking_incoming_data (st : list pystr) : M bool :=
  let* _ := if checking RING st then incoming_call st else ret tt in
  let* _ := if checking CUSD st then incoming_ussd st else ret tt in
  let* _ := if checking CMTI_SM st then incoming_message st else ret tt in
  if checking NORMAL_POWER_DOWN st then
    let* _ := modify (set_npd true) in
    let* _ := modify (set_status false) in
    ret true
  else ret false.

(** [parser_command] (lines 129-136). *)
Definition parser_command (data : list pystr) : M (list pystr) :=
  let* _ := checking_incoming_data data in
  if (length data =? 0)%nat then raise Sim900NoResponse
  else
    let* last := lift (getitem data (-1)) in
    if str_eqb last ERROR then
      let* b := gets buffer in raise_Sim900Error b
    else ret (pyslice data 1 (-1)).

(** [send_command]: write, wait [time_response] seconds, read, classify. *)
Definition send_command (c : pystr) : M (list pystr) :=
  let* _ := command c in
  let* w := gets time_response in
  let* _ := sleep (1000 * w) in
  let* lines := read in
  parser_command lines.

(** *** Queries and actions (lines 146-230) *)

Definition get_operator : M pystr :=
  let* r := send_command (lit "AT+COPS?") in
  let* c := lift (getitem r 0) in
  let* f := lift (getitem (split comma c) (-1)) in
  let op := replace dquote [] f in
  let* _ := modify (set_operator (Some op)) in
  ret op.

Definition get_csq : M unit :=
  let* r := send_command (lit "AT+CSQ") in
  let* c := lift (getitem r 0) in
  let* f := lift (getitem (split_ws c) (-1)) in
  match split comma f with
  | [a; b] =>
      let* _ := modify (set_rssi (Some a)) in
      modify (set_ber (Some b))
  | _ => raise ValueError
  end.

Definition get_product_info : M pystr :=
  let* r := send_command (lit "ATI") in
  let* d := lift (getitem r 0) in
  let* _ := modify (set_dev (Some d)) in
  ret d.

Definition get_revision : M pystr :=
  let* r := send_command (lit "AT+GMR") in
  let* d := lift (getitem r 0) in
  let* _ := modify (set_rev (Some d)) in
  ret d.

Definition checking_status_board : M unit :=
  let* _ := get_product_info in
  let* _ := get_revision in
  let* _ := get_operator in
  get_csq.

Definition pre_up : M unit :=
  let* _ := read_all in
  let* _ := send_command (lit "AT") in
  let* _ := checking_status_board in
  let* _ := send_command (lit "AT+CLIP=1") in
  let* _ := send_command (lit "AT+CMGF=0") in
  ret tt.

(** The comprehension of line 192: the elements of [ms] at the odd
    indices, decoded in order, the [None] results left out. *)
Fixpoint collect_sms (ms : list pystr) : M (list Message) :=
  match ms with
  | _ :: raw :: ms' =>
      let* m := call_a raw in
      let* rest := collect_sms ms' in
      ret (match m with Some x => x :: rest | None => rest end)
  | _ => ret []
  end.

Definition get_all_sms_message : M (list Message) :=
  let* ms := send_command (lit "AT+CMGL=4") in
  let* msg := collect_sms ms in
  let* auto := gets auto_del_message in
  let* _ := if auto then send_command (lit "AT+CMGD=1,4") else ret [] in
  ret msg.

Definition send_sms (phone text : pystr) : M unit :=
  let* pdus := lift (encodeSmsSubmitPdu phone text) in
  for_each pdus (fun m =>
    let* _ := command (lit "AT+CMGS=" ++ str_of_int (tpduLength m)) in
    let* _ := sleep 500 in
    let* b := to_bytes (pdu_str m) in
    let* _ := write b in
    let* _ := sleep 500 in
    let* _ := send_command [26] in
    ret tt).

Definition send_ussd (ussd : pystr) : M unit :=
  let* h := lift (encode ussd) in
  let* _ := send_command (lit "AT+CUSD=1," ++ dquote ++ h ++ dquote) in
  ret tt.

Definition call (phone : pystr) : M unit :=
  let* _ := send_command (lit "ATD" ++ phone ++ lit ";") in
  ret tt.

Definition del_sms (sms_id : Z) : M unit :=
  let* _ := send_command (lit "AT+CMGD=" ++ str_of_int sms_id) in
  ret tt.

Definition get_sms (sms_id : Z) : M (option Message) :=
  let* r := send_command (lit "AT+CMGR=" ++ str_of_int sms_id) in
  let* raw := lift (getitem r 1) in
  let* msg := call_a raw in
  let* auto := gets auto_del_message in
  let* _ := if auto then del_sms sms_id else ret tt in
  ret msg.

(** [__incoming_sms] (lines 239-242). *)
Definition incoming_sms (sms_id : Z) : M unit :=
  let* msg := get_sms sms_id in
  match msg with
  | Some m => enqueue (TaskMessage m)
  | None => ret tt
  end.

(** *** Deferred task queue and run loop (lines 279-294) *)

(** Line 282: the task's callable applied to its argument tuple. *)
Definition invoke (t : Task) : M unit :=
  match t with
  | TaskIncomingSms sms_id => incoming_sms sms_id
  | TaskMessage m => message_handler m
  end.

(** [deque.popleft]. *)
Definition popleft : M Task :=
  fun s =>
    match _task_queue s with
    | [] => (s, Raise IndexError)
    | t :: q => (set_task_queue q s, Ok t)
    end.

(** [run_task]: the [try] block spans both the removal and the
    invocation, and the handler names IndexError. *)
Definition run_task : M bool :=
  fun s =>
    match (let* task := popleft in
           let* _ := invoke task in
           ret true) s with
    | (s', Raise IndexError) => (s', Ok false)
    | r => r
    end.

(** The inner loop of [run]; [false] when the fuel ran out first. *)
Fixpoint drain (fuel : nat) : M bool :=
  match fuel with
  | O => ret false
  | S fuel' =>
      let* q := gets _task_queue in
      if (0 <? length q)%nat then
        let* _ := run_task in drain fuel'
      else ret true
  end.

(** [run]: [true] when the loop has been left, [false] when the fuel ran
    out first.  [inner] bounds each drain of the queue. *)
Fixpoint run (inner fuel : nat) : M bool :=
  match fuel with
  | O => ret false
  | S fuel' =>
      let* down := gets npd in
      if down then ret true
      else
        let* drained := drain inner in
        if negb drained then ret false
        else
          let* w := in_waiting in
          let* stop :=
            if w >? 0 then
              let* lines := read in checking_incoming_data lines
            else ret false in
          if stop then ret true
          else let* _ := sleep 500 in run inner fuel'
  end.

(** Everything a caller can ask of the session. *)
Inductive Op : Type :=
  | OpConnect
  | OpRead
  | OpParserCommand (data : list pystr)
  | OpCommand (c : pystr)
  | OpSendCommand (c : pystr)
  | OpGetOperator
  | OpGetCsq
  | OpGetProductInfo
  | OpGetRevision
  | OpCheckingStatusBoard
  | OpPreUp
  | OpGetAllSmsMessage
  | OpSendSms (phone text : pystr)
  | OpSendUssd (ussd : pystr)
  | OpCall (phone : pystr)
  | OpDelSms (sms_id : Z)
  | OpGetSms (sms_id : Z)
  | OpHungUpCall
  | OpIncomingCall (data : list pystr)
  | OpIncomingSms (sms_id : Z)
  | OpIncomingMessage (data : list pystr)
  | OpIncomingUssd (data : list pystr)
  | OpCheckingIncomingData (data : list pystr)
  | OpRunTask
  | OpRun (inner fuel : nat).

Definition void {A} (c : M A) : M unit := let* _ := c in ret tt.

Definition exec (op : Op) : M unit :=
  match op with
  | OpConnect => connect
  | OpRead => void read
  | OpParserCommand data => void (parser_command data)
  | OpCommand c => void (command c)
  | OpSendCommand c => void (send_command c)
  | OpGetOperator => void get_operator
  | OpGetCsq => get_csq
  | OpGetProductInfo => void get_product_info
  | OpGetRevision => void get_revision
  | OpCheckingStatusBoard => checking_status_board
  | OpPreUp => pre_up
  | OpGetAllSmsMessage => void get_all_sms_message
  | OpSendSms phone text => send_sms phone text
  | OpSendUssd ussd => send_ussd ussd
  | OpCall phone => call phone
  | OpDelSms sms_id => del_sms sms_id
  | OpGetSms sms_id => void (get_sms sms_id)
  | OpHungUpCall => void hung_up_call
  | OpIncomingCall data => incoming_call data
  | OpIncomingSms sms_id => incoming_sms sms_id
  | OpIncomingMessage data => incoming_message data
  | OpIncomingUssd data => incoming_ussd data
  | OpCheckingIncomingData data => void (checking_incoming_data data)
  | OpRunTask => void run_task
  | OpRun inner fuel => void (run inner fuel)
  end.
End Session.

(** ** Statements, scenarios and relations used below *)

(** A buffer made of [n] line separators and nothing else. *)
Definition separators_only (n : nat) : bytes :=
  List.concat (List.repeat [x0d; x0a] n).

(** A typical answer of the modem: the echo of [AT] and the status line. *)
Definition sample_response : bytes :=
  List.map byte_of_Z (lit "AT" ++ [13; 13; 10] ++ lit "OK" ++ [13; 10]).

(** The characters that encode to a single UTF-16 unit: the basic
    multilingual plane without the surrogate range. *)
Definition bmp_char (c : Z) : bool :=
  (0 <=? c) && (c <? 65536) && negb (is_surrogate c).

(** The four characters [encode] produces for one code unit. *)
Definition hexchars (b : byte) : pystr :=
  upper (List.map byteZ (hexlify [b])).

(** The text [encode] produces for one character of the basic plane. *)
Definition hex4 (c : Z) : pystr :=
  hexchars (byte_of_Z (c / 256)) ++ hexchars (byte_of_Z (c mod 256)).

(** A decoded fragment that carries a concatenation header. *)
Definition fragment (reference parts number : Z) (txt : pystr)
    (sender : option pystr) (time : option Z) : SmsDict :=
  {| d_udh := Some [Concatenation reference parts number];
     d_text := Some txt; d_number := sender; d_time := time |}.

(** The reading under which the total of a reference id is the one its
    first fragment declared: after a first fragment that leaves the entry
    pending, a second fragment of the same id completes the entry exactly
    when the number of stored parts reaches the first fragment's total. *)
Definition first_total_decides (decodeSmsPdu : pystr -> Res SmsDict) : Prop :=
  forall raw1 raw2 reference p1 k1 t1 p2 k2 t2 n1 ts1 n2 ts2 m1,
    decodeSmsPdu raw1 = Ok (fragment reference p1 k1 t1 (Some n1) (Some ts1)) ->
    decodeSmsPdu raw2 = Ok (fragment reference p2 k2 t2 (Some n2) (Some ts2)) ->
    AdditionMessages_call decodeSmsPdu raw1 ∅ = (m1, Ok None) ->
    (exists msg, snd (AdditionMessages_call decodeSmsPdu raw2 m1) = Ok (Some msg)) <->
    Z.of_nat (size (<[k2 := t2]> (default ∅ (m1 !! reference)))) = p1.

(** A codec whose two frames share reference id 7 and disagree on the
    total: the first declares three parts, the second two. *)
Definition two_fragment_codec (raw : pystr) : Res SmsDict :=
  if str_eqb raw (lit "first") then
    Ok (fragment 7 3 1 (lit "A") (Some (lit "+15551234567")) (Some 0))
  else if str_eqb raw (lit "second") then
    Ok (fragment 7 2 2 (lit "B") (Some (lit "+15551234567")) (Some 1))
  else Raise EncodingError.

(** A buffer that holds part 1 of reference id 7. *)
Definition pending_entry : gmap Z (gmap Z pystr) := <[7 := {[1 := lit "A"]}]> ∅.

(** A codec for the three parts of one message with reference id 9. *)
Definition three_fragment_codec (raw : pystr) : Res SmsDict :=
  if str_eqb raw (lit "p2") then
    Ok (fragment 9 3 2 (lit "B") (Some (lit "+15551234567")) (Some 0))
  else if str_eqb raw (lit "p1") then
    Ok (fragment 9 3 1 (lit "A") (Some (lit "+15551234567")) (Some 1))
  else if str_eqb raw (lit "p3") then
    Ok (fragment 9 3 3 (lit "C") (Some (lit "+15551234567")) (Some 2))
  else Raise EncodingError.

(** A method keeps a relation when every run of it, whether it returns
    or raises, relates the state before to the state after. *)
Definition keeps (R : Sim900 -> Sim900 -> Prop) {A} (c : M A) : Prop :=
  forall s, R s (fst (c s)).

(** The two latches of the session: once set they stay set. *)
Definition flags_kept (s s' : Sim900) : Prop :=
  (npd s = true -> npd s' = true) /\ (_many_sms s = true -> _many_sms s' = true).

(** A method on which both latches hold. *)
Abbreviation latched := (keeps flags_kept).

(** The waits among the events. *)
Definition is_sleep (e : event) : bool :=
  match e with
  | EvSleep _ => true
  | _ => false
  end.

(** What a classification leaves alone: the read buffer is untouched and
    the events it adds contain no wait. *)
Definition no_wait (s s' : Sim900) : Prop :=
  buffer s' = buffer s /\
  exists evs, trace s' = trace s ++ evs /\ forallb (fun e => negb (is_sleep e)) evs = true.

(** The multiple-messages flag is left as it was. *)
Definition same_many_sms (s s' : Sim900) : Prop := _many_sms s' = _many_sms s.

(** The caller-id line of the end-to-end example. *)
Definition clip_line : pystr :=
  lit "+CLIP: " ++ dquote ++ lit "+15551234567" ++ dquote ++ lit ",145,,,,0".

(** The bytes that [command("ATH")] writes. *)
Definition ATH_bytes : bytes := List.map byte_of_Z (lit "ATH" ++ [13]).

(** A line that carries the ring marker and no other marker. *)
Definition ring_only (r : pystr) : Prop :=
  contains RING r = true /\ contains CLIP r = false /\ contains CUSD r = false /\
  contains CMTI_SM r = false /\ contains NORMAL_POWER_DOWN r = false.

(** A batch none of whose lines carries a ring, service-response or
    new-message marker. *)
Definition no_urc (data : list pystr) : Prop :=
  checking RING data = false /\ checking CUSD data = false /\
  checking CMTI_SM data = false.

(** The last-read buffer is absent or valid UTF-8, as it is whenever the
    batch at hand came out of [read]. *)
Definition buffer_decodes (s : Sim900) : Prop :=
  match buffer s with
  | Some raw => utf8_decode raw <> None
  | None => True
  end.

(** The classification rule read without its first step: whatever the
    batch holds, an empty batch is NoResponse, a batch that ends in the
    failure marker is CommandError with the buffer, any other batch
    succeeds with its interior lines. *)
Definition parser_command_total (unicode_todecimal : Z -> option Z)
    (additional_function_call : Call -> option exn) : Prop :=
  forall data s,
    snd (parser_command unicode_todecimal additional_function_call data s) =
      match data with
      | [] => Raise Sim900NoResponse
      | _ :: _ =>
          if str_eqb (List.last data []) ERROR
          then Raise (Sim900Error (buffer s))
          else Ok (removelast (tl data))
      end.

(** Every batch with the power-down marker is classified as power-down. *)
Definition power_down_total (unicode_todecimal : Z -> option Z)
    (additional_function_call : Call -> option exn) : Prop :=
  forall data s,
    checking NORMAL_POWER_DOWN data = true ->
    let r := checking_incoming_data unicode_todecimal additional_function_call data s in
    npd (fst r) = true /\ status (fst r) = false /\ snd r = Ok true.

(** The flag is set only after more than one notification was seen. *)
Definition many_sms_after_two (unicode_todecimal : Z -> option Z)
    (additional_function_call : Call -> option exn) : Prop :=
  forall tty0 speed0 port t0 data,
    let r := checking_incoming_data unicode_todecimal additional_function_call data
               (Sim900_init tty0 speed0 port t0) in
    _many_sms (fst r) = true ->
    (1 < length (List.filter (contains CMTI_SM) data))%nat.

(** A notification line whose storage index is positive. *)
Definition positive_notification (unicode_todecimal : Z -> option Z) (d : pystr) : bool :=
  contains CMTI_SM d &&
  match sms_id_of unicode_todecimal d with
  | Ok n => n >? 0
  | Raise _ => false
  end.

(** The default callbacks, a codec that decodes nothing and an empty digit
    table, for the concrete scenarios. *)
Definition no_handler_c : Call -> option exn := fun _ => None.
Definition no_handler_m : Message -> option exn := fun _ => None.
Definition no_digits : Z -> option Z := fun _ => None.
Definition no_codec : pystr -> Res SmsDict := fun _ => Raise EncodingError.
Definition no_frames : pystr -> pystr -> Res (list Pdu) := fun _ _ => Ok [].

(** A session right after construction, on a silent port. *)
Definition fresh_session : Sim900 := Sim900_init (lit "/dev/ttyAMA0") 19200 [] 0.

(** The power-down notice as the modem sends it. *)
Definition power_down_bytes : bytes :=
  List.map byte_of_Z ([13; 10] ++ NORMAL_POWER_DOWN ++ [13; 10]).

(** A session on whose port the power-down notice has arrived. *)
Definition powering_down : Sim900 :=
  Sim900_init (lit "/dev/ttyAMA0") 19200 [(0, power_down_bytes)] 0.

(** An answer to [AT+CMGR=5] that ends in the power-down notice, and the
    answer to the deletion that follows. *)
Definition power_down_reply : bytes :=
  List.map byte_of_Z
    (lit "AT+CMGR=5" ++ [13; 13; 10] ++ lit "+CMGR: 0,,0" ++ [13; 10]
     ++ lit "00" ++ [13; 10] ++ NORMAL_POWER_DOWN ++ [13; 10]).

Definition delete_reply : bytes :=
  List.map byte_of_Z (lit "AT+CMGD=5" ++ [13; 13; 10] ++ lit "OK" ++ [13; 10]).

(** A session whose queue holds the fetch of message 5; the modem announces
    its power-down inside the answer to that fetch. *)
Definition down_in_transaction : Sim900 :=
  set_task_queue [TaskIncomingSms 5]
    (Sim900_init (lit "/dev/ttyAMA0") 19200
       [(1000, power_down_reply); (4000, delete_reply)] 0).

(** The notification of a message stored at index 1. *)
Definition first_notification : pystr := CMTI_SM ++ lit ",1".

(** The modem's answer to [AT+CMGR=5] when slot 5 holds no message: the
    echo and the status line, nothing between them. *)
Definition empty_slot_response : bytes :=
  List.map byte_of_Z (lit "AT+CMGR=5" ++ [13; 13; 10] ++ lit "OK" ++ [13; 10]).

(** A session whose queue holds the fetch of message 5, on a port that
    will deliver [empty_slot_response] within the response wait. *)
Definition fetch_pending : Sim900 :=
  set_task_queue [TaskIncomingSms 5]
    (Sim900_init (lit "/dev/ttyAMA0") 19200 [(1000, empty_slot_response)] 0).

(** The bytes of the chunks that reach the port after [lo] and no later
    than [hi]: what one [read_all] at time [hi] takes off a port that was
    last emptied at time [lo]. *)
Definition port_window (lo hi : Z) (port : list (Z * bytes)) : bytes :=
  List.concat (List.map snd
    (List.filter (fun ch => (lo <? fst ch) && (fst ch <=? hi)) port)).

(** The batch of lines an operation is handed by its caller and gives to
    the notification dispatch. *)
Definition op_batch (op : Op) (data : list pystr) : Prop :=
  match op with
  | OpParserCommand d => d = data
  | OpIncomingMessage d => d = data
  | OpCheckingIncomingData d => d = data
  | _ => False
  end.

(** The operations that reach the notification dispatch: all but those
    that only open the port, read, write one command or handle a ring or
    a service response. *)
Definition dispatches (op : Op) : bool :=
  match op with
  | OpConnect | OpRead | OpCommand _ | OpHungUpCall
  | OpIncomingCall _ | OpIncomingUssd _ => false
  | _ => true
  end.

(** Where a set flag comes from.  From [s] to [s'] time does not run
    backwards, the port has only lost the chunks up to some time, and if
    the flag is on in [s'] it was on in [s], or a batch holds a
    notification with a positive index, the batch being one of [D] or the
    lines of the bytes that reached the port of [s] in a window ending at a
    time between the two states. *)
Definition flag_origin (unicode_todecimal : Z -> option Z)
    (D : list pystr -> Prop) (s s' : Sim900) : Prop :=
  clock s <= clock s' /\
  (exists T, _connect s' = List.filter (fun ch => T <? fst ch) (_connect s)) /\
  (_many_sms s' = true ->
   _many_sms s = true \/
   exists data,
     existsb (positive_notification unicode_todecimal) data = true /\
     (D data \/
      exists lo hi, clock s <= hi <= clock s' /\
                    parser_read (inl (port_window lo hi (_connect s))) = Ok data)).

(** The clock and the port are left as they were. *)
Definition port_kept (s s' : Sim900) : Prop :=
  clock s' = clock s /\ _connect s' = _connect s.

(** A session on whose port one new-message notification arrives a second
    after the start. *)
Definition notified : Sim900 :=
  Sim900_init (lit "/dev/ttyAMA0") 19200
    [(1000, List.map byte_of_Z ([13; 10] ++ first_notification ++ [13; 10]))] 0.

(** ** Further statements and scenarios *)

(** The UTF-16 code units of a string: one per character of the basic
    plane, a surrogate pair for every character above it. *)
Definition utf16_units (s : pystr) : list Z :=
  flat_map (fun c =>
    if c <? 65536 then [c]
    else [55296 + (c - 65536) / 1024; 56320 + (c - 65536) mod 1024]) s.

(** An upper-case hexadecimal digit. *)
Definition is_hex_upper (c : Z) : bool :=
  ((48 <=? c) && (c <=? 57)) || ((65 <=? c) && (c <=? 70)).

(** The letter A followed by a character above the basic plane (U+1F600). *)
Definition astral_sample : pystr := [65; 128512].

(** The text of a response: every line followed by the line separator. *)
Definition frame (lines : list pystr) : pystr :=
  List.concat (List.map (fun l => l ++ crlf) lines).

(** A modem answer with its leading blank line. *)
Definition csq_answer : list pystr := [lit "AT+CSQ" ++ [13]; []; lit "+CSQ: 15,0"; []; lit "OK"].

(** What a classification may do to the session: set or clear nothing but
    the status and the two flags, append to the task queue, and append
    events other than waits to the trace. *)
Definition urc_effects (s s' : Sim900) : Prop :=
  (tty s' = tty s /\ speed s' = speed s /\ time_response s' = time_response s /\
   buffer s' = buffer s /\ auto_del_message s' = auto_del_message s /\
   operator s' = operator s /\ rssi s' = rssi s /\ ber s' = ber s /\
   dev s' = dev s /\ rev s' = rev s /\ _a s' = _a s /\
   _connect s' = _connect s /\ clock s' = clock s) /\
  (exists q, _task_queue s' = _task_queue s ++ q) /\
  (exists evs, trace s' = trace s ++ evs /\
               forallb (fun e => negb (is_sleep e)) evs = true).

(** The power state is left as it was. *)
Definition same_power (s s' : Sim900) : Prop :=
  npd s' = npd s /\ status s' = status s.

(** The bytes that have reached the port by time [t]. *)
Definition arrived_bytes (s : Sim900) (t : Z) : bytes :=
  List.concat (List.map snd (List.filter (arrived t) (_connect s))).

(** The settings, the recorded modem facts and the reassembly buffer are
    left as they were. *)
Definition facts_kept (s s' : Sim900) : Prop :=
  tty s' = tty s /\ speed s' = speed s /\ time_response s' = time_response s /\
  auto_del_message s' = auto_del_message s /\ operator s' = operator s /\
  rssi s' = rssi s /\ ber s' = ber s /\ dev s' = dev s /\ rev s' = rev s /\
  _a s' = _a s.

(** The line of an unstructured service response: what precedes the
    payload, the quoted payload, and the coding scheme after it. *)
Definition cusd_line (pre h post : pystr) : pystr :=
  pre ++ comma ++ dquote ++ h ++ dquote ++ comma ++ post.

(** A character that may stand in a caller's number: no blank, no double
    quote, no comma. *)
Definition phone_char (c : Z) : bool :=
  negb (isspace c) && negb (c =? 34) && negb (c =? 44).

(** The caller-id line for a number. *)
Definition clip_line_of (num rest : pystr) : pystr :=
  lit "+CLIP: " ++ dquote ++ num ++ dquote ++ comma ++ rest.

(** An ASCII decimal digit, and the number a string of them denotes. *)
Definition is_digit (c : Z) : bool := (48 <=? c) && (c <=? 57).

Definition decimal_value (ds : pystr) : Z :=
  fold_left (fun acc d => acc * 10 + (d - 48)) ds 0.

(** The notification line for a storage index written in digits. *)
Definition cmti_line_of (ds : pystr) : pystr := CMTI_SM ++ comma ++ ds.

(** The command that carries a service request. *)
Definition cusd_command (h : pystr) : pystr :=
  lit "AT+CUSD=1," ++ dquote ++ h ++ dquote.

(** [simple_start] (lines 297-301): [int(speed)] is the identity on an
    integer and the base-10 parse of a string; the session is handed back
    only when [connect] and [pre_up] have returned. *)
Definition simple_start (unicode_todecimal : Z -> option Z)
    (additional_function_call : Call -> option exn)
    (tty0 : pystr) (speed0 : Z + pystr) (port : list (Z * bytes)) (now0 : Z)
    : Res Sim900 :=
  match (match speed0 with
         | inl n => Some n
         | inr st => py_int unicode_todecimal 10 st
         end) with
  | None => Raise ValueError
  | Some n =>
      match (let* _ := connect in
             pre_up unicode_todecimal additional_function_call)
              (Sim900_init tty0 n port now0) with
      | (s9, Ok _) => Ok s9
      | (_, Raise e) => Raise e
      end
  end.

(** The power state is left as it was, or the session has been marked
    as powered down. *)
Definition power_step (s s' : Sim900) : Prop :=
  same_power s s' \/ (npd s' = true /\ status s' = false).

(** Every modem fact that was recorded is still recorded. *)
Definition recorded (s s' : Sim900) : Prop :=
  (is_Some (dev s) -> is_Some (dev s')) /\
  (is_Some (rev s) -> is_Some (rev s')) /\
  (is_Some (operator s) -> is_Some (operator s')) /\
  (is_Some (rssi s) -> is_Some (rssi s')) /\
  (is_Some (ber s) -> is_Some (ber s')).

(** The clock and the response time are left as they were. *)
Definition same_clock (s s' : Sim900) : Prop :=
  clock s' = clock s /\ time_response s' = time_response s.

(** The bytes of a modem answer made of the given lines. *)
Definition answer (lines : list pystr) : bytes := List.map byte_of_Z (frame lines).

(** A session on whose port the given chunks arrive, started at time 0. *)
Definition session_on (port : list (Z * bytes)) : Sim900 :=
  Sim900_init (lit "/dev/ttyAMA0") 19200 port 0.

(** The answer to the operator query. *)
Definition cops_answer : list pystr :=
  [lit "AT+COPS?" ++ [13]; [];
   lit "+COPS: 0,0," ++ dquote ++ lit "MTS" ++ dquote; []; lit "OK"].

(** A modem that answers every command of the start-up within the
    response wait. *)
Definition start_up_port : list (Z * bytes) :=
  [(1000, answer [lit "AT" ++ [13]; lit "OK"]);
   (4000, answer [lit "ATI" ++ [13]; []; lit "SIM900 R11.0"; []; lit "OK"]);
   (7000, answer [lit "AT+GMR" ++ [13]; [];
                  lit "Revision:1137B06SIM900M64_ST"; []; lit "OK"]);
   (10000, answer cops_answer);
   (13000, answer csq_answer);
   (16000, answer [lit "AT+CLIP=1" ++ [13]; lit "OK"]);
   (19000, answer [lit "AT+CMGF=0" ++ [13]; lit "OK"])].

(** Two messages waiting for the handler. *)
Definition two_messages : list Message :=
  [mkMessage (lit "+15551234567") 1 (lit "first");
   mkMessage (lit "USSD") 2 (lit "second")].

(** A handler that fails on every message. *)
Definition failing_handler (e : exn) : Message -> option exn := fun _ => Some e.

(** A codec that cuts every text into one frame. *)
Definition one_frame : pystr -> pystr -> Res (list Pdu) :=
  fun _ _ => Ok [mkPdu 20 (lit "0011000B915155214365F70000AA05C8329BFD06")].

(** The modem's acknowledgement of a submitted frame. *)
Definition submit_answer : list pystr := [[26; 13]; []; lit "+CMGS: 27"; []; lit "OK"].

(** The modem's answer to the fetch of slot 5: the echo, the header line,
    the frame and the status line. *)
Definition fetch_answer : list pystr :=
  [lit "AT+CMGR=5" ++ [13]; []; lit "+CMGR: 0,,23"; lit "second"; []; lit "OK"].

(** A session that holds part 1 of message 7, on a port that answers the
    fetch and then the deletion of slot 5. *)
Definition fetching : Sim900 :=
  set_a pending_entry
    (session_on [(1000, answer fetch_answer);
                 (4000, answer [lit "AT+CMGD=5" ++ [13]; lit "OK"])]).

(** [range(1, n, 2)]. *)
Definition odd_indices (n : nat) : list nat :=
  List.map (fun k => 2 * k + 1)%nat (seq 0 (n / 2)).

(** The lines [ms[i]] for [i] in [range(1, len(ms), 2)], as line 192
    selects them. *)
Definition odd_lines (ms : list pystr) : list pystr :=
  List.map (fun i => nth i ms []) (odd_indices (length ms)).

(** The reassembler applied to the given frames one after the other, each
    on the buffer the one before left; the messages it gave, in order. *)
Fixpoint reassemble_all (decodeSmsPdu : pystr -> Res SmsDict) (raws : list pystr)
    (m : gmap Z (gmap Z pystr)) : gmap Z (gmap Z pystr) * Res (list Message) :=
  match raws with
  | [] => (m, Ok [])
  | raw :: raws' =>
      match AdditionMessages_call decodeSmsPdu raw m with
      | (m1, Ok o) =>
          match reassemble_all decodeSmsPdu raws' m1 with
          | (m2, Ok l) => (m2, Ok (match o with Some x => x :: l | None => l end))
          | (m2, Raise e) => (m2, Raise e)
          end
      | (m1, Raise e) => (m1, Raise e)
      end
  end.

(** * Properties *)

(** ** The model at work *)

Example parser_read_sample :
  parser_read (inl sample_response) = Ok [lit "AT" ++ [13]; lit "OK"].
Proof. reflexivity. Qed.

Example encode_ussd : encode (lit "*100#") = Ok (lit "002A0031003000300023").
Proof. reflexivity. Qed.

Example encode_lone_surrogate : encode [55296] = Raise UnicodeEncodeError.
Proof. reflexivity. Qed.

Example decode_ussd :
  decode no_digits (lit "002A0031003000300023") = Ok (lit "*100#").
Proof. reflexivity. Qed.

Example phone_of_truncated_line : phone_of (lit "+CLIP:") = Raise IndexError.
Proof. reflexivity. Qed.

Example sms_id_of_notification : sms_id_of no_digits first_notification = Ok 1.
Proof. reflexivity. Qed.

(** ** Frame splitter *)

Lemma startswith_app p a b : startswith p a = true -> startswith p (a ++ b) = true.
Proof.
  revert a. induction p as [|x p IH]; intros [|y a]; simpl; try done.
  intros [-> H]%andb_true_iff. rewrite (IH _ H). by rewrite andb_true_r.
Qed.

Lemma contains_false_iff sub s :
  contains sub s = false <->
  forall k, (k <= length s)%nat -> startswith sub (drop k s) = false.
Proof.
  induction s as [|c s IH]; simpl.
  - rewrite orb_false_r. split.
    + intros H k _. by destruct k.
    + intros H. apply (H 0%nat). lia.
  - rewrite orb_false_iff, IH. split.
    + intros [H0 H] [|k] Hk; simpl; [done|]. apply H. lia.
    + intros H. split; [apply (H 0%nat); lia|].
      intros k Hk. apply (H (S k)). lia.
Qed.

Lemma split_go_pieces sep :
  sep <> [] ->
  forall s skip cur,
    (forall k, (k < length cur)%nat -> startswith sep (drop k cur ++ s) = false) ->
    ((0 < skip)%nat -> cur = []) ->
    Forall (fun p => contains sep p = false) (split_go sep skip cur s).
Proof.
  intros Hsep.
  assert (Hnil : startswith sep [] = false) by (by destruct sep).
  assert (Hcur : forall cur s,
    (forall k, (k < length cur)%nat -> startswith sep (drop k cur ++ s) = false) ->
    contains sep cur = false).
  { intros cur s H. apply contains_false_iff. intros k Hk.
    destruct (decide (k = length cur)) as [->|Hne].
    - by rewrite drop_all.
    - destruct (startswith sep (drop k cur)) eqn:E; [|done].
      rewrite <- (H k) by lia. symmetry. by apply startswith_app. }
  induction s as [|c s IH]; intros skip cur Hinv Hskip.
  - simpl. constructor; [|constructor]. by apply (Hcur cur []).
  - simpl. destruct skip as [|k].
    + destruct (startswith sep (c :: s)) eqn:E.
      * constructor; [by apply (Hcur cur (c :: s))|].
        apply IH; [simpl; intros; lia|done].
      * apply IH; [|intros; lia].
        intros k Hk. rewrite length_app in Hk. simpl in Hk.
        destruct (decide (k = length cur)) as [->|Hne].
        -- rewrite drop_app_length. exact E.
        -- rewrite drop_app_le by lia. rewrite <- app_assoc. apply Hinv. lia.
    + rewrite (Hskip ltac:(lia)). apply IH; [simpl; intros; lia|done].
Qed.

Lemma split_pieces sep s :
  sep <> [] -> Forall (fun p => contains sep p = false) (split sep s).
Proof.
  intros H. apply split_go_pieces; [done| simpl; intros; lia | done].
Qed.

Lemma utf8_decode_separators n :
  utf8_decode (separators_only n) = Some (List.concat (List.repeat crlf n)).
Proof.
  induction n as [|n IH]; [done|].
  change (separators_only (S n)) with (x0d :: x0a :: separators_only n).
  cbn [utf8_decode]. change (byteZ x0d <? 128) with true.
  change (byteZ x0a <? 128) with true. cbn iota. by rewrite IH.
Qed.

Lemma split_separators n :
  List.filter truth (split crlf (List.concat (List.repeat crlf n))) = [].
Proof.
  unfold split. induction n as [|n IH]; [done|].
  change (List.concat (List.repeat crlf (S n)))
    with (13 :: 10 :: List.concat (List.repeat crlf n)).
  cbn [split_go]. change (startswith crlf (13 :: 10 :: ?x)) with true.
  cbn iota. simpl. exact IH.
Qed.

(** C9.  A buffer that is empty or made of line separators only splits
    into no line at all; and whatever the buffer, every line that
    [parser_read] returns is non-empty and holds no line separator. *)
Theorem parser_read_lines :
  (forall n, parser_read (inl (separators_only n)) = Ok []) /\
  (forall b out, parser_read (inl b) = Ok out ->
     Forall (fun l => l <> [] /\ contains crlf l = false) out).
Proof.
  split.
  - intros n. unfold parser_read.
    by rewrite utf8_decode_separators, split_separators.
  - intros b out. unfold parser_read.
    destruct (utf8_decode b) as [s|]; [|done].
    intros [= <-]. apply List.Forall_forall. intros l [Hin Ht]%List.filter_In.
    split; [by destruct l|].
    pose proof (split_pieces crlf s ltac:(done)) as H.
    rewrite List.Forall_forall in H. by apply H.
Qed.

Lemma parser_read_lines_witness :
  parser_read (inl sample_response) = Ok [lit "AT" ++ [13]; lit "OK"] /\
  Forall (fun l => l <> [] /\ contains crlf l = false) [lit "AT" ++ [13]; lit "OK"].
Proof.
  split; [reflexivity|].
  apply (proj2 parser_read_lines sample_response). reflexivity.
Defined.

(** ** Hexadecimal wide-character transform *)

Lemma byteZ_of_Z z : 0 <= z < 256 -> byteZ (byte_of_Z z) = z.
Proof.
  intros H. unfold byteZ, byte_of_Z.
  destruct (Byte.of_N (Z.to_N z)) as [b|] eqn:E.
  - apply Byte.to_of_N in E. rewrite E. lia.
  - apply Byte.of_N_None_iff in E. lia.
Qed.

Lemma bmp_char_single_unit c :
  bmp_char c = true <-> exists hi lo, utf16be_encode_char c = Some [hi; lo].
Proof.
  unfold bmp_char, utf16be_encode_char. split.
  - intros [[H1 H2]%andb_true_iff H3%negb_true_iff]%andb_true_iff.
    destruct (Z.ltb_spec c 0); [lia|]. rewrite H2, H3. unfold unit_be. eauto.
  - intros (hi & lo & H).
    destruct (Z.ltb_spec c 0); [done|].
    destruct (Z.ltb_spec c 65536).
    + destruct (is_surrogate c); [done|]. simpl.
      rewrite !andb_true_r. apply Z.leb_le. lia.
    + destruct (c <? 1114112); done.
Qed.

Lemma utf8_decode_hexlify bs :
  utf8_decode (hexlify bs) = Some (List.map byteZ (hexlify bs)).
Proof.
  induction bs as [|b bs IH]; [done|].
  change (hexlify (b :: bs)) with (hexlify [b] ++ hexlify bs).
  assert (H : forall r s, utf8_decode r = Some s ->
     utf8_decode (hexlify [b] ++ r) = Some (List.map byteZ (hexlify [b]) ++ s)).
  { intros r s Hr. destruct b; cbn; by rewrite Hr. }
  rewrite List.map_app. by apply H.
Qed.

Lemma hexlify_ascii bs : Forall (fun c => 0 <= c < 128) (List.map byteZ (hexlify bs)).
Proof.
  induction bs as [|b bs IH]; [by apply Forall_nil|].
  change (hexlify (b :: bs)) with (hexlify [b] ++ hexlify bs).
  rewrite List.map_app. apply Forall_app. split; [|done].
  destruct b; (apply Forall_cons; split; [by vm_compute|]);
    (apply Forall_cons; split; [by vm_compute|]); by apply Forall_nil.
Qed.

Lemma hexchars_length b : length (hexchars b) = 2%nat.
Proof. reflexivity. Qed.

Lemma hex4_length c : length (hex4 c) = 4%nat.
Proof. reflexivity. Qed.

Lemma upper_hexlify_app b bs :
  upper (List.map byteZ (hexlify (b :: bs))) =
  hexchars b ++ upper (List.map byteZ (hexlify bs)).
Proof. reflexivity. Qed.

Lemma encode_bmp s :
  Forall (fun c => bmp_char c = true) s ->
  encode s = Ok (List.concat (List.map hex4 s)).
Proof.
  intros Hs. unfold encode.
  assert (H : exists bs, utf16be_encode s = Some bs /\
     upper (List.map byteZ (hexlify bs)) = List.concat (List.map hex4 s)).
  { induction Hs as [|c s Hc _ (bs & IH1 & IH2)]; [by exists []|].
    simpl utf16be_encode. rewrite IH1.
    assert (E : utf16be_encode_char c = Some (unit_be c)).
    { unfold bmp_char in Hc. unfold utf16be_encode_char.
      apply andb_true_iff in Hc as [[H1 H2]%andb_true_iff H3%negb_true_iff].
      destruct (Z.ltb_spec c 0); [lia|]. by rewrite H2, H3. }
    rewrite E. eexists; split; [done|].
    unfold unit_be. cbn [app]. rewrite !upper_hexlify_app, IH2.
    cbn [List.map List.concat]. unfold hex4. by rewrite <- app_assoc. }
  destruct H as (bs & -> & <-). by rewrite utf8_decode_hexlify.
Qed.

Ltac eval_byte :=
  repeat match goal with
  | |- context [hexchars ?b] =>
      let t := eval vm_compute in (hexchars b) in change (hexchars b) with t
  | |- context [byteZ ?b] =>
      let t := eval vm_compute in (byteZ b) in change (byteZ b) with t
  end.

Section HexDigits.
Variable unicode_todecimal : Z -> option Z.

Lemma to_ascii_digits_ascii s :
  Forall (fun c => 0 <= c < 128) s -> to_ascii_digits unicode_todecimal s = s.
Proof.
  induction 1 as [|c s Hc _ IH]; [done|]. simpl.
  destruct (Z.ltb_spec c 128); [|lia]. by rewrite IH.
Qed.

Lemma scan_digits_hexchars b n acc rest :
  scan_digits 16 false n acc (hexchars b ++ rest) =
  scan_digits 16 false (S (S n)) (acc * 256 + byteZ b) rest.
Proof. destruct b; eval_byte; cbn; f_equal; lia. Qed.

Lemma long_from_string_hexchars b rest :
  long_from_string 16 (hexchars b ++ rest) =
  match scan_digits 16 false 0 0 (hexchars b ++ rest) with
  | Some (v, S _, r) =>
      match skip_spaces r with
      | [] => Some (1 * v)
      | _ => None
      end
  | _ => None
  end.
Proof. destruct b; eval_byte; reflexivity. Qed.

Lemma hex4_ascii c : Forall (fun c => 0 <= c < 128) (hex4 c).
Proof.
  unfold hex4. apply Forall_app. split.
  - destruct (byte_of_Z (c / 256));
      (apply Forall_cons; split; [by vm_compute|]);
      (apply Forall_cons; split; [by vm_compute|]); by apply Forall_nil.
  - destruct (byte_of_Z (c mod 256));
      (apply Forall_cons; split; [by vm_compute|]);
      (apply Forall_cons; split; [by vm_compute|]); by apply Forall_nil.
Qed.

Lemma py_int_hex4 c :
  0 <= c < 65536 -> py_int unicode_todecimal 16 (hex4 c) = Some c.
Proof.
  intros Hc. unfold py_int. rewrite to_ascii_digits_ascii by apply hex4_ascii.
  unfold hex4. rewrite long_from_string_hexchars.
  rewrite scan_digits_hexchars.
  rewrite <- (app_nil_r (hexchars (byte_of_Z (c mod 256)))).
  rewrite scan_digits_hexchars. cbn [scan_digits skip_spaces].
  rewrite !byteZ_of_Z.
  - f_equal. pose proof (Z.div_mod c 256). lia.
  - apply Z.mod_pos_bound. lia.
  - split; [apply Z.div_pos; lia|]. apply Z.div_lt_upper_bound; lia.
Qed.

Lemma pyslice_group (pre post : pystr) c i :
  length pre = (4 * i)%nat ->
  pyslice (pre ++ hex4 c ++ post) (Z.of_nat i * 4) (Z.of_nat i * 4 + 4) = hex4 c.
Proof.
  intros Hpre. unfold pyslice, clamp_index.
  rewrite !length_app, hex4_length, Hpre.
  destruct (Z.ltb_spec (Z.of_nat i * 4) 0); [lia|].
  destruct (Z.ltb_spec (Z.of_nat i * 4 + 4) 0); [lia|].
  rewrite !Z.max_r, !Z.min_r by lia.
  replace (Z.to_nat (Z.of_nat i * 4 + 4 - Z.of_nat i * 4)) with 4%nat by lia.
  replace (Z.to_nat (Z.of_nat i * 4)) with (length pre) by lia.
  rewrite drop_app_length. by apply take_app_length'.
Qed.

Lemma decode_loop_groups (s2 : pystr) : forall (s1 : pystr) r,
  Forall (fun c => bmp_char c = true) s2 ->
  decode_loop unicode_todecimal (List.concat (List.map hex4 (s1 ++ s2)))
    (seq (length s1) (length s2)) r = Ok (r ++ s2).
Proof.
  induction s2 as [|c s2 IH]; intros s1 r Hs.
  - simpl. by rewrite app_nil_r.
  - apply Forall_cons in Hs as [Hc Hs]. cbn [length seq decode_loop].
    rewrite List.map_app, List.concat_app. cbn [List.map List.concat].
    rewrite pyslice_group.
    2:{ clear. induction s1 as [|x s1 IH]; [done|]. cbn [List.map List.concat].
        rewrite length_app, hex4_length, IH. simpl. lia. }
    unfold bmp_char in Hc.
    apply andb_true_iff in Hc as [[H1%Z.leb_le H2%Z.ltb_lt]%andb_true_iff _].
    rewrite py_int_hex4 by lia. unfold chr.
    destruct (Z.leb_spec 0 c); [|lia].
    destruct (Z.ltb_spec c 1114112); [|lia]. cbn [andb].
    specialize (IH (s1 ++ [c]) (r ++ [c]) Hs).
    rewrite length_app in IH. simpl in IH.
    replace (length s1 + 1)%nat with (S (length s1)) in IH by lia.
    rewrite <- !app_assoc in IH. simpl in IH.
    rewrite List.map_app, List.concat_app in IH. exact IH.
Qed.

(** C10.  Round trip of the hexadecimal wide-character transform: when
    every character of [s] lies in the basic multilingual plane and encodes
    to a single UTF-16 unit ([bmp_char], see [bmp_char_single_unit]),
    [encode s] succeeds and [decode] maps its result back to [s]. *)
Theorem decode_encode_roundtrip (s : pystr) :
  Forall (fun c => bmp_char c = true) s ->
  exists h, encode s = Ok h /\ decode unicode_todecimal h = Ok s.
Proof.
  intros Hs. exists (List.concat (List.map hex4 s)). split; [by apply encode_bmp|].
  unfold decode.
  assert (Hlen : length (List.concat (List.map hex4 s)) = (length s * 4)%nat).
  { clear. induction s as [|x s IH]; [done|]. cbn [List.map List.concat].
    rewrite length_app, hex4_length, IH. simpl. lia. }
  rewrite Hlen, Nat.div_mul by lia.
  apply (decode_loop_groups s [] [] Hs).
Qed.
End HexDigits.

Lemma decode_encode_roundtrip_witness :
  Forall (fun c => bmp_char c = true) (lit "*100#" ++ [8364]) /\
  exists h, encode (lit "*100#" ++ [8364]) = Ok h /\
            decode (fun _ => None) h = Ok (lit "*100#" ++ [8364]).
Proof.
  assert (H : Forall (fun c => bmp_char c = true) (lit "*100#" ++ [8364])).
  { repeat (apply Forall_cons; split; [reflexivity|]). apply Forall_nil. exact I. }
  split; [exact H|]. exact (decode_encode_roundtrip (fun _ => None) _ H).
Defined.

(** ** Reassembly buffer *)

Section Reassembly.
Variable decodeSmsPdu : pystr -> Res SmsDict.

Lemma AdditionMessages_call_fragment raw m d reference parts number rest txt :
  decodeSmsPdu raw = Ok d ->
  d_udh d = Some (Concatenation reference parts number :: rest) ->
  d_text d = Some txt ->
  let entry := <[number := txt]> (default ∅ (m !! reference)) in
  AdditionMessages_call decodeSmsPdu raw m =
    if Z.of_nat (size entry) =? parts then
      match d_number d, d_time d with
      | Some n, Some t => (delete reference m, Ok (Some (mkMessage n t (join_parts entry))))
      | _, _ => (delete reference m, Raise KeyError)
      end
    else (<[reference := entry]> m, Ok None).
Proof.
  intros Hd Hu Ht entry. unfold AdditionMessages_call.
  rewrite Hd, Hu, Ht. fold entry. by rewrite delete_insert_eq.
Qed.

(** C2, as the code has it.  Ingesting a fragment stores its text at its
    part index; the entry completes (it is removed and a Message with the
    parts joined in ascending index order is returned) exactly when the
    number of stored part indices then equals the total declared by the
    fragment being ingested.  The buffer keeps no total of its own. *)
Theorem AdditionMessages_call_completes raw m d reference parts number rest txt n t :
  decodeSmsPdu raw = Ok d ->
  d_udh d = Some (Concatenation reference parts number :: rest) ->
  d_text d = Some txt -> d_number d = Some n -> d_time d = Some t ->
  let entry := <[number := txt]> (default ∅ (m !! reference)) in
  (Z.of_nat (size entry) = parts ->
     AdditionMessages_call decodeSmsPdu raw m =
       (delete reference m, Ok (Some (mkMessage n t (join_parts entry))))) /\
  (Z.of_nat (size entry) <> parts ->
     AdditionMessages_call decodeSmsPdu raw m =
       (<[reference := entry]> m, Ok None)).
Proof.
  intros Hd Hu Ht Hn Hts entry.
  rewrite (AdditionMessages_call_fragment raw m d reference parts number rest txt Hd Hu Ht).
  fold entry. rewrite Hn, Hts.
  split; intros H.
  - by rewrite (proj2 (Z.eqb_eq _ _) H).
  - by rewrite (proj2 (Z.eqb_neq _ _) H).
Qed.

(** C4.  A raw fragment whose decode raises EncodingError yields no
    Message, leaves the reassembly buffer (and the whole session) exactly
    as it was, and the EncodingError does not reach the caller. *)
Theorem AdditionMessages_call_drops_undecodable raw :
  decodeSmsPdu raw = Raise EncodingError ->
  (forall m, AdditionMessages_call decodeSmsPdu raw m = (m, Ok None)) /\
  (forall s, call_a decodeSmsPdu raw s = (s, Ok None)).
Proof.
  intros H.
  assert (Hm : forall m, AdditionMessages_call decodeSmsPdu raw m = (m, Ok None)).
  { intros m. unfold AdditionMessages_call. by rewrite H. }
  split; [exact Hm|]. intros s. unfold call_a. rewrite Hm. by destruct s.
Qed.

(** C6.  Three fragments of one reference id, each declaring three parts,
    ingested in the order 2, 1, 3 with the texts B, A and C into a buffer
    with no entry for that id: the first two ingests return nothing, the
    third returns the Message with text ABC and the sender and timestamp
    of the third fragment, and the entry is gone. *)
Theorem reassembly_out_of_order raw1 raw2 raw3 reference u1 u2 u3 n1 t1 n2 t2 n3 t3 m :
  m !! reference = None ->
  decodeSmsPdu raw1 =
    Ok (mkSmsDict (Some (Concatenation reference 3 2 :: u1)) (Some (lit "B")) n1 t1) ->
  decodeSmsPdu raw2 =
    Ok (mkSmsDict (Some (Concatenation reference 3 1 :: u2)) (Some (lit "A")) n2 t2) ->
  decodeSmsPdu raw3 =
    Ok (mkSmsDict (Some (Concatenation reference 3 3 :: u3)) (Some (lit "C"))
          (Some n3) (Some t3)) ->
  exists m1 m2,
    AdditionMessages_call decodeSmsPdu raw1 m = (m1, Ok None) /\
    AdditionMessages_call decodeSmsPdu raw2 m1 = (m2, Ok None) /\
    AdditionMessages_call decodeSmsPdu raw3 m2 =
      (m, Ok (Some (mkMessage n3 t3 (lit "ABC")))).
Proof.
  intros Hm H1 H2 H3.
  exists (<[reference := {[2 := lit "B"]}]> m).
  exists (<[reference := <[1 := lit "A"]> {[2 := lit "B"]}]> m).
  split; [|split].
  - erewrite AdditionMessages_call_fragment by (first [exact H1|reflexivity]).
    rewrite Hm. reflexivity.
  - erewrite AdditionMessages_call_fragment by (first [exact H2|reflexivity]).
    rewrite lookup_insert_eq. cbn [default].
    change (Z.of_nat (size _) =? 3) with false. cbn iota.
    by rewrite insert_insert_eq.
  - erewrite AdditionMessages_call_fragment by (first [exact H3|reflexivity]).
    rewrite lookup_insert_eq. cbn [default d_number d_time].
    change (Z.of_nat (size _) =? 3) with true. cbn iota.
    rewrite delete_insert_eq, delete_id by done.
    repeat f_equal.
Qed.
End Reassembly.

Lemma total_parts_not_fixed_by_first_fragment :
  ~ first_total_decides two_fragment_codec.
Proof.
  intros H.
  specialize (H (lit "first") (lit "second") 7 3 1 (lit "A") 2 2 (lit "B")
                (lit "+15551234567") 0 (lit "+15551234567") 1
                (<[7 := {[1 := lit "A"]}]> ∅) eq_refl eq_refl).
  assert (H1 : AdditionMessages_call two_fragment_codec (lit "first") ∅ =
               (<[7 := {[1 := lit "A"]}]> ∅, Ok None)) by reflexivity.
  destruct (H H1) as [Hc _].
  assert (Hex : exists msg,
    snd (AdditionMessages_call two_fragment_codec (lit "second")
           (<[7 := {[1 := lit "A"]}]> ∅)) = Ok (Some msg)).
  { eexists. vm_compute. reflexivity. }
  specialize (Hc Hex). vm_compute in Hc. discriminate.
Qed.

Lemma AdditionMessages_call_completes_witness :
  AdditionMessages_call two_fragment_codec (lit "second") pending_entry =
    (delete 7 pending_entry,
     Ok (Some (mkMessage (lit "+15551234567") 1
                 (join_parts (<[2 := lit "B"]> (default ∅ (pending_entry !! 7))))))).
Proof.
  refine (proj1 (AdditionMessages_call_completes two_fragment_codec (lit "second")
            pending_entry _ 7 2 2 [] (lit "B") (lit "+15551234567") 1 _ _ _ _ _) _);
    reflexivity.
Defined.

Lemma AdditionMessages_call_drops_undecodable_witness :
  AdditionMessages_call two_fragment_codec (lit "noise") pending_entry =
    (pending_entry, Ok None).
Proof.
  exact (proj1 (AdditionMessages_call_drops_undecodable two_fragment_codec (lit "noise")
                  eq_refl) pending_entry).
Defined.

Lemma reassembly_out_of_order_witness :
  exists m1 m2,
    AdditionMessages_call three_fragment_codec (lit "p2") pending_entry = (m1, Ok None) /\
    AdditionMessages_call three_fragment_codec (lit "p1") m1 = (m2, Ok None) /\
    AdditionMessages_call three_fragment_codec (lit "p3") m2 =
      (pending_entry, Ok (Some (mkMessage (lit "+15551234567") 2 (lit "ABC")))).
Proof.
  refine (reassembly_out_of_order three_fragment_codec (lit "p2") (lit "p1") (lit "p3")
            9 [] [] [] _ _ _ _ _ _ pending_entry _ _ _ _); reflexivity.
Defined.

(** ** Relations kept by session methods *)

Section Keeps.
Variable R : Sim900 -> Sim900 -> Prop.
Hypothesis R_refl : forall s, R s s.
Hypothesis R_trans : forall s1 s2 s3, R s1 s2 -> R s2 s3 -> R s1 s3.

Lemma keeps_ret {A} (a : A) : keeps R (ret a).
Proof. intros s. apply R_refl. Qed.

Lemma keeps_raise {A} e : keeps R (@raise A e).
Proof. intros s. apply R_refl. Qed.

Lemma keeps_lift {A} (r : Res A) : keeps R (lift r).
Proof. intros s. apply R_refl. Qed.

Lemma keeps_gets {A} (f : Sim900 -> A) : keeps R (gets f).
Proof. intros s. apply R_refl. Qed.

Lemma keeps_bind {A B} (c : M A) (k : A -> M B) :
  keeps R c -> (forall a, keeps R (k a)) -> keeps R (bind c k).
Proof.
  intros Hc Hk s. unfold bind. specialize (Hc s).
  destruct (c s) as [s1 [a|e]]; simpl in *; [|done].
  eapply R_trans; [exact Hc|apply Hk].
Qed.

Lemma keeps_modify f : (forall s, R s (f s)) -> keeps R (modify f).
Proof. intros H s. apply H. Qed.

Lemma keeps_for_each {A} (l : list A) body :
  (forall x, keeps R (body x)) -> keeps R (for_each l body).
Proof.
  intros H. induction l as [|x l IH]; simpl.
  - apply keeps_ret.
  - apply keeps_bind; [apply H|intros _; exact IH].
Qed.
End Keeps.

Lemma flags_kept_refl s : flags_kept s s.
Proof. by split. Qed.

Lemma flags_kept_trans s1 s2 s3 :
  flags_kept s1 s2 -> flags_kept s2 s3 -> flags_kept s1 s3.
Proof. intros [H1 H2] [H3 H4]. split; auto. Qed.

Lemma latched_bind {A B} (c : M A) (k : A -> M B) :
  latched c -> (forall a, latched (k a)) -> latched (bind c k).
Proof. apply keeps_bind, flags_kept_trans. Qed.

Lemma latched_for_each {A} (l : list A) body :
  (forall x, latched (body x)) -> latched (for_each l body).
Proof. apply keeps_for_each; [apply flags_kept_refl|apply flags_kept_trans]. Qed.

Ltac latched_step :=
  match goal with
  | |- keeps _ (bind _ _) => apply latched_bind; [|intros ?]
  | |- keeps _ (ret _) => apply keeps_ret, flags_kept_refl
  | |- keeps _ (raise _) => apply keeps_raise, flags_kept_refl
  | |- keeps _ (lift _) => apply keeps_lift, flags_kept_refl
  | |- keeps _ (gets _) => apply keeps_gets, flags_kept_refl
  | |- keeps _ (for_each _ _) => apply latched_for_each; intros ?
  | |- keeps _ (modify _) => apply keeps_modify; intros ?; by split
  | |- keeps _ (if ?b then _ else _) => destruct b
  | |- keeps _ (match ?x with _ => _ end) => destruct x
  | H : keeps _ ?c |- keeps _ ?c => exact H
  end.

Ltac latched := repeat latched_step.

Create HintDb latch.

Lemma latched_emit e : latched (emit e).
Proof. unfold emit. latched. Qed.

Lemma latched_sleep ms : latched (sleep ms).
Proof. unfold sleep. latched. apply latched_emit. Qed.

Lemma latched_read_all : latched read_all.
Proof. intros s. by split. Qed.

Lemma latched_in_waiting : latched in_waiting.
Proof. unfold in_waiting. latched. Qed.

Lemma latched_write b : latched (write b).
Proof. unfold write. latched. apply latched_emit. Qed.

Lemma latched_to_bytes t : latched (to_bytes t).
Proof. unfold to_bytes. latched. Qed.

Lemma latched_now : latched now.
Proof. unfold now. latched. Qed.

#[export] Hint Resolve latched_emit latched_sleep latched_read_all latched_in_waiting
  latched_write latched_to_bytes latched_now : latch.

Ltac latch := latched; eauto with latch.

Section SessionLatches.
Variable decodeSmsPdu : pystr -> Res SmsDict.
Variable encodeSmsSubmitPdu : pystr -> pystr -> Res (list Pdu).
Variable unicode_todecimal : Z -> option Z.
Variable additional_function_call : Call -> option exn.
Variable additional_function_message : Message -> option exn.

Lemma latched_call_a raw : latched (call_a decodeSmsPdu raw).
Proof.
  intros s. unfold call_a.
  destruct (AdditionMessages_call decodeSmsPdu raw (_a s)). by split.
Qed.

Lemma latched_read : latched read.
Proof. unfold read. latch. Qed.

Lemma latched_command c : latched (command c).
Proof. unfold command. latch. Qed.

Lemma latched_hung_up_call : latched hung_up_call.
Proof. apply latched_command. Qed.

Lemma latched_raise_Sim900Error {A} r : latched (@raise_Sim900Error A r).
Proof. unfold raise_Sim900Error. latch. Qed.

Lemma latched_call_handler c : latched (call_handler additional_function_call c).
Proof. unfold call_handler. latch. Qed.

Lemma latched_message_handler m :
  latched (message_handler additional_function_message m).
Proof. unfold message_handler. latch. Qed.

Lemma latched_enqueue t : latched (enqueue t).
Proof. unfold enqueue. latch. Qed.

#[local] Hint Resolve latched_call_a latched_read latched_command latched_hung_up_call
  latched_raise_Sim900Error latched_call_handler latched_message_handler
  latched_enqueue : latch.

Lemma latched_incoming_call data :
  latched (incoming_call additional_function_call data).
Proof. unfold incoming_call. latch. Qed.

Lemma latched_incoming_message data :
  latched (incoming_message unicode_todecimal data).
Proof. unfold incoming_message. latched. unfold notify. latch. Qed.

Lemma latched_incoming_ussd data :
  latched (incoming_ussd unicode_todecimal data).
Proof. unfold incoming_ussd. latch. Qed.

#[local] Hint Resolve latched_incoming_call latched_incoming_message latched_incoming_ussd : latch.

Lemma latched_checking_incoming_data data :
  latched (checking_incoming_data unicode_todecimal additional_function_call data).
Proof. unfold checking_incoming_data. latch. Qed.

#[local] Hint Resolve latched_checking_incoming_data : latch.

Lemma latched_parser_command data :
  latched (parser_command unicode_todecimal additional_function_call data).
Proof. unfold parser_command. latch. Qed.

#[local] Hint Resolve latched_parser_command : latch.

Lemma latched_send_command c :
  latched (send_command unicode_todecimal additional_function_call c).
Proof. unfold send_command. latch. Qed.

#[local] Hint Resolve latched_send_command : latch.

Lemma latched_get_operator :
  latched (get_operator unicode_todecimal additional_function_call).
Proof. unfold get_operator. latch. Qed.

Lemma latched_get_csq : latched (get_csq unicode_todecimal additional_function_call).
Proof. unfold get_csq. latch. Qed.

Lemma latched_get_product_info :
  latched (get_product_info unicode_todecimal additional_function_call).
Proof. unfold get_product_info. latch. Qed.

Lemma latched_get_revision :
  latched (get_revision unicode_todecimal additional_function_call).
Proof. unfold get_revision. latch. Qed.

#[local] Hint Resolve latched_get_operator latched_get_csq latched_get_product_info
  latched_get_revision : latch.

Lemma latched_checking_status_board :
  latched (checking_status_board unicode_todecimal additional_function_call).
Proof. unfold checking_status_board. latch. Qed.

#[local] Hint Resolve latched_checking_status_board : latch.

Lemma latched_pre_up : latched (pre_up unicode_todecimal additional_function_call).
Proof. unfold pre_up. latch. Qed.

Lemma latched_collect_sms ms : latched (collect_sms decodeSmsPdu ms).
Proof.
  revert ms. fix IH 1. intros [|x [|raw ms]]; simpl; latch.
Qed.

#[local] Hint Resolve latched_collect_sms : latch.

Lemma latched_get_all_sms_message :
  latched (get_all_sms_message decodeSmsPdu unicode_todecimal additional_function_call).
Proof. unfold get_all_sms_message. latch. Qed.

Lemma latched_send_sms phone text :
  latched (send_sms encodeSmsSubmitPdu unicode_todecimal additional_function_call
             phone text).
Proof. unfold send_sms. latch. Qed.

Lemma latched_send_ussd ussd :
  latched (send_ussd unicode_todecimal additional_function_call ussd).
Proof. unfold send_ussd. latch. Qed.

Lemma latched_call phone :
  latched (call unicode_todecimal additional_function_call phone).
Proof. unfold call. latch. Qed.

Lemma latched_del_sms sms_id :
  latched (del_sms unicode_todecimal additional_function_call sms_id).
Proof. unfold del_sms. latch. Qed.

#[local] Hint Resolve latched_del_sms : latch.

Lemma latched_get_sms sms_id :
  latched (get_sms decodeSmsPdu unicode_todecimal additional_function_call sms_id).
Proof. unfold get_sms. latch. Qed.

#[local] Hint Resolve latched_get_sms : latch.

Lemma latched_incoming_sms sms_id :
  latched (incoming_sms decodeSmsPdu unicode_todecimal additional_function_call sms_id).
Proof. unfold incoming_sms. latch. Qed.

#[local] Hint Resolve latched_incoming_sms : latch.

Lemma latched_invoke t :
  latched (invoke decodeSmsPdu unicode_todecimal additional_function_call
             additional_function_message t).
Proof. unfold invoke. latch. Qed.

Lemma latched_popleft : latched popleft.
Proof. intros s. unfold popleft. destruct (_task_queue s); by split. Qed.

#[local] Hint Resolve latched_invoke latched_popleft : latch.

Lemma latched_run_task :
  latched (run_task decodeSmsPdu unicode_todecimal additional_function_call
             additional_function_message).
Proof.
  intros s. unfold run_task.
  match goal with |- context [bind ?c ?k s] =>
    assert (H : latched (bind c k)) by latch; specialize (H s);
    destruct (bind c k s) as [s' [b|e]] end; [done|].
  by destruct e.
Qed.

#[local] Hint Resolve latched_run_task : latch.

Lemma latched_drain fuel :
  latched (drain decodeSmsPdu unicode_todecimal additional_function_call
             additional_function_message fuel).
Proof. induction fuel as [|fuel IH]; simpl; latch. Qed.

#[local] Hint Resolve latched_drain : latch.

Lemma latched_run inner fuel :
  latched (run decodeSmsPdu unicode_todecimal additional_function_call
             additional_function_message inner fuel).
Proof. induction fuel as [|fuel IH]; simpl; latch. Qed.

Lemma latched_exec op :
  latched (exec decodeSmsPdu encodeSmsSubmitPdu unicode_todecimal
             additional_function_call additional_function_message op).
Proof.
  destruct op; unfold exec, void, connect; latch;
    eauto using latched_pre_up, latched_get_all_sms_message, latched_send_sms,
      latched_send_ussd, latched_call, latched_run.
Qed.
End SessionLatches.

Lemma no_wait_refl s : no_wait s s.
Proof. split; [done|]. exists []. by rewrite app_nil_r. Qed.

Lemma no_wait_trans s1 s2 s3 : no_wait s1 s2 -> no_wait s2 s3 -> no_wait s1 s3.
Proof.
  intros [H1 (e1 & T1 & F1)] [H2 (e2 & T2 & F2)]. split; [congruence|].
  exists (e1 ++ e2). rewrite T2, T1, <- app_assoc. split; [done|].
  by rewrite forallb_app, F1, F2.
Qed.

Lemma same_many_sms_refl s : same_many_sms s s.
Proof. done. Qed.

Lemma same_many_sms_trans s1 s2 s3 :
  same_many_sms s1 s2 -> same_many_sms s2 s3 -> same_many_sms s1 s3.
Proof. unfold same_many_sms. congruence. Qed.

Ltac keeps_step refl trans :=
  match goal with
  | |- keeps _ (bind _ _) => apply (keeps_bind _ trans); [|intros ?]
  | |- keeps _ (ret _) => apply (keeps_ret _ refl)
  | |- keeps _ (raise _) => apply (keeps_raise _ refl)
  | |- keeps _ (lift _) => apply (keeps_lift _ refl)
  | |- keeps _ (gets _) => apply (keeps_gets _ refl)
  | |- keeps _ (for_each _ _) => apply (keeps_for_each _ refl trans); intros ?
  | |- keeps _ (if ?b then _ else _) => destruct b
  | |- keeps _ (match ?x with _ => _ end) => destruct x
  end.

Ltac no_wait := repeat keeps_step no_wait_refl no_wait_trans.
Ltac same_many := repeat keeps_step same_many_sms_refl same_many_sms_trans.

Lemma no_wait_emit e : is_sleep e = false -> keeps no_wait (emit e).
Proof.
  intros He s. split; [done|]. exists [e]. split; [done|]. simpl. by rewrite He.
Qed.

Lemma no_wait_enqueue t : keeps no_wait (enqueue t).
Proof. intros s. split; [done|]. exists []. by rewrite app_nil_r. Qed.

Lemma no_wait_modify f :
  (forall s, buffer (f s) = buffer s) -> (forall s, trace (f s) = trace s) ->
  keeps no_wait (modify f).
Proof.
  intros Hb Ht s. split; [apply Hb|]. exists []. simpl. by rewrite Ht, app_nil_r.
Qed.

Lemma same_many_sms_emit e : keeps same_many_sms (emit e).
Proof. by intros s. Qed.

Lemma same_many_sms_enqueue t : keeps same_many_sms (enqueue t).
Proof. by intros s. Qed.

Section Classifier.
Variable unicode_todecimal : Z -> option Z.
Variable additional_function_call : Call -> option exn.

Lemma no_wait_command c : keeps no_wait (command c).
Proof.
  unfold command, to_bytes, write. no_wait. by apply no_wait_emit.
Qed.

Lemma no_wait_incoming_call data :
  keeps no_wait (incoming_call additional_function_call data).
Proof.
  unfold incoming_call, hung_up_call, call_handler, now. no_wait.
  - apply no_wait_command.
  - by apply no_wait_emit.
Qed.

Lemma no_wait_incoming_ussd data :
  keeps no_wait (incoming_ussd unicode_todecimal data).
Proof. unfold incoming_ussd, now. no_wait. apply no_wait_enqueue. Qed.

Lemma no_wait_incoming_message data :
  keeps no_wait (incoming_message unicode_todecimal data).
Proof.
  unfold incoming_message. no_wait. unfold notify.
  no_wait; try apply no_wait_enqueue. by apply no_wait_modify.
Qed.

Lemma no_wait_checking_incoming_data data :
  keeps no_wait (checking_incoming_data unicode_todecimal additional_function_call data).
Proof.
  unfold checking_incoming_data. no_wait;
    auto using no_wait_incoming_call, no_wait_incoming_ussd,
      no_wait_incoming_message; by apply no_wait_modify.
Qed.

Lemma same_many_sms_incoming_call data :
  keeps same_many_sms (incoming_call additional_function_call data).
Proof.
  unfold incoming_call, hung_up_call, command, to_bytes, write, call_handler, now.
  same_many; apply same_many_sms_emit.
Qed.

Lemma same_many_sms_incoming_ussd data :
  keeps same_many_sms (incoming_ussd unicode_todecimal data).
Proof. unfold incoming_ussd, now. same_many. apply same_many_sms_enqueue. Qed.
End Classifier.

(** ** Classifier and transaction engine *)

Lemma checking_cons f x l : checking f (x :: l) = contains f x || checking f l.
Proof. unfold checking. simpl. by destruct (contains f x). Qed.

Lemma nth_error_last {A} (l : list A) d :
  l <> [] -> nth_error l (length l - 1) = Some (List.last l d).
Proof.
  induction l as [|x l IH]; [done|]. intros _.
  destruct l as [|y l]; [done|].
  specialize (IH ltac:(done)). cbn [length] in *.
  replace (S (S (length l)) - 1)%nat with (S (S (length l) - 1)) by lia.
  exact IH.
Qed.

Lemma getitem_last {A} (l : list A) d :
  l <> [] -> getitem l (-1) = Ok (List.last l d).
Proof.
  intros Hl. unfold getitem. cbn [Z.ltb Z.compare].
  assert (0 < length l)%nat by (destruct l; [done|simpl; lia]).
  destruct (Z.ltb_spec (-1 + Z.of_nat (length l)) 0); [lia|].
  destruct (Z.leb_spec (Z.of_nat (length l)) (-1 + Z.of_nat (length l))); [lia|].
  cbn [orb]. replace (Z.to_nat _) with (length l - 1)%nat by lia.
  by rewrite (nth_error_last l d Hl).
Qed.

Lemma pyslice_interior {A} (l : list A) : pyslice l 1 (-1) = removelast (tl l).
Proof.
  unfold pyslice, clamp_index. cbn [Z.ltb Z.compare].
  destruct l as [|x l]; [done|]. cbn [length tl].
  rewrite removelast_firstn_len.
  replace (Z.to_nat (Z.max 0 (Z.min (Z.of_nat (S (length l))) 1))) with 1%nat by lia.
  cbn [drop]. f_equal. lia.
Qed.

Lemma bind_Ok {A B} (c : M A) (k : A -> M B) s s' b :
  bind c k s = (s', Ok b) ->
  exists s1 a, c s = (s1, Ok a) /\ k a s1 = (s', Ok b).
Proof.
  unfold bind. destruct (c s) as [s1 [a|e]]; [|done]. intros H. by exists s1, a.
Qed.

Section ClassifierFacts.
Variable unicode_todecimal : Z -> option Z.
Variable additional_function_call : Call -> option exn.

Let classify := checking_incoming_data unicode_todecimal additional_function_call.
Let parse := parser_command unicode_todecimal additional_function_call.

Lemma classify_no_urc data s :
  no_urc data ->
  classify data s =
    if checking NORMAL_POWER_DOWN data
    then (set_status false (set_npd true s), Ok true)
    else (s, Ok false).
Proof.
  intros (H1 & H2 & H3). unfold classify, checking_incoming_data.
  rewrite H1, H2, H3. by destruct (checking NORMAL_POWER_DOWN data).
Qed.

Lemma classify_power_down data s s' b :
  checking NORMAL_POWER_DOWN data = true ->
  classify data s = (s', Ok b) ->
  npd s' = true /\ status s' = false /\ b = true.
Proof.
  intros Hm. unfold classify, checking_incoming_data. rewrite Hm. intros H.
  apply bind_Ok in H as (s1 & _ & _ & H).
  apply bind_Ok in H as (s2 & _ & _ & H).
  apply bind_Ok in H as (s3 & _ & _ & H).
  by injection H as <- <-.
Qed.

Lemma parse_after_classification data s s1 b :
  classify data s = (s1, Ok b) ->
  parse data s =
    match data with
    | [] => (s1, Raise Sim900NoResponse)
    | _ :: _ =>
        if str_eqb (List.last data []) ERROR
        then raise_Sim900Error (buffer s1) s1
        else (s1, Ok (removelast (tl data)))
    end.
Proof.
  intros Hc. unfold parse, parser_command, bind. fold classify. rewrite Hc.
  destruct data as [|x data]; [done|].
  cbn [length Nat.eqb]. unfold lift.
  rewrite (getitem_last (x :: data) []) by done.
  destruct (str_eqb _ ERROR); [done|]. unfold ret. by rewrite pyslice_interior.
Qed.

Lemma classify_buffer data s : buffer (fst (classify data s)) = buffer s.
Proof. apply (no_wait_checking_incoming_data _ _ data s). Qed.
End ClassifierFacts.

Section Transactions.
Variable unicode_todecimal : Z -> option Z.
Variable additional_function_call : Call -> option exn.

Let classify := checking_incoming_data unicode_todecimal additional_function_call.
Let parse := parser_command unicode_todecimal additional_function_call.

(** C3, as the code has it.  The batch is classified for unsolicited
    content first.  When that classification returns: an empty batch fails
    with NoResponse; a batch whose last line is the failure marker fails
    with CommandError carrying the last-read buffer (the buffer being
    absent or decodable); any other batch succeeds with the batch less its
    first and last line.  The classification returns on every batch free
    of ring, service-response and new-message markers, and the batch
    [ATxyz], [OK] yields the empty interior. *)
Theorem parser_command_classification :
  (forall data s s1 b,
     classify data s = (s1, Ok b) ->
     (data = [] -> parse data s = (s1, Raise Sim900NoResponse)) /\
     (data <> [] -> List.last data [] = ERROR -> buffer_decodes s ->
        parse data s = (s1, Raise (Sim900Error (buffer s)))) /\
     (data <> [] -> List.last data [] <> ERROR ->
        parse data s = (s1, Ok (removelast (tl data))))) /\
  (forall data s, no_urc data -> exists s1 b, classify data s = (s1, Ok b)) /\
  (forall s, parse [lit "ATxyz"; lit "OK"] s = (s, Ok [])).
Proof.
  split; [|split].
  - intros data s s1 b Hc.
    pose proof (parse_after_classification _ _ data s s1 b Hc) as Hp.
    fold parse in Hp.
    pose proof (classify_buffer unicode_todecimal additional_function_call data s) as Hb.
    fold classify in Hb. rewrite Hc in Hb. simpl in Hb.
    split; [|split].
    + intros ->. exact Hp.
    + intros Hne Hlast Hdec. destruct data as [|x data]; [done|].
      rewrite Hp. unfold str_eqb. rewrite bool_decide_eq_true_2 by done.
      unfold buffer_decodes in Hdec. unfold raise_Sim900Error. rewrite Hb.
      destruct (buffer s) as [raw|]; [|done].
      by destruct (utf8_decode raw).
    + intros Hne Hlast. destruct data as [|x data]; [done|].
      rewrite Hp. unfold str_eqb. by rewrite bool_decide_eq_false_2.
  - intros data s Hq. unfold classify.
    rewrite (classify_no_urc _ _ data s Hq).
    destruct (checking NORMAL_POWER_DOWN data); eauto.
  - intros s. reflexivity.
Qed.

(** Inside [send_command] the buffer is the one [read] has just decoded. *)
Lemma read_buffer_decodes s s1 lines :
  read s = (s1, Ok lines) -> buffer_decodes s1.
Proof.
  unfold read, bind, read_all, modify, lift, parser_read, buffer_decodes.
  match goal with |- context [utf8_decode ?x] => destruct (utf8_decode x) eqn:E end.
  - intros [= <- _]. simpl. by rewrite E.
  - intros [=].
Qed.
End Transactions.

Lemma parser_command_classification_witness :
  checking_incoming_data no_digits no_handler_c [lit "AT+CSQ"; ERROR] fresh_session
    = (fresh_session, Ok false) /\
  parser_command no_digits no_handler_c [lit "AT+CSQ"; ERROR] fresh_session
    = (fresh_session, Raise (Sim900Error None)).
Proof.
  split; [reflexivity|].
  refine (proj1 (proj2 (proj1 (parser_command_classification no_digits no_handler_c)
            [lit "AT+CSQ"; ERROR] fresh_session fresh_session false _)) _ _ _).
  - reflexivity.
  - discriminate.
  - reflexivity.
  - exact I.
Defined.

Lemma parser_command_urc_failure :
  ~ parser_command_total no_digits no_handler_c /\
  snd (parser_command no_digits no_handler_c [lit "AT"; ERROR]
         (set_buffer (Some [xff]) fresh_session)) = Raise UnicodeDecodeError.
Proof.
  split; [|reflexivity]. intros H.
  specialize (H [lit "AT+CUSD=1"; lit "+CUSD: 2"; lit "OK"] fresh_session).
  vm_compute in H. discriminate.
Qed.

(** ** Ring notification *)

Lemma clip_line_phone : phone_of clip_line = Ok (lit "+15551234567").
Proof. reflexivity. Qed.

Lemma clip_line_markers :
  contains RING clip_line = false /\ contains CLIP clip_line = true /\
  contains CUSD clip_line = false /\ contains CMTI_SM clip_line = false /\
  contains NORMAL_POWER_DOWN clip_line = false.
Proof. repeat split; reflexivity. Qed.

Section Ring.
Variable unicode_todecimal : Z -> option Z.
Variable additional_function_call : Call -> option exn.

Lemma incoming_call_clip_line data s :
  List.filter (contains CLIP) data = [clip_line] ->
  let c := mkCall (lit "+15551234567") (clock s) in
  incoming_call additional_function_call data s =
    (set_trace (trace s ++ [EvWrite ATH_bytes; EvCall c]) s,
     match additional_function_call c with
     | Some e => Raise e
     | None => Ok tt
     end).
Proof.
  intros Hf c. unfold incoming_call. rewrite Hf.
  unfold hung_up_call, command.
  change (to_bytes (lit "ATH" ++ [13])) with (@ret bytes ATH_bytes).
  cbn [for_each]. rewrite clip_line_phone.
  unfold bind, ret, lift, write, emit, modify, now, gets, call_handler, bind, ret.
  cbn [clock trace set_trace]. fold c.
  destruct (additional_function_call c);
    unfold raise, emit, modify, set_trace; cbn [clock trace fst snd];
    by rewrite <- app_assoc.
Qed.

(** C8.  Classifying the CLIP line of caller +15551234567 together with
    a ring line, in either order, writes exactly one hang-up command and
    invokes the call handler exactly once, at once, with that phone
    number; nothing is put on the task queue. *)
Theorem ring_with_clip_line ring batch s :
  ring_only ring ->
  batch = [ring; clip_line] \/ batch = [clip_line; ring] ->
  let c := mkCall (lit "+15551234567") (clock s) in
  checking_incoming_data unicode_todecimal additional_function_call batch s =
    (set_trace (trace s ++ [EvWrite ATH_bytes; EvCall c]) s,
     match additional_function_call c with
     | Some e => Raise e
     | None => Ok false
     end).
Proof.
  intros (H1 & H2 & H3 & H4 & H5) Hb c.
  destruct clip_line_markers as (C1 & C2 & C3 & C4 & C5).
  assert (Hf : List.filter (contains CLIP) batch = [clip_line]).
  { destruct Hb as [-> | ->]; cbn [List.filter]; by rewrite H2, C2. }
  assert (Hm : checking RING batch = true /\ checking CUSD batch = false /\
               checking CMTI_SM batch = false /\
               checking NORMAL_POWER_DOWN batch = false).
  { destruct Hb as [-> | ->]; rewrite !checking_cons;
      rewrite ?H1, ?H3, ?H4, ?H5, ?C1, ?C3, ?C4, ?C5; done. }
  destruct Hm as (M1 & M2 & M3 & M4).
  unfold checking_incoming_data. rewrite M1, M2, M3, M4.
  unfold bind at 1. rewrite (incoming_call_clip_line batch s Hf). fold c.
  destruct (additional_function_call c); reflexivity.
Qed.
End Ring.

Lemma ring_with_clip_line_witness :
  ring_only RING /\
  checking_incoming_data no_digits no_handler_c [RING; clip_line] fresh_session =
    (set_trace [EvWrite ATH_bytes; EvCall (mkCall (lit "+15551234567") 0)] fresh_session,
     Ok false).
Proof.
  assert (H : ring_only RING) by (repeat split; reflexivity).
  split; [exact H|].
  exact (ring_with_clip_line no_digits no_handler_c RING [RING; clip_line]
           fresh_session H (or_introl eq_refl)).
Defined.

(** ** Power-down and the run loop *)

Lemma read_trace s : trace (fst (read s)) = trace s.
Proof.
  unfold read, bind, read_all, modify, lift, parser_read.
  match goal with |- context [utf8_decode ?x] => by destruct (utf8_decode x) end.
Qed.

Section PowerDown.
Variable decodeSmsPdu : pystr -> Res SmsDict.
Variable encodeSmsSubmitPdu : pystr -> pystr -> Res (list Pdu).
Variable unicode_todecimal : Z -> option Z.
Variable additional_function_call : Call -> option exn.
Variable additional_function_message : Message -> option exn.

Let classify := checking_incoming_data unicode_todecimal additional_function_call.
Let run_loop := run decodeSmsPdu unicode_todecimal additional_function_call
                  additional_function_message.
Let execute := exec decodeSmsPdu encodeSmsSubmitPdu unicode_todecimal
                 additional_function_call additional_function_message.

Lemma run_when_down inner fuel s :
  npd s = true -> run_loop inner (S fuel) s = (s, Ok true).
Proof.
  intros H. unfold run_loop. cbn [run]. unfold bind at 1, gets at 1. by rewrite H.
Qed.

Lemma run_poll_power_down inner fuel s s1 lines s2 :
  npd s = false -> _task_queue s = [] ->
  (exists w, snd (in_waiting s) = Ok w /\ 0 < w) ->
  read s = (s1, Ok lines) ->
  classify lines s1 = (s2, Ok true) ->
  run_loop (S inner) (S fuel) s = (s2, Ok true).
Proof.
  intros Hn Hq (w & Hw & Hpos) Hr Hc. unfold run_loop. cbn [run drain].
  unfold bind at 1, gets at 1. rewrite Hn.
  unfold bind at 1. unfold bind at 1, gets at 1. rewrite Hq. cbn [length Nat.ltb Nat.leb].
  unfold ret at 1. cbn [negb].
  unfold bind at 1. unfold in_waiting, gets in *. simpl in Hw. injection Hw as Hw.
  rewrite Hw. destruct (Z.gtb_spec w 0); [|lia].
  unfold bind at 1. unfold bind at 1. rewrite Hr. fold classify. by rewrite Hc.
Qed.

(** C7, as the code has it.  On a batch with the power-down marker, a
    classification that returns has set the power-down flag, cleared the
    connection status and returned true; it returns whenever the batch
    carries no ring, service-response or new-message marker.  When the
    poll of the run loop obtains such a classification the loop is left at
    once, with no wait since the poll began; a loop entered with the flag
    set is left without any action; and no operation resets the flag. *)
Theorem power_down_stops_run :
  (forall data s s' b,
     checking NORMAL_POWER_DOWN data = true -> classify data s = (s', Ok b) ->
     npd s' = true /\ status s' = false /\ b = true) /\
  (forall data s,
     checking NORMAL_POWER_DOWN data = true -> no_urc data ->
     classify data s = (set_status false (set_npd true s), Ok true)) /\
  (forall inner fuel s s1 lines s2 b,
     npd s = false -> _task_queue s = [] ->
     (exists w, snd (in_waiting s) = Ok w /\ 0 < w) ->
     read s = (s1, Ok lines) ->
     checking NORMAL_POWER_DOWN lines = true ->
     classify lines s1 = (s2, Ok b) ->
     run_loop (S inner) (S fuel) s = (s2, Ok true) /\ npd s2 = true /\
     exists evs, trace s2 = trace s ++ evs /\
                 forallb (fun e => negb (is_sleep e)) evs = true) /\
  (forall inner fuel s, npd s = true -> run_loop inner (S fuel) s = (s, Ok true)) /\
  (forall op s, npd s = true -> npd (fst (execute op s)) = true).
Proof.
  split; [|split; [|split; [|split]]].
  - intros data s s' b Hm Hc. exact (classify_power_down _ _ data s s' b Hm Hc).
  - intros data s Hm Hq. unfold classify. by rewrite classify_no_urc, Hm.
  - intros inner fuel s s1 lines s2 b Hn Hq Hw Hr Hm Hc.
    destruct (classify_power_down _ _ lines s1 s2 b Hm Hc) as (Hd & _ & ->).
    split; [by eapply run_poll_power_down|]. split; [done|].
    pose proof (no_wait_checking_incoming_data unicode_todecimal
                  additional_function_call lines s1) as [_ (evs & Ht & Hf)].
    fold classify in Ht. rewrite Hc in Ht. simpl in Ht.
    exists evs. split; [|done].
    pose proof (read_trace s) as Hrt. rewrite Hr in Hrt. simpl in Hrt. congruence.
  - intros inner fuel s. apply run_when_down.
  - intros op s.
    apply (latched_exec decodeSmsPdu encodeSmsSubmitPdu unicode_todecimal
             additional_function_call additional_function_message op s).
Qed.
End PowerDown.

Lemma power_down_stops_run_witness :
  let s2 := set_status false (set_npd true
              (set_buffer (Some power_down_bytes) (set_connect [] powering_down))) in
  run no_codec no_digits no_handler_c no_handler_m 1 1 powering_down = (s2, Ok true) /\
  npd s2 = true /\
  exists evs, trace s2 = trace powering_down ++ evs /\
              forallb (fun e => negb (is_sleep e)) evs = true.
Proof.
  intros s2.
  refine (proj1 (proj2 (proj2 (power_down_stops_run no_codec no_frames no_digits
            no_handler_c no_handler_m))) 0%nat 0%nat powering_down
            (set_buffer (Some power_down_bytes) (set_connect [] powering_down))
            [NORMAL_POWER_DOWN] s2 true _ _ _ _ _ _).
  - reflexivity.
  - reflexivity.
  - exists 21. split; [reflexivity|lia].
  - reflexivity.
  - reflexivity.
  - reflexivity.
Defined.

Lemma power_down_missed :
  ~ power_down_total no_digits no_handler_c /\
  exists s1 lines s2,
    send_command no_digits no_handler_c (lit "AT+CMGR=5")
      (set_task_queue [] down_in_transaction) = (s1, Ok lines) /\
    npd s1 = true /\
    run no_codec no_digits no_handler_c no_handler_m 2 2 down_in_transaction
      = (s2, Ok true) /\
    trace s2 = trace s1 ++ [EvWrite (List.map byte_of_Z (lit "AT+CMGD=5" ++ [13]));
                            EvSleep 3000; EvSleep 500].
Proof.
  split.
  - intros H.
    destruct (H [lit "+CUSD: 2"; NORMAL_POWER_DOWN] fresh_session eq_refl) as [Hn _].
    vm_compute in Hn. discriminate.
  - eexists _, _, _. split; [vm_compute; reflexivity|].
    split; [reflexivity|]. split; [vm_compute; reflexivity|]. reflexivity.
Qed.

(** ** The multiple-messages flag *)

Section ManySms.
Variable decodeSmsPdu : pystr -> Res SmsDict.
Variable encodeSmsSubmitPdu : pystr -> pystr -> Res (list Pdu).
Variable unicode_todecimal : Z -> option Z.
Variable additional_function_call : Call -> option exn.
Variable additional_function_message : Message -> option exn.

Let classify := checking_incoming_data unicode_todecimal additional_function_call.
Let execute := exec decodeSmsPdu encodeSmsSubmitPdu unicode_todecimal
                 additional_function_call additional_function_message.
Let positive := positive_notification unicode_todecimal.

Lemma existsb_positive_filter data :
  existsb positive (List.filter (contains CMTI_SM) data) = existsb positive data.
Proof.
  induction data as [|d data IH]; [done|]. cbn [List.filter existsb].
  destruct (contains CMTI_SM d) eqn:E; cbn [existsb]; rewrite IH; [done|].
  unfold positive, positive_notification. by rewrite E.
Qed.

Lemma existsb_positive_checking data :
  checking CMTI_SM data = false -> existsb positive data = false.
Proof.
  induction data as [|d data IH]; [done|]. rewrite checking_cons.
  intros [E H]%orb_false_iff. cbn [existsb]. rewrite (IH H).
  unfold positive, positive_notification. by rewrite E.
Qed.

Lemma notify_run d s :
  notify unicode_todecimal d s =
    match sms_id_of unicode_todecimal d with
    | Ok n =>
        let s1 := if n >? 0 then set_many_sms true s else s in
        (set_task_queue (_task_queue s1 ++ [TaskIncomingSms n]) s1, Ok tt)
    | Raise e => (s, Raise e)
    end.
Proof.
  unfold notify, bind, lift.
  destruct (sms_id_of unicode_todecimal d) as [n|e]; [|done].
  by destruct (n >? 0).
Qed.

Lemma notification_loop l : forall s,
  Forall (fun d => contains CMTI_SM d = true) l ->
  let r := for_each l (notify unicode_todecimal) s in
  (_many_sms (fst r) = true -> _many_sms s = true \/ existsb positive l = true) /\
  (snd r = Ok tt -> _many_sms (fst r) = _many_sms s || existsb positive l).
Proof.
  induction l as [|d l IH]; intros s Hl.
  - simpl. split; [auto|]. by rewrite orb_false_r.
  - apply Forall_cons in Hl as [Hd Hl]. cbn [for_each existsb].
    unfold positive at 1 3, positive_notification. rewrite Hd. cbn [andb].
    unfold bind. rewrite notify_run.
    destruct (sms_id_of unicode_todecimal d) as [n|e]; [|simpl; split; [auto|done]].
    cbv beta iota zeta.
    match goal with |- context [for_each l (notify unicode_todecimal) ?s1] =>
      specialize (IH s1 Hl); cbv zeta in IH; destruct IH as [IH1 IH2];
      destruct (for_each l (notify unicode_todecimal) s1) as [s2 r2] end.
    simpl in *. destruct (n >? 0); simpl in *.
    + split; [auto|]. intros Hr. rewrite (IH2 Hr). by rewrite orb_true_r.
    + split; [exact IH1|exact IH2].
Qed.

Lemma incoming_message_flag data s :
  let r := incoming_message unicode_todecimal data s in
  (_many_sms (fst r) = true -> _many_sms s = true \/ existsb positive data = true) /\
  (snd r = Ok tt -> _many_sms (fst r) = _many_sms s || existsb positive data).
Proof.
  unfold incoming_message. rewrite <- existsb_positive_filter.
  apply (notification_loop (List.filter (contains CMTI_SM) data) s). apply List.Forall_forall.
  by intros d [_ H]%List.filter_In.
Qed.

Lemma classify_flag data s s' r :
  classify data s = (s', r) ->
  (_many_sms s' = true -> _many_sms s = true \/ existsb positive data = true) /\
  (forall b, r = Ok b -> _many_sms s' = _many_sms s || existsb positive data).
Proof.
  unfold classify, checking_incoming_data.
  set (c1 := if checking RING data then incoming_call additional_function_call data
             else ret tt).
  set (c2 := if checking CUSD data then incoming_ussd unicode_todecimal data
             else ret tt).
  set (c3 := if checking CMTI_SM data then incoming_message unicode_todecimal data
             else ret tt).
  assert (K1 : keeps same_many_sms c1).
  { unfold c1. destruct (checking RING data);
      [apply same_many_sms_incoming_call|by intros ?]. }
  assert (K2 : keeps same_many_sms c2).
  { unfold c2. destruct (checking CUSD data);
      [apply same_many_sms_incoming_ussd|by intros ?]. }
  assert (K3 : forall s0, let r := c3 s0 in
    (_many_sms (fst r) = true -> _many_sms s0 = true \/ existsb positive data = true) /\
    (snd r = Ok tt -> _many_sms (fst r) = _many_sms s0 || existsb positive data)).
  { intros s0. unfold c3. destruct (checking CMTI_SM data) eqn:E.
    - apply incoming_message_flag.
    - simpl. rewrite (existsb_positive_checking data E).
      split; [auto|]. by rewrite orb_false_r. }
  unfold bind at 1. specialize (K1 s). unfold same_many_sms in K1.
  destruct (c1 s) as [s1 [[]|e1]]; simpl in K1.
  2:{ intros [= <- <-]. rewrite K1. split; [auto|done]. }
  unfold bind at 1. specialize (K2 s1). unfold same_many_sms in K2.
  destruct (c2 s1) as [s2 [[]|e2]]; simpl in K2.
  2:{ intros [= <- <-]. rewrite K2, K1. split; [auto|done]. }
  unfold bind at 1. specialize (K3 s2). cbv zeta in K3.
  destruct (c3 s2) as [s3 [[]|e3]]; simpl in K3; destruct K3 as [K3a K3b].
  2:{ intros [= <- <-]. rewrite <- K1, <- K2. split; [exact K3a|done]. }
  rewrite <- K1, <- K2.
  destruct (checking NORMAL_POWER_DOWN data); intros [= <- <-]; simpl;
    (split; [exact K3a|intros _ _; by apply K3b]).
Qed.

End ManySms.

(** ** Where the flag comes from *)

Lemma below_all (port : list (Z * bytes)) :
  exists T, Forall (fun ch => T < fst ch) port.
Proof.
  induction port as [|ch port [T IH]]; [by exists 0|].
  exists (Z.min T (fst ch - 1)). constructor; [lia|].
  eapply List.Forall_impl; [|exact IH]. intros a Ha. simpl in Ha. lia.
Qed.

Lemma filter_above_all T (port : list (Z * bytes)) :
  Forall (fun ch => T < fst ch) port ->
  List.filter (fun ch => T <? fst ch) port = port.
Proof.
  induction 1 as [|ch port Hc _ IH]; [done|]. cbn [List.filter].
  destruct (Z.ltb_spec T (fst ch)); [|lia]. by rewrite IH.
Qed.

Lemma filter_above_twice T1 T2 (port : list (Z * bytes)) :
  List.filter (fun ch => T2 <? fst ch) (List.filter (fun ch => T1 <? fst ch) port) =
  List.filter (fun ch => Z.max T1 T2 <? fst ch) port.
Proof.
  induction port as [|ch port IH]; [done|]. cbn [List.filter].
  destruct (Z.ltb_spec T1 (fst ch)); cbn [List.filter];
    destruct (Z.ltb_spec T2 (fst ch)); destruct (Z.ltb_spec (Z.max T1 T2) (fst ch));
    try lia; by rewrite IH.
Qed.

Lemma port_window_above T lo hi (port : list (Z * bytes)) :
  port_window lo hi (List.filter (fun ch => T <? fst ch) port) =
  port_window (Z.max lo T) hi port.
Proof.
  unfold port_window. do 2 f_equal.
  induction port as [|ch port IH]; [done|]. cbn [List.filter].
  destruct (Z.ltb_spec T (fst ch)); cbn [List.filter];
    destruct (Z.ltb_spec lo (fst ch)); destruct (Z.ltb_spec (Z.max lo T) (fst ch));
    try lia; cbn [andb]; by rewrite IH.
Qed.

Lemma arrived_window lo t (port : list (Z * bytes)) :
  Forall (fun ch => lo < fst ch) port ->
  List.concat (List.map snd (List.filter (arrived t) port)) = port_window lo t port.
Proof.
  intros H. unfold port_window. do 2 f_equal.
  induction H as [|ch port Hc _ IH]; [done|]. cbn [List.filter]. unfold arrived at 1.
  destruct (Z.ltb_spec lo (fst ch)); [|lia]. cbn [andb]. by rewrite IH.
Qed.

Lemma not_arrived_above t (port : list (Z * bytes)) :
  List.filter (fun c => negb (arrived t c)) port =
  List.filter (fun ch => t <? fst ch) port.
Proof.
  apply List.filter_ext. intros ch. unfold arrived.
  destruct (Z.leb_spec (fst ch) t); destruct (Z.ltb_spec t (fst ch)); try lia; done.
Qed.

Lemma port_kept_refl s : port_kept s s.
Proof. by split. Qed.

Lemma port_kept_trans s1 s2 s3 : port_kept s1 s2 -> port_kept s2 s3 -> port_kept s1 s3.
Proof. intros [] []. split; congruence. Qed.

Section FlagOrigin.
Variable decodeSmsPdu : pystr -> Res SmsDict.
Variable encodeSmsSubmitPdu : pystr -> pystr -> Res (list Pdu).
Variable unicode_todecimal : Z -> option Z.
Variable additional_function_call : Call -> option exn.
Variable additional_function_message : Message -> option exn.

Let classify := checking_incoming_data unicode_todecimal additional_function_call.
Let positive := positive_notification unicode_todecimal.
Let origin := flag_origin unicode_todecimal.

Lemma flag_origin_refl D s : origin D s s.
Proof.
  split; [lia|]. split; [|by left].
  destruct (below_all (_connect s)) as [T HT]. exists T.
  by rewrite filter_above_all.
Qed.

Lemma flag_origin_trans D s1 s2 s3 : origin D s1 s2 -> origin D s2 s3 -> origin D s1 s3.
Proof.
  intros (C1 & [T1 P1] & F1) (C2 & [T2 P2] & F2). split; [lia|]. split.
  - exists (Z.max T1 T2). by rewrite P2, P1, filter_above_twice.
  - intros H3. destruct (F2 H3) as [H2|(data & Hp & [Hd|(lo & hi & Hb & Hr)])].
    + destruct (F1 H2) as [H1|(data & Hp & [Hd|(lo & hi & Hb & Hr)])]; [by left|..].
      * right. exists data. split; [done|by left].
      * right. exists data. split; [done|]. right. exists lo, hi. split; [lia|done].
    + right. exists data. split; [done|by left].
    + right. exists data. split; [done|]. right.
      rewrite P1, port_window_above in Hr. exists (Z.max lo T1), hi. split; [lia|done].
Qed.

Lemma flag_origin_quiet D s s' :
  clock s' = clock s -> _connect s' = _connect s -> _many_sms s' = _many_sms s ->
  origin D s s'.
Proof.
  intros Hc Hp Hf. split; [lia|]. split; [|rewrite Hf; by left].
  rewrite Hp. destruct (below_all (_connect s)) as [T HT]. exists T.
  by rewrite filter_above_all.
Qed.

Lemma flag_origin_caused D data s s' :
  port_kept s s' -> D data ->
  (_many_sms s' = true -> _many_sms s = true \/ existsb positive data = true) ->
  origin D s s'.
Proof.
  intros [Hc Hp] Hd Hf. split; [lia|]. split.
  - rewrite Hp. destruct (below_all (_connect s)) as [T HT]. exists T.
    by rewrite filter_above_all.
  - intros H. destruct (Hf H) as [H1|H1]; [by left|]. right. exists data.
    split; [done|by left].
Qed.

Lemma flag_origin_modify D f :
  (forall s, clock (f s) = clock s) -> (forall s, _connect (f s) = _connect s) ->
  (forall s, _many_sms (f s) = _many_sms s) ->
  keeps (origin D) (modify f).
Proof. intros H1 H2 H3 s. apply flag_origin_quiet; [apply H1|apply H2|apply H3]. Qed.

Lemma flag_origin_emit D e : keeps (origin D) (emit e).
Proof. unfold emit. by apply flag_origin_modify. Qed.

Lemma flag_origin_enqueue D t : keeps (origin D) (enqueue t).
Proof. unfold enqueue. by apply flag_origin_modify. Qed.

Lemma flag_origin_sleep D ms : keeps (origin D) (sleep ms).
Proof.
  intros s. unfold sleep. destruct (Z.ltb_spec ms 0); [apply flag_origin_refl|].
  cbn. split; [cbn; lia|]. split; [|by left]. cbn.
  destruct (below_all (_connect s)) as [T HT]. exists T. by rewrite filter_above_all.
Qed.

Lemma flag_origin_read_all D : keeps (origin D) read_all.
Proof.
  intros s. unfold read_all. cbn. split; [cbn; lia|]. split; [|by left]. cbn.
  exists (clock s). apply not_arrived_above.
Qed.

Lemma flag_origin_call_a D raw : keeps (origin D) (call_a decodeSmsPdu raw).
Proof.
  intros s. unfold call_a.
  destruct (AdditionMessages_call decodeSmsPdu raw (_a s)). by apply flag_origin_quiet.
Qed.

Lemma flag_origin_popleft D : keeps (origin D) popleft.
Proof.
  intros s. unfold popleft.
  destruct (_task_queue s); [apply flag_origin_refl|by apply flag_origin_quiet].
Qed.

Ltac origin_step :=
  match goal with
  | H : keeps _ ?c |- keeps _ ?c => exact H
  | |- keeps _ (modify _) => by apply flag_origin_modify
  | |- keeps _ (emit _) => apply flag_origin_emit
  | |- keeps _ (enqueue _) => apply flag_origin_enqueue
  | |- keeps _ (sleep _) => apply flag_origin_sleep
  | |- keeps _ read_all => apply flag_origin_read_all
  | |- keeps _ (call_a _ _) => apply flag_origin_call_a
  | |- keeps _ popleft => apply flag_origin_popleft
  | |- keeps (origin ?D') _ =>
      keeps_step (flag_origin_refl D') (flag_origin_trans D')
  end.

Ltac origins := repeat origin_step.

Lemma flag_origin_command D c : keeps (origin D) (command c).
Proof. unfold command, to_bytes, write. origins. Qed.

Lemma flag_origin_read D : keeps (origin D) read.
Proof. unfold read. origins. Qed.

Lemma flag_origin_incoming_call D data :
  keeps (origin D) (incoming_call additional_function_call data).
Proof.
  unfold incoming_call, hung_up_call, now, call_handler.
  origins; apply flag_origin_command.
Qed.

Lemma flag_origin_incoming_ussd D data :
  keeps (origin D) (incoming_ussd unicode_todecimal data).
Proof. unfold incoming_ussd, now. origins. Qed.

Lemma flag_origin_message_handler D m :
  keeps (origin D) (message_handler additional_function_message m).
Proof. unfold message_handler. origins. Qed.

Ltac ports := repeat keeps_step port_kept_refl port_kept_trans.

Lemma port_kept_incoming_message data :
  keeps port_kept (incoming_message unicode_todecimal data).
Proof.
  unfold incoming_message. ports. unfold notify, enqueue. ports;
    by apply keeps_modify.
Qed.

Lemma port_kept_classify data : keeps port_kept (classify data).
Proof.
  unfold classify, checking_incoming_data, incoming_call, hung_up_call, command,
    to_bytes, write, emit, call_handler, now, incoming_ussd, enqueue.
  ports; try (by apply keeps_modify); try apply port_kept_incoming_message.
Qed.

Lemma flag_origin_incoming_message data :
  keeps (origin (eq data)) (incoming_message unicode_todecimal data).
Proof.
  intros s. apply (flag_origin_caused _ data); [apply port_kept_incoming_message|done|].
  apply (incoming_message_flag unicode_todecimal data s).
Qed.

Lemma flag_origin_classify data : keeps (origin (eq data)) (classify data).
Proof.
  intros s. apply (flag_origin_caused _ data); [apply port_kept_classify|done|].
  destruct (classify data s) as [s' r] eqn:E.
  apply (classify_flag unicode_todecimal additional_function_call data s s' r E).
Qed.

Lemma flag_origin_parser_command data :
  keeps (origin (eq data))
    (parser_command unicode_todecimal additional_function_call data).
Proof.
  unfold parser_command, raise_Sim900Error. origins.
  apply flag_origin_classify.
Qed.

(** A batch that is read and then dispatched is a batch from the port. *)
Lemma flag_origin_read_then {A} D (k : list pystr -> M A) :
  (forall lines, keeps (origin (eq lines)) (k lines)) ->
  keeps (origin D) (bind read k).
Proof.
  intros Hk s. unfold bind at 1.
  destruct (read s) as [s1 r] eqn:Er.
  unfold read, read_all, bind, modify, lift in Er. injection Er as Es Erl.
  assert (Hc : clock s1 = clock s) by by subst s1.
  assert (Hf : _many_sms s1 = _many_sms s) by by subst s1.
  assert (Hp : _connect s1 = List.filter (fun ch => clock s <? fst ch) (_connect s)).
  { subst s1. cbn [_connect set_buffer set_connect]. apply not_arrived_above. }
  destruct (below_all (_connect s)) as [lo0 Hlo].
  rewrite (arrived_window lo0 _ _ Hlo) in Erl. clear Es.
  destruct r as [lines|e].
  - specialize (Hk lines s1). destruct (k lines s1) as [s2 r2]. cbn [fst] in *.
    destruct Hk as (C & [T P] & F). split; [lia|]. split.
    + exists (Z.max (clock s) T). by rewrite P, Hp, filter_above_twice.
    + intros H2. destruct (F H2) as [H1|(data & Hd & [<-|(lo & hi & Hb & Hr)])].
      * left. congruence.
      * right. exists lines. split; [done|]. right.
        exists lo0, (clock s). split; [lia|done].
      * right. exists data. split; [done|]. right.
        rewrite Hp, port_window_above in Hr.
        exists (Z.max lo (clock s)), hi. split; [lia|done].
  - cbn [fst]. split; [lia|]. split; [by exists (clock s)|]. rewrite Hf. by left.
Qed.

Ltac origin_run :=
  repeat first
    [ match goal with
      | |- keeps _ (bind read _) => apply flag_origin_read_then; intros ?
      | |- keeps _ (parser_command _ _ _) => apply flag_origin_parser_command
      | |- keeps _ (checking_incoming_data _ _ _) => apply flag_origin_classify
      | |- keeps _ (command _) => apply flag_origin_command
      | |- keeps _ (message_handler _ _) => apply flag_origin_message_handler
      end
    | origin_step ].

Lemma flag_origin_send_command D c :
  keeps (origin D) (send_command unicode_todecimal additional_function_call c).
Proof. unfold send_command. origin_run. Qed.

Ltac origin_all :=
  repeat first
    [ match goal with
      | |- keeps _ (send_command _ _ _) => apply flag_origin_send_command
      end
    | origin_run ].

Lemma flag_origin_status_board D :
  keeps (origin D) (checking_status_board unicode_todecimal additional_function_call).
Proof.
  unfold checking_status_board, get_product_info, get_revision, get_operator, get_csq.
  origin_all.
Qed.

Lemma flag_origin_pre_up D :
  keeps (origin D) (pre_up unicode_todecimal additional_function_call).
Proof. unfold pre_up. origin_all. apply flag_origin_status_board. Qed.

Lemma flag_origin_collect_sms D n : forall ms,
  (length ms <= n)%nat -> keeps (origin D) (collect_sms decodeSmsPdu ms).
Proof.
  induction n as [|n IH]; intros ms Hn.
  - destruct ms; [|simpl in Hn; lia]. simpl. origins.
  - destruct ms as [|x [|raw ms]]; simpl; origins.
    apply IH. simpl in Hn. lia.
Qed.

Lemma flag_origin_get_all_sms_message D :
  keeps (origin D)
    (get_all_sms_message decodeSmsPdu unicode_todecimal additional_function_call).
Proof.
  unfold get_all_sms_message. origin_all.
  match goal with |- keeps _ (collect_sms _ ?ms) =>
    by apply (flag_origin_collect_sms D (length ms)) end.
Qed.

Lemma flag_origin_del_sms D sms_id :
  keeps (origin D) (del_sms unicode_todecimal additional_function_call sms_id).
Proof. unfold del_sms. origin_all. Qed.

Lemma flag_origin_get_sms D sms_id :
  keeps (origin D)
    (get_sms decodeSmsPdu unicode_todecimal additional_function_call sms_id).
Proof. unfold get_sms. origin_all; apply flag_origin_del_sms. Qed.

Lemma flag_origin_invoke D t :
  keeps (origin D)
    (invoke decodeSmsPdu unicode_todecimal additional_function_call
       additional_function_message t).
Proof.
  unfold invoke, incoming_sms. origin_all. apply flag_origin_get_sms.
Qed.

Lemma flag_origin_run_task D :
  keeps (origin D)
    (run_task decodeSmsPdu unicode_todecimal additional_function_call
       additional_function_message).
Proof.
  intros s. unfold run_task.
  match goal with |- context [bind ?c ?k s] =>
    assert (H : keeps (origin D) (bind c k))
      by (origin_all; apply flag_origin_invoke);
    specialize (H s); destruct (bind c k s) as [s' [b|e]] end; [done|].
  by destruct e.
Qed.

Lemma flag_origin_drain D fuel :
  keeps (origin D)
    (drain decodeSmsPdu unicode_todecimal additional_function_call
       additional_function_message fuel).
Proof.
  induction fuel as [|fuel IH]; simpl; origin_all. apply flag_origin_run_task.
Qed.

Lemma flag_origin_run D inner fuel :
  keeps (origin D)
    (run decodeSmsPdu unicode_todecimal additional_function_call
       additional_function_message inner fuel).
Proof.
  induction fuel as [|fuel IH]; simpl; unfold in_waiting; origin_all.
  apply flag_origin_drain.
Qed.

Lemma flag_origin_exec op :
  keeps (origin (op_batch op))
    (exec decodeSmsPdu encodeSmsSubmitPdu unicode_todecimal
       additional_function_call additional_function_message op).
Proof.
  destruct op; unfold exec, void, connect, send_sms, send_ussd, call, hung_up_call,
    get_operator, get_csq, get_product_info, get_revision, incoming_sms, to_bytes,
    write;
    cbn [op_batch];
    origin_all;
      first [ apply flag_origin_status_board | apply flag_origin_pre_up
            | apply flag_origin_get_all_sms_message | apply flag_origin_del_sms
            | apply flag_origin_get_sms | apply flag_origin_incoming_call
            | apply flag_origin_incoming_ussd | apply flag_origin_run_task
            | apply flag_origin_run | apply flag_origin_read
            | apply flag_origin_incoming_message ].
Qed.

Lemma same_many_sms_quiet_op op s :
  dispatches op = false ->
  _many_sms (fst (exec decodeSmsPdu encodeSmsSubmitPdu unicode_todecimal
                    additional_function_call additional_function_message op s))
    = _many_sms s.
Proof.
  intros Hq. revert s. change (keeps same_many_sms
    (exec decodeSmsPdu encodeSmsSubmitPdu unicode_todecimal
       additional_function_call additional_function_message op)).
  destruct op; try discriminate Hq;
    unfold exec, void, connect, read, read_all, hung_up_call, command, to_bytes, write;
    same_many;
    first [ apply same_many_sms_emit | by apply keeps_modify | by intros ?
          | apply same_many_sms_incoming_call | apply same_many_sms_incoming_ussd ].
Qed.
End FlagOrigin.

Section ManySmsLatch.
Variable decodeSmsPdu : pystr -> Res SmsDict.
Variable encodeSmsSubmitPdu : pystr -> pystr -> Res (list Pdu).
Variable unicode_todecimal : Z -> option Z.
Variable additional_function_call : Call -> option exn.
Variable additional_function_message : Message -> option exn.

Let classify := checking_incoming_data unicode_todecimal additional_function_call.
Let execute := exec decodeSmsPdu encodeSmsSubmitPdu unicode_todecimal
                 additional_function_call additional_function_message.
Let positive := positive_notification unicode_todecimal.

(** C5, as the code has it.  The flag starts false; a classification
    turns it on only if the batch holds a new-message notification whose
    storage index is positive, and a classification that returns leaves it
    on exactly when it was on before or the batch holds such a line; no
    operation clears it.  An operation that does not reach the
    notification dispatch leaves the flag as it was, and any operation
    turns it on only if such a line is in the batch the operation was
    handed or among the lines of the bytes that reached the port in a
    window of time ending during the operation. *)
Theorem many_sms_latch :
  (forall tty0 speed0 port t0, _many_sms (Sim900_init tty0 speed0 port t0) = false) /\
  (forall data s,
     _many_sms s = false -> _many_sms (fst (classify data s)) = true ->
     existsb positive data = true) /\
  (forall data s s' b,
     classify data s = (s', Ok b) ->
     _many_sms s' = _many_sms s || existsb positive data) /\
  (forall op s, _many_sms s = true -> _many_sms (fst (execute op s)) = true) /\
  (forall op s, dispatches op = false -> _many_sms (fst (execute op s)) = _many_sms s) /\
  (forall op s,
     _many_sms s = false -> _many_sms (fst (execute op s)) = true ->
     exists data,
       existsb positive data = true /\
       (op_batch op data \/
        exists lo hi,
          clock s <= hi <= clock (fst (execute op s)) /\
          parser_read (inl (port_window lo hi (_connect s))) = Ok data)).
Proof.
  split; [done|]. split; [|split; [|split; [|split]]].
  - intros data s H0 H1.
    destruct (classify data s) as [s' r] eqn:Hc.
    destruct (classify_flag unicode_todecimal additional_function_call
                data s s' r Hc) as [H _].
    destruct (H H1) as [H2|H2]; [congruence|done].
  - intros data s s' b Hc.
    destruct (classify_flag unicode_todecimal additional_function_call
                data s s' (Ok b) Hc) as [_ H].
    by apply (H b).
  - intros op s.
    apply (latched_exec decodeSmsPdu encodeSmsSubmitPdu unicode_todecimal
             additional_function_call additional_function_message op s).
  - intros op s. apply same_many_sms_quiet_op.
  - intros op s H0 H1.
    destruct (flag_origin_exec decodeSmsPdu encodeSmsSubmitPdu unicode_todecimal
                additional_function_call additional_function_message op s)
      as (_ & _ & F).
    destruct (F H1) as [H|H]; [congruence|exact H].
Qed.
End ManySmsLatch.

Lemma many_sms_latch_witness :
  (checking_incoming_data no_digits no_handler_c [first_notification] fresh_session
     = (set_task_queue [TaskIncomingSms 1] (set_many_sms true fresh_session), Ok false) /\
   _many_sms (set_task_queue [TaskIncomingSms 1] (set_many_sms true fresh_session))
     = _many_sms fresh_session
       || existsb (positive_notification no_digits) [first_notification]) /\
  (_many_sms notified = false /\
   _many_sms (fst (exec no_codec no_frames no_digits no_handler_c no_handler_m
                     (OpSendCommand (lit "AT")) notified)) = true /\
   exists data,
     existsb (positive_notification no_digits) data = true /\
     (op_batch (OpSendCommand (lit "AT")) data \/
      exists lo hi,
        clock notified <= hi <=
          clock (fst (exec no_codec no_frames no_digits no_handler_c no_handler_m
                        (OpSendCommand (lit "AT")) notified)) /\
        parser_read (inl (port_window lo hi (_connect notified))) = Ok data)).
Proof.
  split.
  - split; [reflexivity|].
    exact (proj1 (proj2 (proj2 (many_sms_latch no_codec no_frames no_digits
             no_handler_c no_handler_m))) [first_notification] fresh_session _ false
             eq_refl).
  - split; [reflexivity|]. split; [reflexivity|].
    exact (proj2 (proj2 (proj2 (proj2 (proj2 (many_sms_latch no_codec no_frames
             no_digits no_handler_c no_handler_m))))) (OpSendCommand (lit "AT"))
             notified eq_refl eq_refl).
Defined.

Lemma many_sms_after_one_notification :
  ~ many_sms_after_two no_digits no_handler_c.
Proof.
  intros H.
  specialize (H (lit "/dev/ttyAMA0") 19200 [] 0 [first_notification] eq_refl).
  vm_compute in H. lia.
Qed.

(** ** Deferred task queue *)

Section TaskQueue.
Variable decodeSmsPdu : pystr -> Res SmsDict.
Variable unicode_todecimal : Z -> option Z.
Variable additional_function_call : Call -> option exn.
Variable additional_function_message : Message -> option exn.

Let invoke_task := invoke decodeSmsPdu unicode_todecimal additional_function_call
                     additional_function_message.
Let run_one := run_task decodeSmsPdu unicode_todecimal additional_function_call
                 additional_function_message.

Lemma run_task_empty s : _task_queue s = [] -> run_one s = (s, Ok false).
Proof.
  intros H. unfold run_one, run_task, bind, popleft. by rewrite H.
Qed.

Lemma run_task_done s t q s' :
  _task_queue s = t :: q ->
  invoke_task t (set_task_queue q s) = (s', Ok tt) ->
  run_one s = (s', Ok true).
Proof.
  intros Hq Hi. unfold run_one, run_task, bind, popleft. rewrite Hq.
  fold invoke_task. by rewrite Hi.
Qed.

Lemma run_task_propagates s t q s' e :
  _task_queue s = t :: q ->
  invoke_task t (set_task_queue q s) = (s', Raise e) ->
  e <> IndexError ->
  run_one s = (s', Raise e).
Proof.
  intros Hq Hi He. unfold run_one, run_task, bind, popleft. rewrite Hq.
  fold invoke_task. rewrite Hi. by destruct e.
Qed.

Lemma run_task_IndexError s t q s' :
  _task_queue s = t :: q ->
  invoke_task t (set_task_queue q s) = (s', Raise IndexError) ->
  run_one s = (s', Ok false).
Proof.
  intros Hq Hi. unfold run_one, run_task, bind, popleft. rewrite Hq.
  fold invoke_task. by rewrite Hi.
Qed.
End TaskQueue.

(** C1, at the failing input.  The queue holds the fetch of message 5 and
    the modem answers with echo and status line only.  The invoked task
    raises IndexError; [run_task] removes the task, catches that
    IndexError and reports that no work was done. *)
Theorem run_task_swallows_IndexError :
  exists s',
    invoke no_codec no_digits no_handler_c no_handler_m (TaskIncomingSms 5)
      (set_task_queue [] fetch_pending) = (s', Raise IndexError) /\
    run_task no_codec no_digits no_handler_c no_handler_m fetch_pending = (s', Ok false) /\
    _task_queue s' = [].
Proof.
  eexists. split; [|split].
  - vm_compute. reflexivity.
  - vm_compute. reflexivity.
  - reflexivity.
Qed.

(** * Further properties of the code *)

(** ** More on the hexadecimal transform *)

Section HexTransform.
Variable unicode_todecimal : Z -> option Z.

Lemma decode_loop_length st range : forall r out,
  decode_loop unicode_todecimal st range r = Ok out ->
  length out = (length r + length range)%nat.
Proof.
  induction range as [|i range IH]; intros r out; cbn [decode_loop].
  - intros [= <-]. simpl. lia.
  - destruct (py_int _ _ _) as [n|]; [|done].
    destruct (chr n) as [c|e]; [|done].
    intros H. apply IH in H. rewrite length_app in H. simpl in *. lia.
Qed.

Lemma decode_loop_ext st1 st2 range : forall r,
  (forall i, In i range ->
     pyslice st1 (Z.of_nat i * 4) (Z.of_nat i * 4 + 4) =
     pyslice st2 (Z.of_nat i * 4) (Z.of_nat i * 4 + 4)) ->
  decode_loop unicode_todecimal st1 range r = decode_loop unicode_todecimal st2 range r.
Proof.
  induction range as [|i range IH]; intros r H; [done|]. cbn [decode_loop].
  rewrite (H i) by (by left).
  destruct (py_int _ _ _) as [n|]; [|done].
  destruct (chr n) as [c|e]; [|done].
  apply IH. intros j Hj. apply H. by right.
Qed.

Lemma pyslice_take (st : pystr) (n : nat) a b :
  0 <= a -> a <= b -> b <= Z.of_nat n -> (n <= length st)%nat ->
  pyslice (take n st) a b = pyslice st a b.
Proof.
  intros Ha Hab Hb Hn. unfold pyslice, clamp_index.
  rewrite length_take, Nat.min_l by lia.
  destruct (Z.ltb_spec a 0); [lia|]. destruct (Z.ltb_spec b 0); [lia|].
  rewrite !Z.max_r, !Z.min_r by lia.
  replace (take n st) with (take (Z.to_nat a + (n - Z.to_nat a)) st)
    by (f_equal; lia).
  rewrite <- take_drop_commute, take_take. f_equal. lia.
Qed.

(** X1.  [decode] yields one character per complete group of four. *)
Theorem decode_length st out :
  decode unicode_todecimal st = Ok out -> length out = (length st / 4)%nat.
Proof.
  unfold decode. intros H. apply decode_loop_length in H.
  by rewrite length_seq in H.
Qed.

(** X2.  Only the complete groups of four count: what follows the last
    complete group is ignored, and never an error. *)
Theorem decode_ignores_tail st :
  decode unicode_todecimal st =
  decode unicode_todecimal (take (4 * (length st / 4)) st).
Proof.
  unfold decode.
  pose proof (Nat.div_mod_eq (length st) 4) as Hdm.
  pose proof (Nat.mod_upper_bound (length st) 4 ltac:(lia)) as Hm.
  rewrite length_take, Nat.min_l by lia.
  rewrite Nat.mul_comm, Nat.div_mul by lia.
  symmetry. apply decode_loop_ext. intros i Hi. apply in_seq in Hi.
  apply pyslice_take; lia.
Qed.
End HexTransform.

Lemma utf16_units_range s bs :
  utf16be_encode s = Some bs ->
  Forall (fun u => 0 <= u < 65536) (utf16_units s).
Proof.
  revert bs. induction s as [|c s IH]; intros bs; [by constructor|].
  cbn [utf16be_encode]. destruct (utf16be_encode_char c) as [b|] eqn:Ec; [|done].
  destruct (utf16be_encode s) as [r|]; [|done]. intros _.
  change (utf16_units (c :: s)) with
    ((if c <? 65536 then [c]
      else [55296 + (c - 65536) / 1024; 56320 + (c - 65536) mod 1024])
     ++ utf16_units s).
  apply Forall_app. split; [|by eapply IH].
  unfold utf16be_encode_char in Ec.
  destruct (Z.ltb_spec c 0); [done|].
  destruct (Z.ltb_spec c 65536).
  - repeat constructor; lia.
  - destruct (Z.ltb_spec c 1114112); [|done].
    assert (0 <= (c - 65536) / 1024 < 1024).
    { split; [apply Z.div_pos; lia|apply Z.div_lt_upper_bound; lia]. }
    pose proof (Z.mod_pos_bound (c - 65536) 1024 ltac:(lia)).
    repeat constructor; lia.
Qed.

Lemma encode_units s bs :
  utf16be_encode s = Some bs ->
  upper (List.map byteZ (hexlify bs)) = List.concat (List.map hex4 (utf16_units s)).
Proof.
  revert bs. induction s as [|c s IH]; intros bs.
  - by intros [= <-].
  - cbn [utf16be_encode]. destruct (utf16be_encode_char c) as [b|] eqn:Ec; [|done].
    destruct (utf16be_encode s) as [r|]; [|done]. intros [= <-].
    specialize (IH r eq_refl).
    change (utf16_units (c :: s)) with
      ((if c <? 65536 then [c]
        else [55296 + (c - 65536) / 1024; 56320 + (c - 65536) mod 1024])
       ++ utf16_units s).
    rewrite List.map_app, List.concat_app, <- IH.
    unfold utf16be_encode_char in Ec.
    destruct (Z.ltb_spec c 0); [done|].
    destruct (Z.ltb_spec c 65536).
    + destruct (is_surrogate c); [done|]. injection Ec as <-.
      unfold unit_be. cbn [app]. rewrite !upper_hexlify_app.
      cbn [List.map List.concat]. unfold hex4. by rewrite <- !app_assoc.
    + destruct (Z.ltb_spec c 1114112); [|done]. injection Ec as <-.
      unfold unit_be. cbn [app]. rewrite !upper_hexlify_app.
      cbn [List.map List.concat]. unfold hex4. by rewrite <- !app_assoc.
Qed.

Lemma encode_Ok s h :
  encode s = Ok h ->
  exists bs, utf16be_encode s = Some bs /\ h = List.concat (List.map hex4 (utf16_units s)).
Proof.
  unfold encode. destruct (utf16be_encode s) as [bs|] eqn:E; [|done].
  rewrite utf8_decode_hexlify. intros [= <-]. exists bs. split; [done|].
  by apply encode_units.
Qed.

Lemma hex4_groups_length (us : list Z) :
  length (List.concat (List.map hex4 us)) = (length us * 4)%nat.
Proof.
  induction us as [|x us IH]; [done|]. cbn [List.map List.concat].
  rewrite length_app, hex4_length, IH. simpl. lia.
Qed.

Lemma hex4_hex_upper c : Forall (fun x => is_hex_upper x = true) (hex4 c).
Proof.
  unfold hex4. apply Forall_app. split.
  - destruct (byte_of_Z (c / 256));
      (apply Forall_cons; split; [by vm_compute|]);
      (apply Forall_cons; split; [by vm_compute|]); by apply Forall_nil.
  - destruct (byte_of_Z (c mod 256));
      (apply Forall_cons; split; [by vm_compute|]);
      (apply Forall_cons; split; [by vm_compute|]); by apply Forall_nil.
Qed.

Lemma hex4_groups_hex_upper (us : list Z) :
  Forall (fun x => is_hex_upper x = true) (List.concat (List.map hex4 us)).
Proof.
  induction us as [|u us IH]; [by constructor|].
  cbn [List.map List.concat]. apply Forall_app. split; [apply hex4_hex_upper|exact IH].
Qed.

Lemma utf16_units_length s :
  (length s <= length (utf16_units s))%nat /\
  ((exists c, In c s /\ 65536 <= c) -> (length s < length (utf16_units s))%nat).
Proof.
  induction s as [|c s [IH1 IH2]]; [split; [done|by intros (c & [] & _)]|].
  change (utf16_units (c :: s)) with
    ((if c <? 65536 then [c]
      else [55296 + (c - 65536) / 1024; 56320 + (c - 65536) mod 1024])
     ++ utf16_units s).
  rewrite length_app. destruct (Z.ltb_spec c 65536); simpl.
  - split; [lia|]. intros (x & [->|Hx] & Hc); [lia|].
    assert (length s < length (utf16_units s))%nat by (apply IH2; eauto). lia.
  - split; [lia|]. intros _. lia.
Qed.

Section HexUnits.
Variable unicode_todecimal : Z -> option Z.

Lemma decode_loop_units (s2 : list Z) : forall (s1 : list Z) r,
  Forall (fun u => 0 <= u < 65536) s2 ->
  decode_loop unicode_todecimal (List.concat (List.map hex4 (s1 ++ s2)))
    (seq (length s1) (length s2)) r = Ok (r ++ s2).
Proof.
  induction s2 as [|c s2 IH]; intros s1 r Hs.
  - simpl. by rewrite app_nil_r.
  - apply Forall_cons in Hs as [Hc Hs]. cbn [length seq decode_loop].
    rewrite List.map_app, List.concat_app. cbn [List.map List.concat].
    rewrite pyslice_group by (rewrite hex4_groups_length; lia).
    rewrite py_int_hex4 by lia. unfold chr.
    destruct (Z.leb_spec 0 c); [|lia].
    destruct (Z.ltb_spec c 1114112); [|lia]. cbn [andb].
    specialize (IH (s1 ++ [c]) (r ++ [c]) Hs).
    rewrite length_app in IH. simpl in IH.
    replace (length s1 + 1)%nat with (S (length s1)) in IH by lia.
    rewrite <- !app_assoc in IH. simpl in IH.
    rewrite List.map_app, List.concat_app in IH. exact IH.
Qed.

Lemma decode_hex4_units us :
  Forall (fun u => 0 <= u < 65536) us ->
  decode unicode_todecimal (List.concat (List.map hex4 us)) = Ok us.
Proof.
  intros H. unfold decode. rewrite hex4_groups_length, Nat.div_mul by lia.
  apply (decode_loop_units us [] [] H).
Qed.

(** X3.  What [decode] gives back from the output of [encode] is the
    sequence of UTF-16 code units of the text: surrogate pairs are not
    put together again, so a text with a character above the basic plane
    does not survive the round trip. *)
Theorem decode_encode_units s h :
  encode s = Ok h ->
  decode unicode_todecimal h = Ok (utf16_units s) /\
  ((exists c, In c s /\ 65536 <= c) -> decode unicode_todecimal h <> Ok s).
Proof.
  intros (bs & Hb & ->)%encode_Ok.
  assert (Hd : decode unicode_todecimal (List.concat (List.map hex4 (utf16_units s)))
               = Ok (utf16_units s)).
  { apply decode_hex4_units. by eapply utf16_units_range. }
  split; [exact Hd|]. intros Hc. rewrite Hd. intros [= Heq].
  apply (proj2 (utf16_units_length s)) in Hc. rewrite Heq in Hc. lia.
Qed.
End HexUnits.

(** X4.  The output of [encode] is transport-safe: upper-case hexadecimal
    digits only, four for every UTF-16 code unit of the text. *)
Theorem encode_hex_digits s h :
  encode s = Ok h ->
  Forall (fun c => is_hex_upper c = true) h /\
  length h = (4 * length (utf16_units s))%nat.
Proof.
  intros (bs & Hb & ->)%encode_Ok. split.
  - apply hex4_groups_hex_upper.
  - rewrite hex4_groups_length. lia.
Qed.

Lemma decode_length_witness :
  length (lit "*1#") = (length (lit "002A00310023") / 4)%nat.
Proof.
  exact (decode_length (fun _ => None) (lit "002A00310023") (lit "*1#") eq_refl).
Defined.

Lemma decode_encode_units_witness :
  decode (fun _ => None) (lit "0041D83DDE00") = Ok [65; 55357; 56832] /\
  decode (fun _ => None) (lit "0041D83DDE00") <> Ok astral_sample.
Proof.
  refine (let H := decode_encode_units (fun _ => None) astral_sample
                     (lit "0041D83DDE00") eq_refl in
          conj (proj1 H) (proj2 H _)).
  exists 128512. split; [right; left; reflexivity|lia].
Defined.

Lemma encode_hex_digits_witness :
  Forall (fun c => is_hex_upper c = true) (lit "0041D83DDE00") /\
  length (lit "0041D83DDE00") = (4 * length (utf16_units astral_sample))%nat.
Proof. exact (encode_hex_digits astral_sample (lit "0041D83DDE00") eq_refl). Defined.

(** ** More on the frame splitter *)

Lemma split_go_line l : forall cur rest,
  contains crlf l = false ->
  split_go crlf 0 cur (l ++ crlf ++ rest) = (cur ++ l) :: split_go crlf 0 [] rest.
Proof.
  induction l as [|c l IH]; intros cur rest Hl.
  - by rewrite app_nil_r.
  - cbn [contains] in Hl. apply orb_false_iff in Hl as [Hs Hl].
    change ((c :: l) ++ crlf ++ rest) with (c :: (l ++ crlf ++ rest)).
    cbn [split_go].
    assert (Hn : startswith crlf (c :: l ++ crlf ++ rest) = false).
    { destruct l as [|x l]; [|exact Hs].
      cbn. apply andb_false_r. }
    rewrite Hn, IH by done. by rewrite <- app_assoc.
Qed.

Lemma split_frame lines :
  Forall (fun l => contains crlf l = false) lines ->
  split crlf (frame lines) = lines ++ [[]].
Proof.
  unfold split. induction 1 as [|l lines Hl _ IH]; [done|].
  change (frame (l :: lines)) with ((l ++ crlf) ++ frame lines).
  rewrite <- app_assoc, split_go_line by done. by rewrite IH.
Qed.

(** X5.  A buffer that decodes to lines each ended by CR LF splits into
    exactly its non-empty lines, in order; blank lines, such as the one a
    modem sends ahead of an answer, leave no trace. *)
Theorem parser_read_frame b lines :
  utf8_decode b = Some (frame lines) ->
  Forall (fun l => contains crlf l = false) lines ->
  parser_read (inl b) = Ok (List.filter truth lines).
Proof.
  intros Hb Hl. unfold parser_read. rewrite Hb, split_frame by done.
  rewrite List.filter_app. cbn [List.filter truth]. by rewrite app_nil_r.
Qed.

Lemma parser_read_frame_witness :
  parser_read (inl (List.map byte_of_Z (frame csq_answer))) =
    Ok [lit "AT+CSQ" ++ [13]; lit "+CSQ: 15,0"; lit "OK"].
Proof.
  refine (parser_read_frame (List.map byte_of_Z (frame csq_answer)) csq_answer _ _).
  - reflexivity.
  - repeat (apply Forall_cons; split; [reflexivity|]). apply Forall_nil. exact I.
Defined.

(** ** What the classifier does and does not do *)

Lemma urc_effects_refl s : urc_effects s s.
Proof.
  split; [by repeat split|]. split; [exists []|exists []]; by rewrite app_nil_r.
Qed.

Lemma urc_effects_trans s1 s2 s3 :
  urc_effects s1 s2 -> urc_effects s2 s3 -> urc_effects s1 s3.
Proof.
  intros [F1 [(q1 & Q1) (e1 & T1 & N1)]] [F2 [(q2 & Q2) (e2 & T2 & N2)]].
  split; [|split].
  - destruct F1 as (?&?&?&?&?&?&?&?&?&?&?&?&?), F2 as (?&?&?&?&?&?&?&?&?&?&?&?&?).
    repeat split; congruence.
  - exists (q1 ++ q2). by rewrite Q2, Q1, <- app_assoc.
  - exists (e1 ++ e2). rewrite T2, T1, <- app_assoc. split; [done|].
    by rewrite forallb_app, N1, N2.
Qed.

Lemma same_power_refl s : same_power s s.
Proof. by split. Qed.

Lemma same_power_trans s1 s2 s3 :
  same_power s1 s2 -> same_power s2 s3 -> same_power s1 s3.
Proof. intros [] []. split; congruence. Qed.

Ltac urc := repeat keeps_step urc_effects_refl urc_effects_trans.
Ltac power := repeat keeps_step same_power_refl same_power_trans.

Lemma urc_effects_emit e : is_sleep e = false -> keeps urc_effects (emit e).
Proof.
  intros He s. split; [by repeat split|]. split.
  - exists []. by rewrite app_nil_r.
  - exists [e]. split; [done|]. simpl. by rewrite He.
Qed.

Lemma urc_effects_enqueue t : keeps urc_effects (enqueue t).
Proof.
  intros s. split; [by repeat split|]. split.
  - by exists [t].
  - exists []. by rewrite app_nil_r.
Qed.

Lemma urc_effects_flag f :
  (forall s, f s = set_npd true s \/ f s = set_status false s \/
             f s = set_many_sms true s) ->
  keeps urc_effects (modify f).
Proof.
  intros H s. unfold modify. cbn [fst].
  destruct (H s) as [-> | [-> | ->]];
    (split; [by repeat split|]; split; exists []; by rewrite app_nil_r).
Qed.

Lemma same_power_emit e : keeps same_power (emit e).
Proof. by intros s. Qed.

Lemma same_power_enqueue t : keeps same_power (enqueue t).
Proof. by intros s. Qed.

Section ClassifierEffects.
Variable unicode_todecimal : Z -> option Z.
Variable additional_function_call : Call -> option exn.

Let classify := checking_incoming_data unicode_todecimal additional_function_call.

Lemma urc_effects_incoming_call data :
  keeps urc_effects (incoming_call additional_function_call data).
Proof.
  unfold incoming_call, hung_up_call, command, to_bytes, write, call_handler, now.
  urc; by apply urc_effects_emit.
Qed.

Lemma urc_effects_incoming_ussd data :
  keeps urc_effects (incoming_ussd unicode_todecimal data).
Proof. unfold incoming_ussd, now. urc. apply urc_effects_enqueue. Qed.

Lemma urc_effects_incoming_message data :
  keeps urc_effects (incoming_message unicode_todecimal data).
Proof.
  unfold incoming_message. urc. unfold notify. urc; try apply urc_effects_enqueue.
  apply urc_effects_flag. auto.
Qed.

(** X6.  Whatever the batch, and whether the classification returns or
    raises, it neither reads from the port nor waits, it removes nothing
    from the task queue, and it leaves the read buffer, the reassembly
    buffer and the recorded modem facts as they were. *)
Theorem checking_incoming_data_effects data s :
  urc_effects s (fst (classify data s)).
Proof.
  revert s. change (keeps urc_effects (classify data)).
  unfold classify, checking_incoming_data.
  urc; auto using urc_effects_incoming_call, urc_effects_incoming_ussd,
    urc_effects_incoming_message; apply urc_effects_flag; auto.
Qed.

Lemma same_power_incoming_call data :
  keeps same_power (incoming_call additional_function_call data).
Proof.
  unfold incoming_call, hung_up_call, command, to_bytes, write, call_handler, now.
  power; apply same_power_emit.
Qed.

Lemma same_power_incoming_ussd data :
  keeps same_power (incoming_ussd unicode_todecimal data).
Proof. unfold incoming_ussd, now. power. apply same_power_enqueue. Qed.

Lemma same_power_incoming_message data :
  keeps same_power (incoming_message unicode_todecimal data).
Proof.
  unfold incoming_message. power. unfold notify. power;
    first [apply same_power_enqueue | by apply keeps_modify].
Qed.

Lemma same_power_dispatch data :
  keeps same_power
    (let* _ := if checking RING data then incoming_call additional_function_call data
               else ret tt in
     let* _ := if checking CUSD data then incoming_ussd unicode_todecimal data
               else ret tt in
     if checking CMTI_SM data then incoming_message unicode_todecimal data else ret tt).
Proof.
  power; auto using same_power_incoming_call, same_power_incoming_ussd,
    same_power_incoming_message.
Qed.

Lemma classify_result data s s' r :
  classify data s = (s', r) ->
  (forall b, r = Ok b -> b = checking NORMAL_POWER_DOWN data) /\
  (r <> Ok true -> npd s' = npd s /\ status s' = status s) /\
  (r = Ok true -> npd s' = true /\ status s' = false).
Proof.
  unfold classify, checking_incoming_data.
  set (c1 := if checking RING data then incoming_call additional_function_call data
             else ret tt).
  set (c2 := if checking CUSD data then incoming_ussd unicode_todecimal data
             else ret tt).
  set (c3 := if checking CMTI_SM data then incoming_message unicode_todecimal data
             else ret tt).
  pose proof (same_power_dispatch data s) as K. fold c1 c2 c3 in K.
  unfold bind in *.
  destruct (c1 s) as [s1 [[]|e1]]; [|simpl in K; intros [= <- <-]; split; [done|]; split; [intros _; exact K|done]].
  destruct (c2 s1) as [s2 [[]|e2]]; [|simpl in K; intros [= <- <-]; split; [done|]; split; [intros _; exact K|done]].
  destruct (c3 s2) as [s3 [[]|e3]]; [|simpl in K; intros [= <- <-]; split; [done|]; split; [intros _; exact K|done]].
  simpl in K. destruct (checking NORMAL_POWER_DOWN data); intros [= <- <-]; simpl.
  - split; [by intros b [= <-]|]. split; [done|]. by intros _.
  - split; [by intros b [= <-]|]. split; [intros _; exact K|]. by intros [=].
Qed.

(** X7.  A classification that returns tells whether the batch holds the
    power-down marker; the power-down flag and the connection status are
    changed by a classification that returns true and by no other. *)
Theorem checking_incoming_data_result data s :
  let r := classify data s in
  (forall b, snd r = Ok b -> b = checking NORMAL_POWER_DOWN data) /\
  (snd r <> Ok true -> npd (fst r) = npd s /\ status (fst r) = status s).
Proof.
  cbv zeta. destruct (classify data s) as [s' r] eqn:E.
  destruct (classify_result data s s' r E) as (H1 & H2 & _). by split.
Qed.
End ClassifierEffects.

(** ** More on the run loop and the task queue *)

Section RunLoop.
Variable decodeSmsPdu : pystr -> Res SmsDict.
Variable unicode_todecimal : Z -> option Z.
Variable additional_function_call : Call -> option exn.
Variable additional_function_message : Message -> option exn.

Let classify := checking_incoming_data unicode_todecimal additional_function_call.
Let run_loop := run decodeSmsPdu unicode_todecimal additional_function_call
                  additional_function_message.
Let drain_queue := drain decodeSmsPdu unicode_todecimal additional_function_call
                     additional_function_message.

(** X8.  The run loop is left normally only in the stopped state: when
    [run] returns, the power-down flag is set. *)
Theorem run_exits_stopped inner fuel s s' :
  run_loop inner fuel s = (s', Ok true) -> npd s' = true.
Proof.
  unfold run_loop. revert s. induction fuel as [|fuel IH]; intros s; [done|].
  cbn [run]. intros H.
  apply bind_Ok in H as (s1 & down & Hd & H). injection Hd as <- <-.
  destruct (npd s) eqn:Hn; [by injection H as <-|].
  apply bind_Ok in H as (s2 & drained & _ & H).
  destruct drained; [|done]. cbn [negb] in H.
  apply bind_Ok in H as (s3 & w & Hw & H). injection Hw as <- <-.
  apply bind_Ok in H as (s4 & stop & Hs & H).
  destruct stop.
  - injection H as <-.
    destruct (_ >? 0); [|done].
    apply bind_Ok in Hs as (s5 & lines & _ & Hc).
    by destruct (classify_result _ _ lines s5 s4 (Ok true) Hc) as (_ & _ & [? _]).
  - apply bind_Ok in H as (s5 & [] & _ & H). by apply IH in H.
Qed.

Lemma run_task_message m q s :
  _task_queue s = TaskMessage m :: q ->
  let s1 := set_trace (trace s ++ [EvMessage m]) (set_task_queue q s) in
  run_task decodeSmsPdu unicode_todecimal additional_function_call
    additional_function_message s =
    match additional_function_message m with
    | None => (s1, Ok true)
    | Some IndexError => (s1, Ok false)
    | Some e => (s1, Raise e)
    end.
Proof.
  intros Hq s1. unfold run_task, bind, popleft. rewrite Hq. cbn [invoke].
  unfold message_handler, bind, emit, modify. fold s1.
  destruct (additional_function_message m) as [[]|]; reflexivity.
Qed.

Lemma drain_step fuel t q s :
  _task_queue s = t :: q ->
  drain_queue (S fuel) s =
    (let* _ := run_task decodeSmsPdu unicode_todecimal additional_function_call
                 additional_function_message in
     drain_queue fuel) s.
Proof.
  intros Hq. unfold drain_queue. cbn [drain]. unfold bind at 1, gets. by rewrite Hq.
Qed.

(** X9.  The queue is first in, first out: draining a queue of message
    tasks whose handler does not fail invokes the handler on every message
    in the order of the queue and leaves the queue empty. *)
Theorem drain_in_order ms : forall s,
  _task_queue s = List.map TaskMessage ms ->
  Forall (fun m => additional_function_message m = None) ms ->
  drain_queue (S (length ms)) s =
    (set_task_queue [] (set_trace (trace s ++ List.map EvMessage ms) s), Ok true).
Proof.
  induction ms as [|m ms IH]; intros s Hq Hh.
  - unfold drain_queue. cbn [drain length]. unfold bind, gets. rewrite Hq. cbn.
    destruct s. simpl in *. subst. by rewrite app_nil_r.
  - apply Forall_cons in Hh as [Hm Hh]. cbn [length].
    rewrite (drain_step _ (TaskMessage m) (List.map TaskMessage ms)) by exact Hq.
    unfold bind. rewrite (run_task_message m (List.map TaskMessage ms)) by exact Hq.
    rewrite Hm, IH by done.
    unfold set_task_queue, set_trace. cbn. by rewrite <- app_assoc.
Qed.

(** X10.  A task that fails is removed from the queue and not tried
    again: the failure leaves the drain with the tasks behind it still
    queued, except that an IndexError is taken for an empty queue and the
    drain goes on with the next task. *)
Theorem drain_failing_task fuel m q e s :
  _task_queue s = TaskMessage m :: q ->
  additional_function_message m = Some e ->
  let s1 := set_trace (trace s ++ [EvMessage m]) (set_task_queue q s) in
  drain_queue (S fuel) s =
    match e with
    | IndexError => drain_queue fuel s1
    | _ => (s1, Raise e)
    end.
Proof.
  intros Hq Hm s1. rewrite (drain_step _ (TaskMessage m) q) by exact Hq.
  unfold bind. rewrite (run_task_message m q) by exact Hq. rewrite Hm. fold s1.
  by destruct e.
Qed.
End RunLoop.

(** ** Transactions *)

Lemma facts_kept_refl s : facts_kept s s.
Proof. by repeat split. Qed.

Lemma facts_kept_trans s1 s2 s3 :
  facts_kept s1 s2 -> facts_kept s2 s3 -> facts_kept s1 s3.
Proof.
  intros (?&?&?&?&?&?&?&?&?&?) (?&?&?&?&?&?&?&?&?&?). repeat split; congruence.
Qed.

Lemma urc_effects_facts_kept s s' : urc_effects s s' -> facts_kept s s'.
Proof. intros [(?&?&?&?&?&?&?&?&?&?&?&?&?) _]. by repeat split. Qed.

Ltac facts := repeat keeps_step facts_kept_refl facts_kept_trans.

Section TransactionEffects.
Variable unicode_todecimal : Z -> option Z.
Variable additional_function_call : Call -> option exn.

Let classify := checking_incoming_data unicode_todecimal additional_function_call.
Let parse := parser_command unicode_todecimal additional_function_call.
Let transact := send_command unicode_todecimal additional_function_call.

Lemma urc_effects_classify data : keeps urc_effects (classify data).
Proof.
  unfold classify, checking_incoming_data.
  urc; auto using urc_effects_incoming_call, urc_effects_incoming_ussd,
    urc_effects_incoming_message; apply urc_effects_flag; auto.
Qed.

Lemma urc_effects_parse data : keeps urc_effects (parse data).
Proof.
  unfold parse, parser_command, raise_Sim900Error. urc.
  apply urc_effects_classify.
Qed.

Lemma command_run c b s :
  utf8_encode (c ++ [13]) = Some b ->
  command c s = (set_trace (trace s ++ [EvWrite b]) s, Ok (Z.of_nat (length b))).
Proof. intros Hb. unfold command, to_bytes. by rewrite Hb. Qed.

Lemma sleep_run ms s :
  0 <= ms ->
  sleep ms s = (set_clock (clock s + ms) (set_trace (trace s ++ [EvSleep ms]) s), Ok tt).
Proof. intros H. unfold sleep. by destruct (Z.ltb_spec ms 0); [lia|]. Qed.

Lemma read_run s :
  read s =
    (set_buffer (Some (arrived_bytes s (clock s)))
       (set_connect (List.filter (fun ch => negb (arrived (clock s) ch)) (_connect s)) s),
     parser_read (inl (arrived_bytes s (clock s)))).
Proof.
  unfold read, bind, read_all, modify, lift, arrived_bytes.
  match goal with |- context [parser_read ?x] => by destruct (parser_read x) end.
Qed.

Lemma send_command_run c b s :
  utf8_encode (c ++ [13]) = Some b ->
  0 <= time_response s ->
  let w := 1000 * time_response s in
  let t := clock s + w in
  let s1 := set_buffer (Some (arrived_bytes s t))
              (set_connect (List.filter (fun ch => negb (arrived t ch)) (_connect s))
                 (set_clock t
                    (set_trace ((trace s ++ [EvWrite b]) ++ [EvSleep w]) s))) in
  transact c s =
    match parser_read (inl (arrived_bytes s t)) with
    | Ok lines => parse lines s1
    | Raise e => (s1, Raise e)
    end.
Proof.
  intros Hb Hw w t s1. unfold transact, send_command, bind.
  rewrite (command_run c b s Hb). unfold gets.
  rewrite sleep_run by (cbn [time_response set_trace]; lia).
  rewrite read_run.
  unfold s1, t, w, arrived_bytes.
  cbn [clock _connect time_response trace set_trace set_clock set_connect set_buffer
       tty speed status buffer auto_del_message operator rssi ber npd dev rev _a
       _many_sms _task_queue].
  match goal with |- context [parser_read ?x] => by destruct (parser_read x) end.
Qed.

(** X11.  Every transaction, however it ends, writes the command with a
    carriage return, waits the response time once, and takes what has
    arrived by then off the port into the read buffer; nothing after the
    wait waits again. *)
Theorem send_command_effects c b s :
  utf8_encode (c ++ [13]) = Some b ->
  0 <= time_response s ->
  let w := 1000 * time_response s in
  let s' := fst (transact c s) in
  buffer s' = Some (arrived_bytes s (clock s + w)) /\
  clock s' = clock s + w /\
  _connect s' = List.filter (fun ch => negb (arrived (clock s + w) ch)) (_connect s) /\
  exists evs, trace s' = trace s ++ [EvWrite b; EvSleep w] ++ evs /\
              forallb (fun e => negb (is_sleep e)) evs = true.
Proof.
  intros Hb Hw w s'. unfold s'. rewrite (send_command_run c b s Hb Hw). fold w.
  destruct (parser_read _) as [lines|e].
  - match goal with |- context [parse lines ?s1] =>
      destruct (urc_effects_parse lines s1)
        as [(_&_&_&Hbuf&_&_&_&_&_&_&_&Hcon&Hclk) [_ (evs & Ht & Hn)]] end.
    rewrite Hbuf, Hclk, Hcon, Ht. cbn. repeat split; try done.
    exists evs. by rewrite <- !app_assoc.
  - cbn. repeat split; try done. exists []. by rewrite <- !app_assoc.
Qed.

(** X12.  A transaction on a port where nothing but blank lines has
    arrived by the end of the wait fails with NoResponse. *)
Theorem send_command_no_response c b s :
  utf8_encode (c ++ [13]) = Some b ->
  0 <= time_response s ->
  parser_read (inl (arrived_bytes s (clock s + 1000 * time_response s))) = Ok [] ->
  snd (transact c s) = Raise Sim900NoResponse.
Proof.
  intros Hb Hw Hr. rewrite (send_command_run c b s Hb Hw), Hr. reflexivity.
Qed.

Lemma facts_kept_transact c : keeps facts_kept (transact c).
Proof.
  unfold transact, send_command, command, to_bytes, write, sleep, read, emit.
  facts;
    first [ apply keeps_modify; intros ?; by repeat split
          | intros ?; apply urc_effects_facts_kept, urc_effects_parse
          | intros ?; by repeat split ].
Qed.
End TransactionEffects.

(** ** Queries *)

Lemma contains_single_cons x c s :
  contains [x] (c :: s) = (x =? c) || contains [x] s.
Proof. cbn [contains startswith]. by rewrite andb_true_r. Qed.

Lemma replace_dquote_run s :
  replace dquote [] s = List.filter (fun c => negb (34 =? c)) s.
Proof.
  unfold replace, dquote. induction s as [|c s IH]; [done|].
  cbn [replace_go startswith List.filter length Nat.sub app].
  rewrite andb_true_r. destruct (34 =? c); cbn [negb]; by rewrite IH.
Qed.

Lemma replace_dquote_clean x s :
  contains [x] s = false -> contains [x] (replace dquote [] s) = false.
Proof.
  rewrite replace_dquote_run. induction s as [|c s IH]; [done|].
  rewrite contains_single_cons. intros [Hc Hs]%orb_false_iff.
  cbn [List.filter]. destruct (negb (34 =? c)); [|by apply IH].
  rewrite contains_single_cons, Hc. by apply IH.
Qed.

Lemma replace_dquote_none s : contains dquote (replace dquote [] s) = false.
Proof.
  rewrite replace_dquote_run. unfold dquote. induction s as [|c s IH]; [done|].
  cbn [List.filter]. destruct (34 =? c) eqn:E; cbn [negb]; [exact IH|].
  by rewrite contains_single_cons, E.
Qed.

Lemma getitem_In {A} (l : list A) i x : getitem l i = Ok x -> In x l.
Proof.
  unfold getitem. destruct (_ || _); [done|].
  destruct (nth_error l _) eqn:E; [|done]. intros [= <-]. by eapply nth_error_In.
Qed.

Lemma split_piece_clean sep s i x :
  sep <> [] -> getitem (split sep s) i = Ok x -> contains sep x = false.
Proof.
  intros Hsep Hx. apply getitem_In in Hx.
  pose proof (split_pieces sep s Hsep) as H. rewrite List.Forall_forall in H. by apply H.
Qed.

Ltac query_fails H :=
  injection H as <- <-; split; [intros; discriminate|];
  split; [intros; first [done | by split]|]; by repeat split.

Section Queries.
Variable unicode_todecimal : Z -> option Z.
Variable additional_function_call : Call -> option exn.

Let transact := send_command unicode_todecimal additional_function_call.
Let csq := get_csq unicode_todecimal additional_function_call.
Let cops := get_operator unicode_todecimal additional_function_call.

Lemma get_csq_cases s s' r :
  csq s = (s', r) ->
  (r = Ok tt ->
     exists a b, rssi s' = Some a /\ ber s' = Some b /\
                 contains comma a = false /\ contains comma b = false) /\
  (forall e, r = Raise e -> rssi s' = rssi s /\ ber s' = ber s) /\
  operator s' = operator s /\ dev s' = dev s /\ rev s' = rev s /\ _a s' = _a s.
Proof.
  unfold csq, get_csq. unfold bind at 1.
  pose proof (facts_kept_transact unicode_todecimal additional_function_call
                (lit "AT+CSQ") s) as K.
  fold transact in K |- *.
  destruct (transact (lit "AT+CSQ") s) as [s1 [lines|e]]; cbn [fst snd] in *;
    destruct K as (_&_&_&_&Ko&Kr&Kb&Kd&Kv&Ka); intros H; [|query_fails H].
  unfold bind at 1, lift at 1 in H.
  destruct (getitem lines 0) as [c|e]; [|query_fails H].
  unfold bind at 1, lift at 1 in H.
  destruct (getitem (split_ws c) (-1)) as [f|e]; [|query_fails H].
  pose proof (split_pieces comma f ltac:(done)) as Hp.
  destruct (split comma f) as [|a [|b [|x l]]]; try query_fails H.
  apply Forall_cons in Hp as [Ha Hp]. apply Forall_cons in Hp as [Hb _].
  unfold bind, modify in H. injection H as <- <-. cbn.
  split; [intros _; by exists a, b|].
  split; [intros; discriminate|]. by repeat split.
Qed.

(** X13.  The signal query records both values or none: on success the
    signal strength and the bit error rate are both set, to the two
    comma-free halves of the answer; on any failure both are left as they
    were.  The other recorded facts are never touched. *)
Theorem get_csq_outcome s :
  let r := csq s in
  (snd r = Ok tt ->
     exists a b, rssi (fst r) = Some a /\ ber (fst r) = Some b /\
                 contains comma a = false /\ contains comma b = false) /\
  (forall e, snd r = Raise e -> rssi (fst r) = rssi s /\ ber (fst r) = ber s) /\
  operator (fst r) = operator s /\ dev (fst r) = dev s /\ rev (fst r) = rev s /\
  _a (fst r) = _a s.
Proof.
  cbv zeta. destruct (csq s) as [s' r] eqn:E. exact (get_csq_cases s s' r E).
Qed.

Lemma get_operator_cases s s' r :
  cops s = (s', r) ->
  (forall op, r = Ok op ->
     operator s' = Some op /\
     contains dquote op = false /\ contains comma op = false) /\
  (forall e, r = Raise e -> operator s' = operator s) /\
  rssi s' = rssi s /\ ber s' = ber s /\ dev s' = dev s /\ rev s' = rev s /\
  _a s' = _a s.
Proof.
  unfold cops, get_operator. unfold bind at 1.
  pose proof (facts_kept_transact unicode_todecimal additional_function_call
                (lit "AT+COPS?") s) as K.
  fold transact in K |- *.
  destruct (transact (lit "AT+COPS?") s) as [s1 [lines|e]]; cbn [fst snd] in *;
    destruct K as (_&_&_&_&Ko&Kr&Kb&Kd&Kv&Ka); intros H; [|query_fails H].
  unfold bind at 1, lift at 1 in H.
  destruct (getitem lines 0) as [c|e]; [|query_fails H].
  unfold bind at 1, lift at 1 in H.
  destruct (getitem (split comma c) (-1)) as [f|e] eqn:Ef; [|query_fails H].
  unfold bind, modify, ret in H. injection H as <- <-. cbn.
  split; [|split; [intros; discriminate|by repeat split]].
  intros op [= <-]. split; [done|]. split.
  - apply replace_dquote_none.
  - apply (replace_dquote_clean 44). by eapply (split_piece_clean comma).
Qed.

(** X14.  The operator query records a name free of double quotes and of
    commas; when it fails the recorded operator is left as it was.  The
    other recorded facts are never touched. *)
Theorem get_operator_outcome s :
  let r := cops s in
  (forall op, snd r = Ok op ->
     operator (fst r) = Some op /\
     contains dquote op = false /\ contains comma op = false) /\
  (forall e, snd r = Raise e -> operator (fst r) = operator s) /\
  rssi (fst r) = rssi s /\ ber (fst r) = ber s /\ dev (fst r) = dev s /\
  rev (fst r) = rev s /\ _a (fst r) = _a s.
Proof.
  cbv zeta. destruct (cops s) as [s' r] eqn:E. exact (get_operator_cases s s' r E).
Qed.
End Queries.

(** ** Dispatch of the notifications *)

Lemma contains_app_l sub a b : contains sub a = true -> contains sub (a ++ b) = true.
Proof.
  induction a as [|c a IH]; cbn [contains app].
  - rewrite orb_false_r. intros H. destruct sub; [|done]. by destruct b.
  - intros [H|H]%orb_true_iff; apply orb_true_iff.
    + left. by apply (startswith_app sub (c :: a) b).
    + right. by apply IH.
Qed.

Lemma contains_single_app x a b :
  contains [x] (a ++ b) = contains [x] a || contains [x] b.
Proof.
  induction a as [|c a IH]; [done|]. cbn [app].
  by rewrite !contains_single_cons, IH, orb_assoc.
Qed.

Lemma split_go_single x l : forall cur rest,
  contains [x] l = false ->
  split_go [x] 0 cur (l ++ [x] ++ rest) = (cur ++ l) :: split_go [x] 0 [] rest.
Proof.
  induction l as [|c l IH]; intros cur rest Hl.
  - cbn [app split_go startswith length Nat.sub]. rewrite Z.eqb_refl. cbn [andb].
    by rewrite app_nil_r.
  - rewrite contains_single_cons in Hl. apply orb_false_iff in Hl as [Hc Hl].
    change ((c :: l) ++ [x] ++ rest) with (c :: (l ++ [x] ++ rest)).
    cbn [split_go startswith]. rewrite Hc. cbn [andb].
    rewrite IH by done. by rewrite <- app_assoc.
Qed.

Lemma hex_upper_clean h :
  Forall (fun c => is_hex_upper c = true) h ->
  contains comma h = false /\ replace dquote [] h = h.
Proof.
  rewrite replace_dquote_run. induction 1 as [|c h Hc _ [IH1 IH2]]; [done|].
  change comma with [44]. rewrite contains_single_cons. cbn [List.filter].
  unfold is_hex_upper in Hc.
  assert (c <> 44 /\ c <> 34) as [H1 H2] by lia.
  destruct (Z.eqb_spec 44 c); [lia|]. destruct (Z.eqb_spec 34 c); [lia|].
  cbn [orb negb]. split; [exact IH1|by rewrite IH2].
Qed.

Section Dispatch.
Variable unicode_todecimal : Z -> option Z.
Variable additional_function_call : Call -> option exn.

Lemma call_loop l : forall phones s,
  Forall2 (fun d p => phone_of d = Ok p) l phones ->
  Forall (fun p => additional_function_call (mkCall p (clock s)) = None) phones ->
  for_each l (fun d =>
      let* phone := lift (phone_of d) in
      let* t := now in
      call_handler additional_function_call (mkCall phone t)) s =
    (set_trace (trace s ++ List.map (fun p => EvCall (mkCall p (clock s))) phones) s,
     Ok tt).
Proof.
  induction l as [|d l IH]; intros phones s Hp Hh.
  - apply Forall2_nil_inv_l in Hp as ->. cbn. destruct s. cbn. by rewrite app_nil_r.
  - apply Forall2_cons_inv_l in Hp as (p & ps & Hd & Hp & ->).
    apply Forall_cons in Hh as [Hh Hhs].
    cbn [for_each]. unfold bind at 1. unfold bind at 1, lift at 1. rewrite Hd.
    unfold bind at 1, now at 1, gets. unfold call_handler, bind at 1, emit, modify.
    rewrite Hh. unfold ret at 1.
    rewrite (IH ps) by done.
    unfold set_trace. cbn. by rewrite <- app_assoc.
Qed.

(** X15.  A ring is answered by one hang-up command, written before any
    caller is looked at, and by one immediate call to the handler for
    every CLIP line of the batch, in the order of the lines; a ring with
    no CLIP line is hung up without any call to the handler.  The task
    queue is not used. *)
Theorem incoming_call_handles_each data phones s :
  Forall2 (fun d p => phone_of d = Ok p) (List.filter (contains CLIP) data) phones ->
  Forall (fun p => additional_function_call (mkCall p (clock s)) = None) phones ->
  incoming_call additional_function_call data s =
    (set_trace
       (trace s ++ EvWrite ATH_bytes
                   :: List.map (fun p => EvCall (mkCall p (clock s))) phones) s,
     Ok tt).
Proof.
  intros Hp Hh. unfold incoming_call, hung_up_call, command.
  change (to_bytes (lit "ATH" ++ [13])) with (@ret bytes ATH_bytes).
  unfold bind at 1. unfold bind at 1, ret at 1, write, bind at 1, emit, modify, ret at 1.
  rewrite (call_loop _ phones) by done.
  unfold set_trace. cbn. by rewrite <- app_assoc.
Qed.

Lemma notify_loop l : forall s s',
  for_each l (notify unicode_todecimal) s = (s', Ok tt) ->
  exists ids,
    Forall2 (fun d n => sms_id_of unicode_todecimal d = Ok n) l ids /\
    _task_queue s' = _task_queue s ++ List.map TaskIncomingSms ids /\
    trace s' = trace s.
Proof.
  induction l as [|d l IH]; intros s s'.
  - intros [= <-]. exists []. by rewrite app_nil_r.
  - cbn [for_each]. unfold bind. rewrite notify_run.
    destruct (sms_id_of unicode_todecimal d) as [n|e] eqn:E; [|done].
    cbv zeta. intros H. apply IH in H as (ids & Hf & Hq & Ht).
    exists (n :: ids). split; [by constructor|].
    rewrite Hq, Ht. destruct (n >? 0); cbn; by rewrite <- app_assoc.
Qed.

(** X16.  A batch of new-message notifications that is dispatched without
    failure adds one fetch task per notification line to the end of the
    queue, in the order of the lines, each with the storage index of its
    line; nothing is written to the modem at that time. *)
Theorem incoming_message_queues_fetches data s s' :
  incoming_message unicode_todecimal data s = (s', Ok tt) ->
  exists ids,
    Forall2 (fun d n => sms_id_of unicode_todecimal d = Ok n)
      (List.filter (contains CMTI_SM) data) ids /\
    _task_queue s' = _task_queue s ++ List.map TaskIncomingSms ids /\
    trace s' = trace s.
Proof. unfold incoming_message. apply notify_loop. Qed.

(** X17.  The service response to a request sent through [encode] comes
    back through [decode]: a response line whose quoted payload is the
    encoding of a text queues one message for the handler, from the
    sender USSD, stamped with the current time, whose text is the
    sequence of UTF-16 code units of that text. *)
Theorem incoming_ussd_decodes_payload pre post txt h s :
  contains CUSD pre = true ->
  contains comma pre = false ->
  encode txt = Ok h ->
  incoming_ussd unicode_todecimal [cusd_line pre h post] s =
    (set_task_queue
       (_task_queue s ++ [TaskMessage (mkMessage (lit "USSD") (clock s) (utf16_units txt))])
       s,
     Ok tt).
Proof.
  intros Hc Hp He. unfold incoming_ussd.
  assert (Hin : contains CUSD (cusd_line pre h post) = true)
    by (by apply contains_app_l).
  cbn [List.filter]. rewrite Hin. cbn [for_each].
  apply encode_Ok in He as (bs & Hb & ->).
  set (hx := List.concat (List.map hex4 (utf16_units txt))).
  assert (Hx : Forall (fun c => is_hex_upper c = true) hx)
    by apply hex4_groups_hex_upper.
  destruct (hex_upper_clean hx Hx) as [Hcomma Hrep].
  assert (Hq : contains comma (dquote ++ hx ++ dquote) = false).
  { change comma with [44] in *. by rewrite !contains_single_app, Hcomma. }
  assert (Hs : getitem (split comma (cusd_line pre hx post)) 1 = Ok (dquote ++ hx ++ dquote)).
  { unfold split, cusd_line. change comma with [44] in *.
    rewrite split_go_single by done.
    replace (dquote ++ hx ++ dquote ++ [44] ++ post)
      with ((dquote ++ hx ++ dquote) ++ [44] ++ post) by (by rewrite <- !app_assoc).
    rewrite split_go_single by done. cbn [app].
    unfold getitem. cbn [length].
    destruct (split_go [44] 0 [] post) as [|y l]; cbn [length];
      [cbn; reflexivity|].
    destruct (Z.ltb_spec 1 0); [lia|].
    destruct (Z.leb_spec (Z.of_nat (S (S (S (length l))))) 1); [lia|]. by cbn. }
  unfold bind at 1. unfold bind at 1, now at 1, gets.
  unfold bind at 1, lift at 1. rewrite Hs.
  unfold bind at 1, lift at 1.
  assert (Hr : replace dquote [] (dquote ++ hx ++ dquote) = hx).
  { rewrite replace_dquote_run. unfold dquote. cbn [app List.filter Z.eqb negb].
    rewrite List.filter_app. cbn [List.filter Z.eqb negb].
    rewrite <- replace_dquote_run, Hrep. by rewrite app_nil_r. }
  rewrite Hr. unfold hx.
  rewrite decode_hex4_units by (by eapply utf16_units_range).
  reflexivity.
Qed.
End Dispatch.

(** ** More on the reassembly buffer *)

Lemma map_fmap {A B} (f : A -> B) (l : list A) : List.map f l = f <$> l.
Proof. induction l as [|x l IH]; [done|]. simpl. by rewrite IH. Qed.

Lemma sorted_lt_NoDup (ks : list Z) : StronglySorted Z.lt ks -> NoDup ks.
Proof.
  induction 1 as [|k ks _ IH Hk]; constructor; [|done].
  intros Hin. rewrite List.Forall_forall in Hk.
  apply list_elem_of_In in Hin. specialize (Hk k Hin). lia.
Qed.

Lemma sorted_lt_le (ks : list Z) : StronglySorted Z.lt ks -> StronglySorted Z.le ks.
Proof.
  induction 1 as [|k ks _ IH Hk]; constructor; [done|].
  eapply List.Forall_impl; [|exact Hk]. intros; simpl in *. lia.
Qed.

Lemma sorted_keys_list_to_map (l : list (Z * pystr)) :
  StronglySorted Z.lt (l.*1) -> sorted_keys (list_to_map l) = l.*1.
Proof.
  intros Hs. unfold sorted_keys.
  apply (StronglySorted_unique_strong Z.le).
  - intros x1 x2 _ _ ? ?. lia.
  - apply StronglySorted_merge_sort; apply _.
  - by apply sorted_lt_le.
  - rewrite merge_sort_Permutation, map_fmap.
    by rewrite (map_to_list_to_map l (sorted_lt_NoDup _ Hs)).
Qed.

(** X18.  The text of a completed message is the concatenation of its
    parts in ascending order of part index, whatever the order in which
    the parts were stored. *)
Theorem join_parts_ascending (l : list (Z * pystr)) :
  StronglySorted Z.lt (l.*1) ->
  join_parts (list_to_map l) = List.concat (l.*2).
Proof.
  intros Hs. unfold join_parts. rewrite (sorted_keys_list_to_map l Hs).
  f_equal. pose proof (sorted_lt_NoDup _ Hs) as Hn.
  assert (H : forall kv, kv ∈ l ->
            default [] ((list_to_map l : gmap Z pystr) !! kv.1) = kv.2).
  { intros [k v] Hin. simpl. by rewrite (elem_of_list_to_map_1 l k v Hn Hin). }
  clear Hs Hn. revert H. generalize (list_to_map l : gmap Z pystr). intros m H.
  induction l as [|kv l IH]; [done|]. cbn [fmap list_fmap List.map].
  rewrite H by left. f_equal. apply IH. intros kv' Hin. apply H. by right.
Qed.

Section ReassemblyFrame.
Variable decodeSmsPdu : pystr -> Res SmsDict.

Let ingest := AdditionMessages_call decodeSmsPdu.

(** X19.  An ingest touches at most the entry of the reference id of its
    own fragment: the entries of all other reference ids stay as they
    are, and an ingest of a frame without a concatenation header or of a
    frame that cannot be decoded leaves the whole buffer as it is. *)
Theorem AdditionMessages_call_frame raw m :
  match decodeSmsPdu raw with
  | Ok d =>
      match d_udh d with
      | Some (Concatenation reference _ _ :: _) =>
          forall other, other <> reference -> fst (ingest raw m) !! other = m !! other
      | _ => fst (ingest raw m) = m
      end
  | Raise _ => fst (ingest raw m) = m
  end.
Proof.
  unfold ingest, AdditionMessages_call.
  destruct (decodeSmsPdu raw) as [d|e]; [|by destruct e].
  destruct (d_udh d) as [[|[reference parts number|] u]|].
  - by destruct (d_number d), (d_time d), (d_text d).
  - destruct (d_text d) as [txt|]; [|done]. intros other Hne.
    destruct (_ =? parts).
    + destruct (d_number d), (d_time d); cbn [fst];
        by rewrite lookup_delete_ne, lookup_insert_ne.
    + cbn [fst]. by rewrite lookup_insert_ne.
  - by destruct (d_text d).
  - by destruct (d_number d), (d_time d), (d_text d).
Qed.

(** X20.  A frame that was ingested without giving a message gives none
    when it is delivered again, and the buffer stays as the first ingest
    left it: a repeated part is stored over itself, not counted twice. *)
Theorem AdditionMessages_call_repeat raw m m1 :
  ingest raw m = (m1, Ok None) ->
  ingest raw m1 = (m1, Ok None).
Proof.
  unfold ingest, AdditionMessages_call.
  destruct (decodeSmsPdu raw) as [d|e].
  2:{ destruct e; intros [= <-]; done. }
  destruct (d_udh d) as [[|[reference parts number|] u]|].
  - by destruct (d_number d), (d_time d), (d_text d).
  - destruct (d_text d) as [txt|]; [|done].
    destruct (_ =? parts) eqn:E.
    + by destruct (d_number d), (d_time d).
    + intros [= <-]. rewrite lookup_insert_eq.
      match goal with |- context [default ∅ (Some ?x)] =>
        change (default ∅ (Some x)) with x end.
      rewrite !insert_insert_eq. by rewrite E.
  - by destruct (d_text d).
  - by destruct (d_number d), (d_time d), (d_text d).
Qed.
End ReassemblyFrame.

(** ** Parsing of the notification lines *)

Lemma split_go_no_sep x l : forall cur,
  contains [x] l = false -> split_go [x] 0 cur l = [cur ++ l].
Proof.
  induction l as [|c l IH]; intros cur Hl; [by rewrite app_nil_r|].
  rewrite contains_single_cons in Hl. apply orb_false_iff in Hl as [H1 H2].
  cbn [split_go startswith]. rewrite H1. cbn [andb].
  rewrite IH by done. by rewrite <- app_assoc.
Qed.

Lemma split_ws_go_word w : forall cur rest,
  Forall (fun c => isspace c = false) w ->
  split_ws_go cur (w ++ rest) = split_ws_go (cur ++ w) rest.
Proof.
  induction w as [|c w IH]; intros cur rest Hw; [by rewrite app_nil_r|].
  apply Forall_cons in Hw as [Hc Hw]. cbn [app split_ws_go]. rewrite Hc.
  rewrite IH by done. by rewrite <- app_assoc.
Qed.

Lemma split_ws_two w1 w2 :
  w1 <> [] -> w2 <> [] ->
  Forall (fun c => isspace c = false) w1 ->
  Forall (fun c => isspace c = false) w2 ->
  split_ws (w1 ++ [32] ++ w2) = [w1; w2].
Proof.
  intros H1 H2 F1 F2. unfold split_ws.
  rewrite (split_ws_go_word w1) by done. cbn [app split_ws_go].
  change (isspace 32) with true. cbn iota.
  assert (Hw : split_ws_go [] w2 = [w2]).
  { pose proof (split_ws_go_word w2 [] [] F2) as E. rewrite app_nil_r in E.
    rewrite E. cbn [app split_ws_go]. by destruct w2. }
  destruct w1 as [|a w1]; [done|]. by rewrite Hw.
Qed.

Lemma phone_char_split c :
  phone_char c = true -> isspace c = false /\ c <> 34 /\ c <> 44.
Proof.
  unfold phone_char. intros [[H1 H2]%andb_true_iff H3]%andb_true_iff.
  apply negb_true_iff in H1. apply negb_true_iff in H2. apply negb_true_iff in H3.
  apply Z.eqb_neq in H2. apply Z.eqb_neq in H3.
  split.
  - exact H1.
  - split; assumption.
Qed.

(** X21.  The caller's number is read back from the caller-id line the
    modem sends for it: for every non-empty number without blanks, quotes
    and commas, whatever follows the number on the line. *)
Theorem phone_of_clip_line num rest :
  num <> [] ->
  Forall (fun c => phone_char c = true) num ->
  phone_of (clip_line_of num rest) = Ok num.
Proof.
  intros Hne Hn. unfold phone_of, clip_line_of.
  assert (Hsp : Forall (fun c => isspace c = false) num).
  { eapply List.Forall_impl; [|exact Hn]. intros c Hc. by apply phone_char_split in Hc as [? _]. }
  assert (Hq : List.filter (fun c => negb (34 =? c)) num = num).
  { clear -Hn. induction Hn as [|c num Hc _ IH]; [done|].
    apply phone_char_split in Hc as (_ & Hc & _). cbn [List.filter].
    destruct (Z.eqb_spec 34 c); [lia|]. cbn [negb]. by rewrite IH. }
  assert (Hc : contains [44] num = false).
  { clear -Hn. induction Hn as [|c num Hc _ IH]; [done|].
    apply phone_char_split in Hc as (_ & _ & Hc).
    rewrite contains_single_cons. destruct (Z.eqb_spec 44 c); [lia|]. exact IH. }
  rewrite replace_dquote_run, !List.filter_app.
  change (List.filter _ (lit "+CLIP: ")) with (lit "+CLIP: ").
  change (List.filter _ dquote) with (@nil Z).
  change (List.filter (fun c => negb (34 =? c)) comma) with comma.
  rewrite Hq. cbn [app].
  assert (Hs : split comma
                 (lit "+CLIP: " ++ num ++ comma ++
                  List.filter (fun c => negb (34 =? c)) rest)
               = (lit "+CLIP: " ++ num) ::
                 split comma (List.filter (fun c => negb (34 =? c)) rest)).
  { unfold split. change comma with [44].
    replace (lit "+CLIP: " ++ num ++ [44] ++ List.filter (fun c => negb (34 =? c)) rest)
      with ((lit "+CLIP: " ++ num) ++ [44] ++ List.filter (fun c => negb (34 =? c)) rest)
      by (by rewrite <- app_assoc).
    rewrite split_go_single; [done|].
    rewrite contains_single_app, Hc. reflexivity. }
  change ((lit "+CLIP: " ++ num ++ [] ++ comma ++ List.filter _ rest))
    with (lit "+CLIP: " ++ num ++ comma ++ List.filter (fun c => negb (34 =? c)) rest).
  rewrite Hs. change (getitem (?x :: ?l) 0) with (Ok x).
  assert (Hw : split_ws (lit "+CLIP: " ++ num) = [lit "+CLIP:"; num]).
  { change (lit "+CLIP: ") with (lit "+CLIP:" ++ [32]). rewrite <- app_assoc.
    apply split_ws_two; [done|done| |done].
    repeat (apply Forall_cons; split; [reflexivity|]). by apply Forall_nil. }
  cbv beta iota. rewrite Hw. reflexivity.
Qed.

Section DecimalIndex.
Variable unicode_todecimal : Z -> option Z.

Lemma digits_ascii ds :
  Forall (fun c => is_digit c = true) ds ->
  to_ascii_digits unicode_todecimal ds = ds.
Proof.
  induction 1 as [|c ds Hc _ IH]; [done|]. cbn [to_ascii_digits].
  unfold is_digit in Hc. destruct (Z.ltb_spec c 128); [|lia]. by rewrite IH.
Qed.

Lemma scan_decimal ds : forall n acc,
  Forall (fun c => is_digit c = true) ds ->
  scan_digits 10 false n acc ds =
    Some (fold_left (fun a d => a * 10 + (d - 48)) ds acc, (n + length ds)%nat, []).
Proof.
  induction ds as [|c ds IH]; intros n acc Hd.
  - cbn. do 2 f_equal. f_equal. lia.
  - apply Forall_cons in Hd as [Hc Hd]. cbn [scan_digits fold_left length].
    unfold is_digit in Hc.
    destruct (Z.eqb_spec c 95); [lia|].
    unfold digit_value.
    destruct (Z.leb_spec 48 c); [|lia]. destruct (Z.leb_spec c 57); [|lia].
    cbn [andb]. destruct (Z.ltb_spec (c - 48) 10); [|lia].
    rewrite IH by done. do 2 f_equal. f_equal. lia.
Qed.

Lemma long_from_string_digit c ds :
  is_digit c = true ->
  long_from_string 10 (c :: ds) =
    match scan_digits 10 false 0 0 (c :: ds) with
    | Some (v, S n, rest) =>
        if max_str_digits <? Z.of_nat (S n) then None
        else
          match skip_spaces rest with
          | [] => Some (1 * v)
          | _ => None
          end
    | _ => None
    end.
Proof.
  unfold is_digit. intros H.
  assert (c = 48 \/ c = 49 \/ c = 50 \/ c = 51 \/ c = 52 \/ c = 53 \/ c = 54 \/
          c = 55 \/ c = 56 \/ c = 57) as Hc by lia.
  destruct Hc as [->|[->|[->|[->|[->|[->|[->|[->|[->| ->]]]]]]]]];
    destruct ds; reflexivity.
Qed.

Lemma py_int_decimal ds :
  ds <> [] -> Forall (fun c => is_digit c = true) ds ->
  py_int unicode_todecimal 10 ds =
    if Z.of_nat (length ds) <=? max_str_digits then Some (decimal_value ds)
    else None.
Proof.
  intros Hne Hd. unfold py_int. rewrite digits_ascii by done.
  destruct ds as [|c ds]; [done|].
  pose proof Hd as Hd'. apply Forall_cons in Hd' as [Hc _].
  rewrite (long_from_string_digit c ds Hc), (scan_decimal (c :: ds) 0 0 Hd).
  cbn [length Nat.add skip_spaces].
  destruct (Z.ltb_spec max_str_digits (Z.of_nat (S (length ds))));
    destruct (Z.leb_spec (Z.of_nat (S (length ds))) max_str_digits); try lia;
    [done|].
  unfold decimal_value. f_equal. lia.
Qed.

(** X22.  The storage index is read back from the notification line the
    modem sends for it, for every index written in at most
    [max_str_digits] decimal digits, leading zeros counted; an index
    written in more digits is refused with ValueError. *)
Theorem sms_id_of_cmti_line ds :
  ds <> [] -> Forall (fun c => is_digit c = true) ds ->
  contains CMTI_SM (cmti_line_of ds) = true /\
  sms_id_of unicode_todecimal (cmti_line_of ds) =
    if Z.of_nat (length ds) <=? max_str_digits then Ok (decimal_value ds)
    else Raise ValueError.
Proof.
  intros Hne Hd. split; [by apply contains_app_l|].
  unfold sms_id_of, cmti_line_of.
  assert (Hc : contains [44] ds = false).
  { clear -Hd. induction Hd as [|c ds Hc _ IH]; [done|].
    rewrite contains_single_cons. unfold is_digit in Hc.
    destruct (Z.eqb_spec 44 c); [lia|]. exact IH. }
  assert (Hs : split comma (CMTI_SM ++ comma ++ ds) = [CMTI_SM; ds]).
  { unfold split. change comma with [44]. rewrite split_go_single by reflexivity.
    by rewrite split_go_no_sep. }
  rewrite Hs. change (getitem [CMTI_SM; ds] 1) with (Ok ds). cbv beta iota.
  rewrite py_int_decimal by done.
  by destruct (Z.of_nat (length ds) <=? max_str_digits).
Qed.
End DecimalIndex.

(** ** Listing of messages and service requests *)

Lemma utf8_encode_ascii s :
  Forall (fun c => 0 <= c < 128) s -> utf8_encode s = Some (List.map byte_of_Z s).
Proof.
  induction 1 as [|c s Hc _ IH]; [done|]. cbn [utf8_encode List.map].
  rewrite IH. unfold utf8_encode_char.
  destruct (Z.ltb_spec c 0); [lia|]. by destruct (Z.ltb_spec c 128); [|lia].
Qed.

Lemma hex_upper_ascii h :
  Forall (fun c => is_hex_upper c = true) h -> Forall (fun c => 0 <= c < 128) h.
Proof.
  apply List.Forall_impl. intros c. unfold is_hex_upper. lia.
Qed.

Lemma odd_lines_step x raw ms : odd_lines (x :: raw :: ms) = raw :: odd_lines ms.
Proof.
  unfold odd_lines, odd_indices. cbn [length].
  replace (S (S (length ms)) / 2)%nat with (S (length ms / 2))
    by (symmetry; exact (Nat.div_add_l 1 2 (length ms) ltac:(lia))).
  cbn [seq List.map]. rewrite <- seq_shift, !List.map_map. f_equal.
  apply List.map_ext. intros k.
  by replace (2 * S k + 1)%nat with (S (S (2 * k + 1))) by lia.
Qed.

Lemma odd_lines_length ms : length (odd_lines ms) = (length ms / 2)%nat.
Proof. unfold odd_lines, odd_indices. by rewrite !length_map, length_seq. Qed.

Section Listing.
Variable decodeSmsPdu : pystr -> Res SmsDict.
Variable unicode_todecimal : Z -> option Z.
Variable additional_function_call : Call -> option exn.

Lemma reassemble_all_length raws : forall m m' msgs,
  reassemble_all decodeSmsPdu raws m = (m', Ok msgs) ->
  (length msgs <= length raws)%nat.
Proof.
  induction raws as [|raw raws IH]; intros m m' msgs; cbn [reassemble_all].
  - intros [= _ <-]. simpl. lia.
  - destruct (AdditionMessages_call decodeSmsPdu raw m) as [m1 [o|e]]; [|done].
    destruct (reassemble_all decodeSmsPdu raws m1) as [m2 [l|e]] eqn:E; [|done].
    apply IH in E. intros [= _ <-]. destruct o; simpl; lia.
Qed.

Lemma collect_sms_reassemble n : forall ms s,
  (length ms <= n)%nat ->
  collect_sms decodeSmsPdu ms s =
    (set_a (fst (reassemble_all decodeSmsPdu (odd_lines ms) (_a s))) s,
     snd (reassemble_all decodeSmsPdu (odd_lines ms) (_a s))).
Proof.
  induction n as [|n IH]; intros ms s Hn.
  - destruct ms; [|simpl in Hn; lia]. by destruct s.
  - destruct ms as [|x [|raw ms]]; [by destruct s..|].
    rewrite odd_lines_step. cbn [collect_sms reassemble_all].
    unfold bind at 1. unfold call_a at 1.
    destruct (AdditionMessages_call decodeSmsPdu raw (_a s)) as [m1 [o|e]]; [|done].
    unfold bind at 1. rewrite (IH ms (set_a m1 s)) by (simpl in Hn; lia).
    cbn [_a set_a].
    by destruct (reassemble_all decodeSmsPdu (odd_lines ms) m1) as [m2 [l|e]].
Qed.

(** X23.  Reading a listing hands the reassembler the lines at the odd
    positions, one after the other in the order of the listing, and
    nothing else: the result and the buffer are those of the reassembler
    run over these lines, the messages are the ones it gave, in order, and
    nothing in the session but the reassembly buffer changes.  So a
    listing yields at most one message for every pair of lines. *)
Theorem collect_sms_odd_lines ms s :
  let r := reassemble_all decodeSmsPdu (odd_lines ms) (_a s) in
  collect_sms decodeSmsPdu ms s = (set_a (fst r) s, snd r) /\
  (forall k, (k < length ms / 2)%nat -> odd_lines ms !! k = ms !! (2 * k + 1)%nat) /\
  length (odd_lines ms) = (length ms / 2)%nat /\
  (forall msgs, snd r = Ok msgs -> (2 * length msgs <= length ms)%nat).
Proof.
  cbv zeta. split; [by apply (collect_sms_reassemble (length ms))|].
  split; [|split; [apply odd_lines_length|]].
  - intros k Hk. unfold odd_lines, odd_indices.
    rewrite list_lookup_fmap, list_lookup_fmap, lookup_seq_lt by done.
    cbn [fmap option_fmap option_map Nat.add].
    assert (Hi : (2 * k + 1 < length ms)%nat).
    { pose proof (Nat.div_mod_eq (length ms) 2). lia. }
    destruct (lookup_lt_is_Some_2 ms _ Hi) as [x Hx]. rewrite Hx.
    f_equal. by apply nth_lookup_Some with (d := []) in Hx.
  - intros msgs Hr.
    destruct (reassemble_all decodeSmsPdu (odd_lines ms) (_a s)) as [m' r] eqn:E.
    cbn [snd] in Hr. subst r. apply reassemble_all_length in E.
    rewrite odd_lines_length in E. pose proof (Nat.div_mod_eq (length ms) 2). lia.
Qed.

(** X24.  A service request is sent as one command whose quoted payload
    is the encoding of the request, followed by one wait of the response
    time; a request that cannot be encoded is refused before anything is
    written. *)
Theorem send_ussd_command ussd s :
  let r := send_ussd unicode_todecimal additional_function_call ussd s in
  (forall h, encode ussd = Ok h -> 0 <= time_response s ->
     exists evs,
       trace (fst r) =
         trace s ++ [EvWrite (List.map byte_of_Z (cusd_command h ++ [13]));
                     EvSleep (1000 * time_response s)] ++ evs /\
       forallb (fun e => negb (is_sleep e)) evs = true) /\
  (forall e, encode ussd = Raise e -> r = (s, Raise e)).
Proof.
  cbv zeta. unfold send_ussd. split.
  - intros h He Hw. unfold bind at 1, lift at 1. rewrite He.
    pose proof He as He'. apply encode_Ok in He' as (bs & _ & Hh).
    assert (Ha : Forall (fun c => 0 <= c < 128) (cusd_command h ++ [13])).
    { unfold cusd_command. rewrite <- !app_assoc.
      repeat (apply Forall_app; split); try (by repeat constructor).
      rewrite Hh. apply hex_upper_ascii, hex4_groups_hex_upper. }
    pose proof (utf8_encode_ascii _ Ha) as Hb.
    unfold bind at 1. fold (cusd_command h).
    rewrite (send_command_run unicode_todecimal additional_function_call
               (cusd_command h) _ s Hb Hw).
    destruct (parser_read _) as [lines|e].
    + match goal with |- context [parser_command _ _ lines ?s1] =>
        destruct (urc_effects_parse unicode_todecimal additional_function_call
                    lines s1) as [_ [_ (evs & Ht & Hn)]];
        destruct (parser_command unicode_todecimal additional_function_call
                    lines s1) as [s2 [x|e]] end;
        cbn [fst snd] in *; exists evs; split; try done;
        cbv beta iota delta [ret fst snd]; rewrite Ht; cbn [trace set_trace set_buffer set_connect set_clock];
        by rewrite <- !app_assoc.
    + cbn. exists []. by rewrite <- !app_assoc.
  - intros e He. unfold bind, lift. by rewrite He.
Qed.
End Listing.

(** ** Start-up *)

Lemma power_step_refl s : power_step s s.
Proof. left. apply same_power_refl. Qed.

Lemma power_step_trans s1 s2 s3 :
  power_step s1 s2 -> power_step s2 s3 -> power_step s1 s3.
Proof.
  intros [[H1 H2]|H] [[H3 H4]|H']; try (by right).
  - left. split; congruence.
  - right. destruct H. split; congruence.
Qed.

Lemma recorded_refl s : recorded s s.
Proof. by repeat split. Qed.

Lemma recorded_trans s1 s2 s3 : recorded s1 s2 -> recorded s2 s3 -> recorded s1 s3.
Proof. intros (?&?&?&?&?) (?&?&?&?&?). repeat split; auto. Qed.

Lemma facts_kept_recorded s s' : facts_kept s s' -> recorded s s'.
Proof.
  intros (_&_&_&_&Ho&Hr&Hb&Hd&Hv&_). unfold recorded.
  rewrite Ho, Hr, Hb, Hd, Hv. by repeat split.
Qed.

Ltac power_steps := repeat keeps_step power_step_refl power_step_trans.

Section StartUp.
Variable unicode_todecimal : Z -> option Z.
Variable additional_function_call : Call -> option exn.

Let classify := checking_incoming_data unicode_todecimal additional_function_call.
Let transact := send_command unicode_todecimal additional_function_call.

Lemma power_step_classify data : keeps power_step (classify data).
Proof.
  intros s. destruct (classify data s) as [s' r] eqn:E.
  destruct (classify_result _ _ data s s' r E) as (_ & H2 & H3). cbn [fst].
  destruct r as [[|]|e].
  - right. by apply H3.
  - left. by apply H2.
  - left. by apply H2.
Qed.

Lemma power_step_transact c : keeps power_step (transact c).
Proof.
  unfold transact, send_command, parser_command, raise_Sim900Error, command,
    to_bytes, write, sleep, read, emit.
  power_steps;
    first [ apply power_step_classify
          | apply keeps_modify; intros ?; by left
          | intros ?; by left ].
Qed.

Lemma recorded_transact c : keeps recorded (transact c).
Proof. intros s. apply facts_kept_recorded, facts_kept_transact. Qed.

Lemma power_step_pre_up :
  keeps power_step (pre_up unicode_todecimal additional_function_call).
Proof.
  unfold pre_up, checking_status_board, get_product_info, get_revision,
    get_operator, get_csq.
  power_steps;
    first [ apply power_step_transact
          | apply keeps_modify; intros ?; by left
          | intros ?; by left ].
Qed.

Lemma get_product_info_Ok s s' d :
  get_product_info unicode_todecimal additional_function_call s = (s', Ok d) ->
  dev s' = Some d /\ recorded s s'.
Proof.
  unfold get_product_info. intros H.
  apply bind_Ok in H as (s1 & r & H1 & H).
  apply bind_Ok in H as (s2 & d' & H2 & H).
  apply bind_Ok in H as (s3 & [] & H3 & H).
  injection H as <- <-. unfold modify in H3. injection H3 as <-.
  unfold lift in H2. injection H2 as <- ?. split; [done|].
  pose proof (recorded_transact (lit "ATI") s) as Hr. fold transact in H1.
  rewrite H1 in Hr. cbn [fst] in Hr. destruct Hr as (?&?&?&?&?).
  repeat split; try done; by eexists.
Qed.

Lemma get_revision_Ok s s' d :
  get_revision unicode_todecimal additional_function_call s = (s', Ok d) ->
  rev s' = Some d /\ recorded s s'.
Proof.
  unfold get_revision. intros H.
  apply bind_Ok in H as (s1 & r & H1 & H).
  apply bind_Ok in H as (s2 & d' & H2 & H).
  apply bind_Ok in H as (s3 & [] & H3 & H).
  injection H as <- <-. unfold modify in H3. injection H3 as <-.
  unfold lift in H2. injection H2 as <- ?. split; [done|].
  pose proof (recorded_transact (lit "AT+GMR") s) as Hr. fold transact in H1.
  rewrite H1 in Hr. cbn [fst] in Hr. destruct Hr as (?&?&?&?&?).
  repeat split; try done; by eexists.
Qed.

Lemma get_operator_Ok s s' d :
  get_operator unicode_todecimal additional_function_call s = (s', Ok d) ->
  operator s' = Some d /\ recorded s s'.
Proof.
  unfold get_operator. intros H.
  apply bind_Ok in H as (s1 & r & H1 & H).
  apply bind_Ok in H as (s2 & c & H2 & H).
  apply bind_Ok in H as (s3 & f & H3 & H).
  apply bind_Ok in H as (s4 & [] & H4 & H).
  injection H as <- <-. unfold modify in H4. injection H4 as <-.
  unfold lift in H2, H3. injection H2 as <- ?. injection H3 as <- ?.
  split; [done|].
  pose proof (recorded_transact (lit "AT+COPS?") s) as Hr. fold transact in H1.
  rewrite H1 in Hr. cbn [fst] in Hr. destruct Hr as (?&?&?&?&?).
  repeat split; try done; by eexists.
Qed.

Lemma get_csq_Ok s s' :
  get_csq unicode_todecimal additional_function_call s = (s', Ok tt) ->
  is_Some (rssi s') /\ is_Some (ber s') /\ recorded s s'.
Proof.
  unfold get_csq. intros H.
  apply bind_Ok in H as (s1 & r & H1 & H).
  apply bind_Ok in H as (s2 & c & H2 & H).
  apply bind_Ok in H as (s3 & f & H3 & H).
  unfold lift in H2, H3. injection H2 as <- ?. injection H3 as <- ?.
  destruct (split comma f) as [|a [|b [|]]]; try done.
  apply bind_Ok in H as (s4 & [] & H4 & H).
  unfold modify in H4, H. injection H4 as <-. injection H as <-.
  split; [by eexists|]. split; [by eexists|].
  pose proof (recorded_transact (lit "AT+CSQ") s) as Hr. fold transact in H1.
  rewrite H1 in Hr. cbn [fst] in Hr. destruct Hr as (?&?&?&?&?).
  repeat split; try done; by eexists.
Qed.

Lemma pre_up_Ok s s' :
  pre_up unicode_todecimal additional_function_call s = (s', Ok tt) ->
  is_Some (dev s') /\ is_Some (rev s') /\ is_Some (operator s') /\
  is_Some (rssi s') /\ is_Some (ber s').
Proof.
  unfold pre_up, checking_status_board. intros H.
  apply bind_Ok in H as (s1 & ? & _ & H).
  apply bind_Ok in H as (s2 & ? & _ & H).
  apply bind_Ok in H as (s3 & [] & Hb & H).
  apply bind_Ok in H as (s4 & ? & H4 & H).
  apply bind_Ok in H as (s5 & ? & H5 & H).
  injection H as <-.
  apply bind_Ok in Hb as (t1 & d & Hd & Hb).
  apply bind_Ok in Hb as (t2 & v & Hv & Hb).
  apply bind_Ok in Hb as (t3 & o & Ho & Hb).
  apply get_product_info_Ok in Hd as [Hd _].
  apply get_revision_Ok in Hv as [Hv Rv].
  apply get_operator_Ok in Ho as [Ho Ro].
  apply get_csq_Ok in Hb as (Hr & Hbe & Rc).
  pose proof (recorded_transact (lit "AT+CLIP=1") s3) as R4.
  pose proof (recorded_transact (lit "AT+CMGF=0") s4) as R5.
  fold transact in H4, H5. rewrite H4 in R4. rewrite H5 in R5. cbn [fst] in *.
  pose proof (recorded_trans _ _ _ R4 R5) as Rend.
  pose proof (recorded_trans _ _ _ Rv (recorded_trans _ _ _ Ro Rc)) as Rd.
  pose proof (recorded_trans _ _ _ Ro Rc) as Rr.
  destruct Rend as (E1&E2&E3&E4&E5).
  destruct Rd as (D1&_), Rr as (_&V2&_), Rc as (_&_&O3&_).
  repeat split.
  - apply E1, D1. by eexists.
  - apply E2, V2. by eexists.
  - apply E3, O3. by eexists.
  - by apply E4.
  - by apply E5.
Qed.

(** X25.  The session that [simple_start] hands back has the product
    name, the revision, the operator and both signal figures recorded, and
    it is marked connected exactly when no power-down notice was seen
    during the start-up. *)
Theorem simple_start_session tty0 speed0 port now0 s9 :
  simple_start unicode_todecimal additional_function_call tty0 speed0 port now0
    = Ok s9 ->
  (is_Some (dev s9) /\ is_Some (rev s9) /\ is_Some (operator s9) /\
   is_Some (rssi s9) /\ is_Some (ber s9)) /\
  status s9 = negb (npd s9).
Proof.
  unfold simple_start. destruct (match speed0 with inl _ => _ | inr _ => _ end)
    as [n|]; [|done].
  unfold bind at 1. unfold connect at 1, modify at 1.
  set (s0 := set_status true (Sim900_init tty0 n port now0)).
  destruct (pre_up _ _ s0) as [s' [[]|e]] eqn:E; [|done]. intros [= <-].
  split; [by apply pre_up_Ok in E|].
  pose proof (power_step_pre_up s0) as Hp. rewrite E in Hp. cbn [fst] in Hp.
  destruct Hp as [[H1 H2]|[H1 H2]].
  - by rewrite H1, H2.
  - by rewrite H1, H2.
Qed.
End StartUp.

(** ** Sending a message *)

Lemma same_clock_refl s : same_clock s s.
Proof. by split. Qed.

Lemma same_clock_trans s1 s2 s3 :
  same_clock s1 s2 -> same_clock s2 s3 -> same_clock s1 s3.
Proof. intros [] []. split; congruence. Qed.

Ltac clocks := repeat keeps_step same_clock_refl same_clock_trans.

Lemma same_clock_command c : keeps same_clock (command c).
Proof.
  unfold command, to_bytes, write, emit. clocks. by apply keeps_modify.
Qed.

Lemma same_clock_write b : keeps same_clock (write b).
Proof. unfold write, emit. clocks. by apply keeps_modify. Qed.

Lemma same_clock_to_bytes c : keeps same_clock (to_bytes c).
Proof. unfold to_bytes. clocks. Qed.

Lemma sleep_Ok ms s s' :
  sleep ms s = (s', Ok tt) ->
  clock s' = clock s + ms /\ time_response s' = time_response s.
Proof.
  unfold sleep. destruct (ms <? 0); [done|]. by intros [= <-].
Qed.

Section Sending.
Variable encodeSmsSubmitPdu : pystr -> pystr -> Res (list Pdu).
Variable unicode_todecimal : Z -> option Z.
Variable additional_function_call : Call -> option exn.

Let parse := parser_command unicode_todecimal additional_function_call.
Let transact := send_command unicode_todecimal additional_function_call.

Lemma same_clock_read_parse s s1 s' lines r :
  read s = (s1, Ok lines) -> parse lines s1 = (s', r) -> same_clock s s'.
Proof.
  unfold read, read_all. intros H1 H2.
  apply bind_Ok in H1 as (t1 & b & [= <- <-] & H1).
  apply bind_Ok in H1 as (t2 & [] & [= <-] & [= <- _]).
  match type of H2 with parse lines ?t = _ =>
    pose proof (urc_effects_parse unicode_todecimal additional_function_call
                  lines t) as Hu end.
  fold parse in Hu. rewrite H2 in Hu.
  destruct Hu as [(_&_&Ht&_&_&_&_&_&_&_&_&_&Hc) _]. by split.
Qed.

Lemma transact_Ok_clock c s s' r :
  transact c s = (s', Ok r) ->
  clock s' = clock s + 1000 * time_response s /\
  time_response s' = time_response s.
Proof.
  unfold transact, send_command. intros H.
  apply bind_Ok in H as (s1 & n & H1 & H).
  apply bind_Ok in H as (s2 & w & [= <- <-] & H).
  apply bind_Ok in H as (s3 & [] & H3 & H).
  apply bind_Ok in H as (s4 & lines & H4 & H).
  pose proof (same_clock_command c s) as [C1 T1]. rewrite H1 in C1, T1.
  cbn [fst] in C1, T1.
  apply sleep_Ok in H3 as [C3 T3].
  destruct (same_clock_read_parse _ _ _ _ _ H4 H) as [C4 T4].
  split; congruence.
Qed.

Lemma send_sms_loop pdus : forall s s',
  for_each pdus (fun m =>
    let* _ := command (lit "AT+CMGS=" ++ str_of_int (tpduLength m)) in
    let* _ := sleep 500 in
    let* b := to_bytes (pdu_str m) in
    let* _ := write b in
    let* _ := sleep 500 in
    let* _ := transact [26] in
    ret tt) s = (s', Ok tt) ->
  clock s' = clock s + Z.of_nat (length pdus) * (1000 + 1000 * time_response s) /\
  time_response s' = time_response s.
Proof.
  induction pdus as [|m pdus IH]; intros s s' H.
  - injection H as <-. split; [simpl; lia|done].
  - cbn [for_each] in H.
    apply bind_Ok in H as (s6 & [] & Hb & H).
    apply IH in H as [Hc Ht]. set (n := Z.of_nat (length pdus)) in *.
    apply bind_Ok in Hb as (s1 & ? & H1 & Hb).
    apply bind_Ok in Hb as (s2 & [] & H2 & Hb).
    apply bind_Ok in Hb as (s3 & b & H3 & Hb).
    apply bind_Ok in Hb as (s4 & ? & H4 & Hb).
    apply bind_Ok in Hb as (s5 & [] & H5 & Hb).
    apply bind_Ok in Hb as (s7 & ? & H6 & [= ->]).
    match type of H1 with command ?c s = _ =>
      pose proof (same_clock_command c s) as [C1 T1] end.
    rewrite H1 in C1, T1.
    apply sleep_Ok in H2 as [C2 T2].
    pose proof (same_clock_to_bytes (pdu_str m) s2) as [C3 T3].
    rewrite H3 in C3, T3.
    pose proof (same_clock_write b s3) as [C4 T4]. rewrite H4 in C4, T4.
    apply sleep_Ok in H5 as [C5 T5].
    apply transact_Ok_clock in H6 as [C6 T6]. cbn [fst] in *.
    assert (T : time_response s6 = time_response s) by congruence.
    split; [|congruence]. rewrite T in Hc.
    replace (Z.of_nat (length (m :: pdus))) with (n + 1)
      by (simpl length; lia).
    rewrite T5, T4, T3, T2, T1 in C6. lia.
Qed.

(** X26.  A message that has been sent took, for every frame the codec
    cut it into, two half-second pauses and one response wait. *)
Theorem send_sms_duration phone text pdus s s' :
  encodeSmsSubmitPdu phone text = Ok pdus ->
  send_sms encodeSmsSubmitPdu unicode_todecimal additional_function_call
    phone text s = (s', Ok tt) ->
  clock s' =
    clock s + Z.of_nat (length pdus) * (1000 + 1000 * time_response s).
Proof.
  intros He H. unfold send_sms in H. unfold bind at 1, lift at 1 in H.
  rewrite He in H. by apply send_sms_loop in H as [H _].
Qed.
End Sending.

(** ** The properties at work *)

Lemma checking_incoming_data_result_witness :
  npd (fst (checking_incoming_data no_digits no_handler_c [RING; clip_line] fresh_session))
    = npd fresh_session /\
  status (fst (checking_incoming_data no_digits no_handler_c [RING; clip_line] fresh_session))
    = status fresh_session.
Proof.
  apply (proj2 (checking_incoming_data_result no_digits no_handler_c
                  [RING; clip_line] fresh_session)).
  discriminate.
Defined.

Lemma run_exits_stopped_witness :
  npd (fst (run no_codec no_digits no_handler_c no_handler_m 1 1 powering_down)) = true.
Proof.
  apply (run_exits_stopped no_codec no_digits no_handler_c no_handler_m 1 1 powering_down).
  reflexivity.
Defined.

Lemma drain_in_order_witness :
  drain no_codec no_digits no_handler_c no_handler_m 3
    (set_task_queue (List.map TaskMessage two_messages) fresh_session) =
  (set_task_queue []
     (set_trace (List.map EvMessage two_messages)
        (set_task_queue (List.map TaskMessage two_messages) fresh_session)),
   Ok true).
Proof.
  refine (drain_in_order no_codec no_digits no_handler_c no_handler_m two_messages
            (set_task_queue (List.map TaskMessage two_messages) fresh_session) eq_refl _).
  repeat (apply Forall_cons; split; [reflexivity|]). apply Forall_nil. exact I.
Defined.

Lemma drain_failing_task_witness :
  drain no_codec no_digits no_handler_c (failing_handler ValueError) 2
    (set_task_queue (List.map TaskMessage two_messages) fresh_session) =
  (set_trace [EvMessage (mkMessage (lit "+15551234567") 1 (lit "first"))]
     (set_task_queue [TaskMessage (mkMessage (lit "USSD") 2 (lit "second"))]
        (set_task_queue (List.map TaskMessage two_messages) fresh_session)),
   Raise ValueError).
Proof.
  exact (drain_failing_task no_codec no_digits no_handler_c (failing_handler ValueError)
           1 (mkMessage (lit "+15551234567") 1 (lit "first"))
           [TaskMessage (mkMessage (lit "USSD") 2 (lit "second"))] ValueError
           (set_task_queue (List.map TaskMessage two_messages) fresh_session)
           eq_refl eq_refl).
Defined.

Lemma send_command_effects_witness :
  let s' := fst (send_command no_digits no_handler_c (lit "AT")
                   (session_on [(1000, sample_response); (5000, sample_response)])) in
  buffer s' = Some sample_response /\
  clock s' = 3000 /\
  _connect s' = [(5000, sample_response)] /\
  exists evs,
    trace s' = [EvWrite (List.map byte_of_Z (lit "AT" ++ [13])); EvSleep 3000] ++ evs /\
    forallb (fun e => negb (is_sleep e)) evs = true.
Proof.
  refine (send_command_effects no_digits no_handler_c (lit "AT")
            (List.map byte_of_Z (lit "AT" ++ [13]))
            (session_on [(1000, sample_response); (5000, sample_response)]) eq_refl _).
  by vm_compute.
Defined.

Lemma send_command_no_response_witness :
  snd (send_command no_digits no_handler_c (lit "AT") fresh_session)
    = Raise Sim900NoResponse.
Proof.
  refine (send_command_no_response no_digits no_handler_c (lit "AT")
            (List.map byte_of_Z (lit "AT" ++ [13])) fresh_session eq_refl _ eq_refl).
  by vm_compute.
Defined.

Lemma get_csq_outcome_witness :
  exists a b,
    rssi (fst (get_csq no_digits no_handler_c (session_on [(1000, answer csq_answer)])))
      = Some a /\
    ber (fst (get_csq no_digits no_handler_c (session_on [(1000, answer csq_answer)])))
      = Some b /\
    contains comma a = false /\ contains comma b = false.
Proof.
  apply (proj1 (get_csq_outcome no_digits no_handler_c
                  (session_on [(1000, answer csq_answer)]))).
  reflexivity.
Defined.

Lemma get_operator_outcome_witness :
  operator (fst (get_operator no_digits no_handler_c (session_on [(1000, answer cops_answer)])))
    = Some (lit "MTS") /\
  contains dquote (lit "MTS") = false /\ contains comma (lit "MTS") = false.
Proof.
  apply (proj1 (get_operator_outcome no_digits no_handler_c
                  (session_on [(1000, answer cops_answer)])) (lit "MTS")).
  reflexivity.
Defined.

Lemma incoming_call_handles_each_witness :
  incoming_call no_handler_c [RING; clip_line] fresh_session =
    (set_trace [EvWrite ATH_bytes; EvCall (mkCall (lit "+15551234567") 0)] fresh_session,
     Ok tt).
Proof.
  refine (incoming_call_handles_each no_handler_c [RING; clip_line]
            [lit "+15551234567"] fresh_session _ _).
  - change (Forall2 (fun d p => phone_of d = Ok p) [clip_line] [lit "+15551234567"]).
    apply Forall2_cons; split; [reflexivity|apply Forall2_nil_2].
  - apply Forall_cons; split; [reflexivity|]. apply Forall_nil. exact I.
Defined.

Lemma incoming_message_queues_fetches_witness :
  exists ids,
    Forall2 (fun d n => sms_id_of no_digits d = Ok n)
      (List.filter (contains CMTI_SM) [first_notification; RING]) ids /\
    _task_queue (set_task_queue [TaskIncomingSms 1] (set_many_sms true fresh_session))
      = _task_queue fresh_session ++ List.map TaskIncomingSms ids /\
    trace (set_task_queue [TaskIncomingSms 1] (set_many_sms true fresh_session))
      = trace fresh_session.
Proof.
  apply (incoming_message_queues_fetches no_digits [first_notification; RING]
           fresh_session). reflexivity.
Defined.

Lemma incoming_ussd_decodes_payload_witness :
  incoming_ussd no_digits
    [cusd_line (lit "+CUSD: 0") (lit "0041D83DDE00") (lit "72")] fresh_session =
  (set_task_queue [TaskMessage (mkMessage (lit "USSD") 0 [65; 55357; 56832])]
     fresh_session,
   Ok tt).
Proof.
  exact (incoming_ussd_decodes_payload no_digits (lit "+CUSD: 0") (lit "72")
           astral_sample (lit "0041D83DDE00") fresh_session eq_refl eq_refl eq_refl).
Defined.

Lemma join_parts_ascending_witness :
  join_parts (list_to_map [(1, lit "A"); (2, lit "B"); (5, lit "C")]) = lit "ABC".
Proof.
  apply (join_parts_ascending [(1, lit "A"); (2, lit "B"); (5, lit "C")]).
  repeat (apply SSorted_cons; [|repeat constructor; lia]). apply SSorted_nil.
Defined.

Lemma AdditionMessages_call_repeat_witness :
  AdditionMessages_call two_fragment_codec (lit "first") pending_entry =
    (pending_entry, Ok None).
Proof.
  apply (AdditionMessages_call_repeat two_fragment_codec (lit "first") ∅ pending_entry).
  reflexivity.
Defined.

Lemma phone_of_clip_line_witness :
  phone_of (clip_line_of (lit "+15551234567") (lit "145,,,,0")) = Ok (lit "+15551234567").
Proof.
  apply (phone_of_clip_line (lit "+15551234567") (lit "145,,,,0")); [discriminate|].
  repeat (apply Forall_cons; split; [reflexivity|]). apply Forall_nil. exact I.
Defined.

Lemma sms_id_of_cmti_line_witness :
  (contains CMTI_SM (cmti_line_of (lit "12")) = true /\
   sms_id_of no_digits (cmti_line_of (lit "12")) = Ok 12) /\
  sms_id_of no_digits (cmti_line_of (List.repeat 49 4301)) = Raise ValueError.
Proof.
  split.
  - apply (sms_id_of_cmti_line no_digits (lit "12")); [discriminate|].
    repeat (apply Forall_cons; split; [reflexivity|]). apply Forall_nil. exact I.
  - refine (proj2 (sms_id_of_cmti_line no_digits (List.repeat 49 4301) _ _)).
    + discriminate.
    + apply List.Forall_forall. intros c Hc. apply List.repeat_spec in Hc. by subst c.
Defined.

Lemma collect_sms_odd_lines_witness :
  collect_sms two_fragment_codec
    [lit "+CMGL: 1,1,,23"; lit "first"; lit "+CMGL: 2,1,,23"; lit "second"]
    fresh_session =
  (fresh_session, Ok [mkMessage (lit "+15551234567") 1 (lit "AB")]).
Proof.
  exact (proj1 (collect_sms_odd_lines two_fragment_codec
                  [lit "+CMGL: 1,1,,23"; lit "first"; lit "+CMGL: 2,1,,23"; lit "second"]
                  fresh_session)).
Defined.

Lemma send_ussd_command_witness :
  exists evs,
    trace (fst (send_ussd no_digits no_handler_c (lit "*1#") fresh_session)) =
      trace fresh_session ++
      [EvWrite (List.map byte_of_Z (cusd_command (lit "002A00310023") ++ [13]));
       EvSleep (1000 * time_response fresh_session)] ++ evs /\
    forallb (fun e => negb (is_sleep e)) evs = true.
Proof.
  refine (proj1 (send_ussd_command no_digits no_handler_c (lit "*1#") fresh_session)
            (lit "002A00310023") eq_refl _).
  by vm_compute.
Defined.

Lemma simple_start_session_witness :
  exists s9,
    simple_start no_digits no_handler_c (lit "/dev/ttyUSB0") (inr (lit "19200"))
      start_up_port 0 = Ok s9 /\
    (is_Some (dev s9) /\ is_Some (rev s9) /\ is_Some (operator s9) /\
     is_Some (rssi s9) /\ is_Some (ber s9)) /\
    status s9 = negb (npd s9).
Proof.
  destruct (simple_start no_digits no_handler_c (lit "/dev/ttyUSB0")
              (inr (lit "19200")) start_up_port 0) as [s9|e] eqn:E.
  - exists s9. split; [reflexivity|].
    exact (simple_start_session no_digits no_handler_c _ _ _ _ s9 E).
  - exfalso. revert E. vm_compute. discriminate.
Defined.

Lemma send_sms_duration_witness :
  exists s',
    send_sms one_frame no_digits no_handler_c (lit "+15551234567") (lit "Hello")
      (session_on [(2000, answer submit_answer)]) = (s', Ok tt) /\
    clock s' = 4000.
Proof.
  destruct (send_sms one_frame no_digits no_handler_c (lit "+15551234567") (lit "Hello")
              (session_on [(2000, answer submit_answer)])) as [s' r] eqn:E.
  assert (Hr : r = Ok tt).
  { revert E. vm_compute. by intros [= _ <-]. }
  subst r. exists s'. split; [reflexivity|].
  exact (send_sms_duration one_frame no_digits no_handler_c (lit "+15551234567")
           (lit "Hello") _ _ s' eq_refl E).
Defined.

(** ** Fetching a message *)

Section Fetching.
Variable decodeSmsPdu : pystr -> Res SmsDict.
Variable unicode_todecimal : Z -> option Z.
Variable additional_function_call : Call -> option exn.

Let transact := send_command unicode_todecimal additional_function_call.

Lemma transact_Ok_auto c s s' r :
  transact c s = (s', Ok r) -> auto_del_message s' = auto_del_message s.
Proof.
  intros H. pose proof (facts_kept_transact unicode_todecimal
                          additional_function_call c s) as F.
  fold transact in F. rewrite H in F. by destruct F as (_&_&_&?&_).
Qed.

(** X27.  A fetch that returns has taken one response wait, and a second
    one for the deletion when [auto_del_message] is set. *)
Theorem get_sms_duration sms_id s s' msg :
  get_sms decodeSmsPdu unicode_todecimal additional_function_call sms_id s
    = (s', Ok msg) ->
  clock s' =
    clock s + (if auto_del_message s then 2 else 1) * (1000 * time_response s).
Proof.
  unfold get_sms. intros H.
  apply bind_Ok in H as (s1 & r & H1 & H).
  apply bind_Ok in H as (s2 & raw & [= <- _] & H).
  apply bind_Ok in H as (s3 & m & H3 & H).
  apply bind_Ok in H as (s4 & auto & [= <- <-] & H).
  apply bind_Ok in H as (s5 & [] & H5 & [= <- _]).
  fold transact in H1. pose proof (transact_Ok_auto _ _ _ _ H1) as A1.
  apply transact_Ok_clock in H1 as [C1 T1].
  unfold call_a in H3.
  destruct (AdditionMessages_call decodeSmsPdu raw (_a s1)) as [m' o].
  injection H3 as <- _. cbn [auto_del_message clock time_response set_a] in *.
  rewrite <- A1. destruct (auto_del_message s1).
  - unfold del_sms in H5. apply bind_Ok in H5 as (s6 & ? & H6 & [= <-]).
    apply transact_Ok_clock in H6 as [C6 T6].
    cbn [clock time_response set_a] in *. lia.
  - injection H5 as <-. cbn [clock set_a]. lia.
Qed.
End Fetching.

Lemma get_sms_duration_witness :
  exists s',
    get_sms two_fragment_codec no_digits no_handler_c 5 fetching =
      (s', Ok (Some (mkMessage (lit "+15551234567") 1 (lit "AB")))) /\
    clock s' = 6000.
Proof.
  destruct (get_sms two_fragment_codec no_digits no_handler_c 5 fetching)
    as [s' r] eqn:E.
  assert (Hr : r = Ok (Some (mkMessage (lit "+15551234567") 1 (lit "AB")))).
  { revert E. vm_compute. by intros [= _ <-]. }
  subst r. exists s'. split; [reflexivity|].
  exact (get_sms_duration two_fragment_codec no_digits no_handler_c 5 fetching s' _ E).
Defined.
